(** * Distrack price tracker: a shallow embedding of the extraction,
      arbitration, preference and retry logic, with the properties of the
      design document settled against it.

    Conventions of the embedding.
    - Go [float64] values (prices, confidences, success rates) are the exact
      rationals they denote ([Q]); comparisons are the boolean tests of
      [Float64]. Equalities between computed rationals are stated with [==].
    - Go [int] and SQL [INTEGER] are [Z]; [time.Time] is a number of
      nanoseconds ([Z]) and [time.Duration] is a number of nanoseconds.
    - Go strings are byte strings ([string]); a non-ASCII rune is the sequence
      of its UTF-8 bytes.
    - The relational tables are finite maps keyed by their primary key
      ([gmap Z _]) or, where order matters, lists of rows. *)

From Stdlib Require Import ZArith QArith Qminmax Qabs String Ascii List Bool Lia.
From Stdlib Require Import Lqa.
From stdpp Require Import gmap.
Import ListNotations.

Open Scope Z_scope.

(** ** Go primitives used by the modelled code *)

Module Float64.

Definition gt (a b : Q) : bool := negb (Qle_bool a b).
Definition ge (a b : Q) : bool := Qle_bool b a.
Definition lt (a b : Q) : bool := negb (Qle_bool b a).
Definition le (a b : Q) : bool := Qle_bool a b.
Definition eqb (a b : Q) : bool := Qeq_bool a b.

(** [math.Abs] *)
Definition Abs (a : Q) : Q := if lt a 0 then (- a)%Q else a.

End Float64.

Module GoStrings.

Local Open Scope string_scope.

Definition is_upper (c : ascii) : bool :=
  (Nat.leb 65 (nat_of_ascii c) && Nat.leb (nat_of_ascii c) 90)%bool.

Definition lower_ascii (c : ascii) : ascii :=
  if is_upper c then ascii_of_nat (nat_of_ascii c + 32) else c.

(** [strings.ToLower], on ASCII text. *)
Fixpoint ToLower (s : string) : string :=
  match s with
  | EmptyString => EmptyString
  | String c s' => String (lower_ascii c) (ToLower s')
  end.

Fixpoint HasPrefix (s p : string) : bool :=
  match p, s with
  | EmptyString, _ => true
  | String _ _, EmptyString => false
  | String a p', String b s' => (Ascii.eqb a b && HasPrefix s' p')%bool
  end.

(** [strings.Contains] *)
Fixpoint Contains (s sub : string) : bool :=
  if HasPrefix s sub then true
  else match s with
       | EmptyString => false
       | String _ s' => Contains s' sub
       end.

Fixpoint drop (n : nat) (s : string) : string :=
  match n, s with
  | O, _ => s
  | S n', String _ s' => drop n' s'
  | S _, EmptyString => EmptyString
  end.

(** [strings.ReplaceAll s old new] for a non-empty [old]: a left-to-right
    scan replacing non-overlapping occurrences. The fuel is the number of
    bytes still to scan. *)
Fixpoint replace_from (fuel : nat) (s old new : string) : string :=
  match fuel with
  | O => s
  | S fuel' =>
      match s with
      | EmptyString => EmptyString
      | String c s' =>
          if HasPrefix s old
          then new ++ replace_from fuel' (drop (String.length old) s) old new
          else String c (replace_from fuel' s' old new)
      end
  end.

Definition ReplaceAll (s old new : string) : string :=
  match old with
  | EmptyString => s
  | _ => replace_from (String.length s) s old new
  end.

(** White space of [strings.TrimSpace] within ASCII. *)
Definition is_space (c : ascii) : bool :=
  let n := nat_of_ascii c in
  (Nat.eqb n 32 || (Nat.leb 9 n && Nat.leb n 13))%bool.

Fixpoint TrimLeft (s : string) : string :=
  match s with
  | String c s' => if is_space c then TrimLeft s' else s
  | EmptyString => EmptyString
  end.

Fixpoint rev_acc (s acc : string) : string :=
  match s with
  | EmptyString => acc
  | String c s' => rev_acc s' (String c acc)
  end.

Definition rev (s : string) : string := rev_acc s EmptyString.

(** [strings.TrimSpace] *)
Definition TrimSpace (s : string) : string :=
  rev (TrimLeft (rev (TrimLeft s))).

(** The text [s] without its bytes equal to [c], and whether every byte of
    [s] satisfies [p]. *)
Fixpoint without (c : ascii) (s : string) : string :=
  match s with
  | EmptyString => EmptyString
  | String a s' => if Ascii.eqb c a then without c s' else String a (without c s')
  end.

Fixpoint all_bytes (p : ascii -> bool) (s : string) : bool :=
  match s with
  | EmptyString => true
  | String a s' => (p a && all_bytes p s')%bool
  end.

(** [for _, k := range keywords { if strings.Contains(s, k) { return true } }] *)
Definition contains_any (s : string) (keywords : list string) : bool :=
  existsb (Contains s) keywords.

End GoStrings.

Module GoTime.

Definition Nanosecond : Z := 1.
Definition Second : Z := 1000000000.
Definition Minute : Z := 60 * Second.
Definition Hour : Z := 60 * Minute.

End GoTime.

(** ** models/models.go *)

Module Models.

Import Float64 GoStrings.
Local Open Scope string_scope.

Record TrackedURL := {
  ID : Z;
  URL : string;
  Name : string;
  CurrentPrice : option Q;      (* sql.NullFloat64 *)
  OriginalPrice : option Q;     (* sql.NullFloat64 *)
  Currency : string;
  LastChecked : option Z;
  LastFailedAt : option Z;
  RetryCount : Z;
  NextRetryAt : option Z;
  CreatedAt : Z;
  UpdatedAt : Z;
  IsActive : bool
}.

Record PriceData := {
  pd_CurrentPrice : Q;
  pd_OriginalPrice : Q;
  pd_Currency : string;
  pd_DiscountPercentage : Q;
  pd_IsOnSale : bool;
  pd_Source : string;
  pd_ExtractionMethod : string;
  pd_Confidence : Q
}.

Record PriceHistory := {
  ph_URLID : Z;
  ph_Price : Q;
  ph_Currency : string;
  ph_DiscountPercentage : Q;
  ph_OriginalPrice : Q;
  ph_CheckedAt : Z
}.

Record PriceAlert := {
  pa_ID : Z;
  pa_URLID : Z;
  pa_TargetPrice : Q;
  pa_AlertType : string;
  pa_Percentage : Q;
  pa_IsActive : bool;
  pa_CreatedAt : Z;
  pa_TriggeredAt : option Z
}.

Record ScrapingPreference := {
  sp_URLID : Z;
  sp_Method : string;
  sp_Confidence : Q;
  sp_SuccessRate : Q;
  sp_LastUsed : Z;
  sp_CreatedAt : Z;
  sp_UpdatedAt : Z
}.

(** The request body of the feedback endpoint. *)
Record PriceFeedbackRequest := {
  fr_FeedbackID : string;
  fr_URLID : Z;
  fr_PrimaryCorrect : bool;
  fr_AlternativeCorrect : bool
}.

Definition GetCurrentPrice (t : TrackedURL) : Q :=
  match CurrentPrice t with Some p => p | None => 0%Q end.

Definition HasPrice (t : TrackedURL) : bool :=
  match CurrentPrice t with Some _ => true | None => false end.

(** [time.Now().After( *t.NextRetryAt )] *)
Definition CanRetry (now : Z) (t : TrackedURL) : bool :=
  match NextRetryAt t with
  | None => true
  | Some at_ => Z.ltb at_ now
  end.

Definition ShouldRetry (now : Z) (t : TrackedURL) : bool :=
  match LastFailedAt t with
  | None => false
  | Some _ => (CanRetry now t && Z.ltb (RetryCount t) 5)%bool
  end.

Definition retry_delay (count : Z) : Z :=
  match count with
  | 0 => 10 * GoTime.Minute
  | 1 => 30 * GoTime.Minute
  | 2 => 1 * GoTime.Hour
  | 3 => 3 * GoTime.Hour
  | 4 => 6 * GoTime.Hour
  | _ => 24 * GoTime.Hour
  end.

Definition GetRetryDelay (t : TrackedURL) : Z := retry_delay (RetryCount t).

Record PriceChangeThresholds := {
  MinDrop : Q;
  MaxIncrease : Q
}.

Definition luxuryKeywords : list string :=
  [ "chloe"; "louis vuitton"; "gucci"; "hermes"; "chanel"; "prada"; "fendi"; "balenciaga";
    "dior"; "celine"; "givenchy"; "saint laurent"; "valentino"; "bottega"; "moynat";
    "goyard"; "delvaux"; "mansur gavriel"; "strathberry"; "aspinal"; "mulberry";
    "leather"; "premium"; "luxury"; "designer"; "handbag"; "bag"; "purse"; "tote";
    "wallet"; "clutch"; "crossbody"; "shoulder bag"; "backpack"; "duffle" ].

Definition electronicsKeywords : list string :=
  [ "phone"; "smartphone"; "laptop"; "computer"; "tablet"; "ipad"; "iphone"; "samsung";
    "macbook"; "dell"; "hp"; "lenovo"; "asus"; "acer"; "msi"; "gaming"; "console";
    "playstation"; "xbox"; "nintendo"; "switch"; "headphones"; "earbuds"; "airpods";
    "camera"; "canon"; "nikon"; "sony"; "gopro"; "drone"; "tv"; "television"; "monitor";
    "keyboard"; "mouse"; "speaker"; "bluetooth"; "wireless"; "charger"; "cable" ].

Definition fashionKeywords : list string :=
  [ "shirt"; "t-shirt"; "pants"; "jeans"; "dress"; "skirt"; "jacket"; "coat"; "sweater";
    "sweatshirt"; "hoodie"; "blazer"; "suit"; "tie"; "scarf"; "hat"; "cap"; "shoes";
    "sneakers"; "boots"; "sandals"; "heels"; "flats"; "jewelry"; "watch"; "ring";
    "necklace"; "bracelet"; "earrings"; "sunglasses"; "belt"; "wallet"; "socks";
    "underwear"; "lingerie"; "swimwear"; "activewear"; "athletic"; "sportswear" ].

Definition isLuxuryProduct (productName : string) : bool :=
  contains_any productName luxuryKeywords.

Definition isElectronicsProduct (productName : string) : bool :=
  contains_any productName electronicsKeywords.

Definition isFashionProduct (productName : string) : bool :=
  contains_any productName fashionKeywords.

Definition getPriceChangeThresholds (t : TrackedURL) : PriceChangeThresholds :=
  let productName := ToLower (Name t) in
  if isLuxuryProduct productName then
    {| MinDrop := (-80)%Q; MaxIncrease := 200%Q |}
  else if isElectronicsProduct productName then
    {| MinDrop := (-60)%Q; MaxIncrease := 100%Q |}
  else if isFashionProduct productName then
    {| MinDrop := (-70)%Q; MaxIncrease := 150%Q |}
  else
    {| MinDrop := (-50)%Q; MaxIncrease := 100%Q |}.

(** The percent change [((newPrice - oldPrice) / oldPrice) * 100]. *)
Definition priceChange (oldPrice newPrice : Q) : Q :=
  (((newPrice - oldPrice) / oldPrice) * 100)%Q.

Definition IsPriceChangeRealistic (t : TrackedURL) (newPrice : Q) : bool :=
  if negb (HasPrice t) then true
  else
    let oldPrice := GetCurrentPrice t in
    if le oldPrice 0 then true
    else
      let change := priceChange oldPrice newPrice in
      let thresholds := getPriceChangeThresholds t in
      (ge change (MinDrop thresholds) && le change (MaxIncrease thresholds))%bool.

End Models.

(** A Go [(value, error)] result. *)
Inductive result (A : Type) : Type :=
| Ok (a : A)
| Err (msg : string).
Arguments Ok {A} a.
Arguments Err {A} msg.

(** ** repository/: the tables and the statements run against them *)

Module Repository.

Import Float64 Models.
Local Open Scope string_scope.

(** The statements of the repositories; the database is an external
    collaborator, and each statement may fail. *)
Inductive DbOp :=
| OpGetURLByID
| OpUpdateURLPrice
| OpAddPriceHistory
| OpMarkPriceCheckFailed
| OpMarkPriceCheckSuccess
| OpGetActiveAlertsForURL
| OpTriggerAlert
| OpGetPreference
| OpSavePreference.

Record DB := {
  tracked_urls : gmap Z TrackedURL;
  price_history : list PriceHistory;            (* in insertion order *)
  price_alerts : list PriceAlert;
  scraping_preferences : gmap Z ScrapingPreference;
  (* instrumentation: the calls of [CheckAlerts] made so far *)
  alert_evaluations : list (Z * Q)
}.

Definition set_tracked_urls (db : DB) (m : gmap Z TrackedURL) : DB :=
  {| tracked_urls := m; price_history := price_history db;
     price_alerts := price_alerts db;
     scraping_preferences := scraping_preferences db;
     alert_evaluations := alert_evaluations db |}.

Definition set_price_history (db : DB) (h : list PriceHistory) : DB :=
  {| tracked_urls := tracked_urls db; price_history := h;
     price_alerts := price_alerts db;
     scraping_preferences := scraping_preferences db;
     alert_evaluations := alert_evaluations db |}.

Definition set_price_alerts (db : DB) (a : list PriceAlert) : DB :=
  {| tracked_urls := tracked_urls db; price_history := price_history db;
     price_alerts := a;
     scraping_preferences := scraping_preferences db;
     alert_evaluations := alert_evaluations db |}.

Definition set_scraping_preferences (db : DB) (p : gmap Z ScrapingPreference) : DB :=
  {| tracked_urls := tracked_urls db; price_history := price_history db;
     price_alerts := price_alerts db;
     scraping_preferences := p;
     alert_evaluations := alert_evaluations db |}.

Definition log_alert_evaluation (db : DB) (urlID : Z) (price : Q) : DB :=
  {| tracked_urls := tracked_urls db; price_history := price_history db;
     price_alerts := price_alerts db;
     scraping_preferences := scraping_preferences db;
     alert_evaluations := alert_evaluations db ++ [(urlID, price)] |}.

Section Statements.

(** Which statements fail during the run under consideration. *)
Variable failing : DbOp -> bool.
(** The reading of [time.Now()]. *)
Variable now : Z.

(** [SELECT ... FROM tracked_urls WHERE id = $1 AND is_active = true] *)
Definition GetURLByID (db : DB) (id : Z) : result TrackedURL :=
  if failing OpGetURLByID then Err "failed to get URL"
  else match tracked_urls db !! id with
       | Some u => if IsActive u then Ok u else Err "URL not found"
       | None => Err "URL not found"
       end.

(** [UPDATE tracked_urls SET current_price = $2, original_price = $3,
    currency = $4, last_checked = $5, updated_at = $6 WHERE id = $1] *)
Definition UpdateURLPrice (db : DB) (id : Z) (priceData : PriceData)
  : DB * result unit :=
  if failing OpUpdateURLPrice then (db, Err "failed to update URL price")
  else
    let upd (u : TrackedURL) :=
      {| ID := ID u; URL := URL u; Name := Name u;
         CurrentPrice := Some (pd_CurrentPrice priceData);
         OriginalPrice := Some (pd_OriginalPrice priceData);
         Currency := pd_Currency priceData;
         LastChecked := Some now;
         LastFailedAt := LastFailedAt u;
         RetryCount := RetryCount u;
         NextRetryAt := NextRetryAt u;
         CreatedAt := CreatedAt u;
         UpdatedAt := now;
         IsActive := IsActive u |} in
    (set_tracked_urls db (alter upd id (tracked_urls db)), Ok tt).

(** [INSERT INTO price_history (url_id, price, currency,
    discount_percentage, original_price, checked_at) VALUES (...)] *)
Definition AddPriceHistory (db : DB) (urlID : Z) (priceData : PriceData)
  : DB * result unit :=
  if failing OpAddPriceHistory then (db, Err "failed to add price history")
  else
    let row :=
      {| ph_URLID := urlID;
         ph_Price := pd_CurrentPrice priceData;
         ph_Currency := pd_Currency priceData;
         ph_DiscountPercentage := pd_DiscountPercentage priceData;
         ph_OriginalPrice := pd_OriginalPrice priceData;
         ph_CheckedAt := now |} in
    (set_price_history db (price_history db ++ [row]), Ok tt).

(** [UPDATE tracked_urls SET last_failed_at = $1,
    retry_count = retry_count + 1, next_retry_at = $2, updated_at = $1
    WHERE id = $3], with [$2 = now.Add(time.Duration(10) * time.Minute)]. *)
Definition MarkPriceCheckFailed (db : DB) (id : Z) : DB * result unit :=
  let nextRetry := now + 10 * GoTime.Minute in
  if failing OpMarkPriceCheckFailed
  then (db, Err "failed to mark price check as failed")
  else
    let upd (u : TrackedURL) :=
      {| ID := ID u; URL := URL u; Name := Name u;
         CurrentPrice := CurrentPrice u;
         OriginalPrice := OriginalPrice u;
         Currency := Currency u;
         LastChecked := LastChecked u;
         LastFailedAt := Some now;
         RetryCount := RetryCount u + 1;
         NextRetryAt := Some nextRetry;
         CreatedAt := CreatedAt u;
         UpdatedAt := now;
         IsActive := IsActive u |} in
    (set_tracked_urls db (alter upd id (tracked_urls db)), Ok tt).

(** [UPDATE tracked_urls SET last_failed_at = NULL, retry_count = 0,
    next_retry_at = NULL, updated_at = $1 WHERE id = $2] *)
Definition MarkPriceCheckSuccess (db : DB) (id : Z) : DB * result unit :=
  if failing OpMarkPriceCheckSuccess
  then (db, Err "failed to mark price check as successful")
  else
    let upd (u : TrackedURL) :=
      {| ID := ID u; URL := URL u; Name := Name u;
         CurrentPrice := CurrentPrice u;
         OriginalPrice := OriginalPrice u;
         Currency := Currency u;
         LastChecked := LastChecked u;
         LastFailedAt := None;
         RetryCount := 0;
         NextRetryAt := None;
         CreatedAt := CreatedAt u;
         UpdatedAt := now;
         IsActive := IsActive u |} in
    (set_tracked_urls db (alter upd id (tracked_urls db)), Ok tt).

(** [SELECT ... FROM price_alerts WHERE url_id = $1 AND is_active = true
    AND triggered_at IS NULL] *)
Definition GetActiveAlertsForURL (db : DB) (urlID : Z) : result (list PriceAlert) :=
  if failing OpGetActiveAlertsForURL then Err "failed to get active alerts"
  else Ok (List.filter
             (fun a => (Z.eqb (pa_URLID a) urlID && pa_IsActive a
                        && match pa_TriggeredAt a with None => true | Some _ => false end)%bool)
             (price_alerts db)).

(** [UPDATE price_alerts SET triggered_at = $1 WHERE id = $2] *)
Definition TriggerAlert (db : DB) (alertID : Z) : DB * result unit :=
  if failing OpTriggerAlert then (db, Err "failed to trigger alert")
  else
    let upd (a : PriceAlert) :=
      if Z.eqb (pa_ID a) alertID
      then {| pa_ID := pa_ID a; pa_URLID := pa_URLID a;
              pa_TargetPrice := pa_TargetPrice a;
              pa_AlertType := pa_AlertType a;
              pa_Percentage := pa_Percentage a;
              pa_IsActive := pa_IsActive a;
              pa_CreatedAt := pa_CreatedAt a;
              pa_TriggeredAt := Some now |}
      else a in
    (set_price_alerts db (List.map upd (price_alerts db)), Ok tt).

Definition shouldTrigger (db : DB) (urlID : Z) (currentPrice : Q) (alert : PriceAlert) : bool :=
  if String.eqb (pa_AlertType alert) "price_drop" then
    le currentPrice (pa_TargetPrice alert)
  else if String.eqb (pa_AlertType alert) "percentage_drop" then
    match GetURLByID db urlID with
    | Err _ => false
    | Ok url =>
        match OriginalPrice url with
        | Some orig =>
            if gt orig 0 then
              let discountPercentage := (((orig - currentPrice) / orig) * 100)%Q in
              ge discountPercentage (pa_Percentage alert)
            else false
        | None => false
        end
    end
  else false.

Fixpoint check_alerts_loop (db : DB) (urlID : Z) (currentPrice : Q)
         (alerts triggered : list PriceAlert) : DB * list PriceAlert :=
  match alerts with
  | [] => (db, triggered)
  | alert :: rest =>
      if shouldTrigger db urlID currentPrice alert then
        match TriggerAlert db (pa_ID alert) with
        | (db', Ok _) =>
            let alert' :=
              {| pa_ID := pa_ID alert; pa_URLID := pa_URLID alert;
                 pa_TargetPrice := pa_TargetPrice alert;
                 pa_AlertType := pa_AlertType alert;
                 pa_Percentage := pa_Percentage alert;
                 pa_IsActive := pa_IsActive alert;
                 pa_CreatedAt := pa_CreatedAt alert;
                 pa_TriggeredAt := Some now |} in
            check_alerts_loop db' urlID currentPrice rest (triggered ++ [alert'])
        | (db', Err _) => check_alerts_loop db' urlID currentPrice rest triggered
        end
      else check_alerts_loop db urlID currentPrice rest triggered
  end.

(** [AlertRepository.CheckAlerts]; every call is logged in
    [alert_evaluations]. *)
Definition CheckAlerts (db : DB) (urlID : Z) (currentPrice : Q)
  : DB * result (list PriceAlert) :=
  let db := log_alert_evaluation db urlID currentPrice in
  match GetActiveAlertsForURL db urlID with
  | Err e => (db, Err e)
  | Ok alerts =>
      let '(db', triggered) := check_alerts_loop db urlID currentPrice alerts [] in
      (db', Ok triggered)
  end.

(** [PreferenceRepository.GetPreference]: a missing row is [(nil, nil)]. *)
Definition GetPreference (db : DB) (urlID : Z) : result (option ScrapingPreference) :=
  if failing OpGetPreference then Err "failed to get preference"
  else Ok (scraping_preferences db !! urlID).

(** [INSERT INTO scraping_preferences (url_id, method, confidence,
    success_rate, last_used, updated_at) VALUES ($1, $2, $3, 1.0, $4, $4)
    ON CONFLICT (url_id) DO UPDATE SET method, confidence, last_used,
    updated_at]; [created_at] takes the column default on insertion. *)
Definition SavePreference (db : DB) (urlID : Z) (method : string) (confidence : Q)
  : DB * result unit :=
  if failing OpSavePreference then (db, Err "failed to save preference")
  else
    let row :=
      match scraping_preferences db !! urlID with
      | Some old =>
          {| sp_URLID := sp_URLID old;
             sp_Method := method;
             sp_Confidence := confidence;
             sp_SuccessRate := sp_SuccessRate old;
             sp_LastUsed := now;
             sp_CreatedAt := sp_CreatedAt old;
             sp_UpdatedAt := now |}
      | None =>
          {| sp_URLID := urlID;
             sp_Method := method;
             sp_Confidence := confidence;
             sp_SuccessRate := 1%Q;
             sp_LastUsed := now;
             sp_CreatedAt := now;
             sp_UpdatedAt := now |}
      end in
    (set_scraping_preferences db (<[ urlID := row ]> (scraping_preferences db)), Ok tt).

End Statements.

End Repository.

(** ** scheduler/price_checker.go: the scheduled check *)

Module Scheduler.

Import Float64 Models Repository.

Section PriceChecker.

Variable failing : DbOp -> bool.
Variable now : Z.
(** [pc.scraper.ScrapePrice], an external collaborator. *)
Variable ScrapePrice : string -> result PriceData.

Definition checkURLPrice (db : DB) (url : TrackedURL) : DB :=
  match ScrapePrice (URL url) with
  | Err _ => db
  | Ok priceData =>
      let isRealistic := IsPriceChangeRealistic url (pd_CurrentPrice priceData) in
      if isRealistic then
        match UpdateURLPrice failing now db (ID url) priceData with
        | (db1, Err _) => db1
        | (db1, Ok _) =>
            let '(db2, _) := AddPriceHistory failing now db1 (ID url) priceData in
            let '(db3, _) := CheckAlerts failing now db2 (ID url) (pd_CurrentPrice priceData) in
            db3
        end
      else db
  end.

End PriceChecker.

End Scheduler.

(** ** handlers: the on-demand check and the feedback endpoint *)

Module Handlers.

Import Float64 GoStrings Models Repository.
Local Open Scope string_scope.

(** What a handler writes back, or the run-time panic that ends it. *)
Inductive Reply (A : Type) : Type :=
| writeJSON (status : Z) (body : A)
| writeError (status : Z) (message : string)
| panic (message : string).
Arguments writeJSON {A} status body.
Arguments writeError {A} status message.
Arguments panic {A} message.

Definition StatusOK : Z := 200.
Definition StatusBadRequest : Z := 400.
Definition StatusNotFound : Z := 404.
Definition StatusTooManyRequests : Z := 429.
Definition StatusInternalServerError : Z := 500.

Definition min (a b : Q) : Q := if lt a b then a else b.
Definition max (a b : Q) : Q := if gt a b then a else b.

(** The method the feedback handler switches to when the alternative result
    is confirmed: ["network"] when the current method mentions [yolo] or
    [ocr], ["yolo_ocr"] otherwise. *)
Definition alternativeMethod (method : string) : string :=
  if (Contains method "yolo" || Contains method "ocr")%bool
  then "network" else "yolo_ocr".

Record PriceFeedbackResponse := {
  Success : bool;
  UpdatedMethod : string;
  ConfidenceUpdated : bool
}.

Section WithEnvironment.

Variable failing : DbOp -> bool.
Variable now : Z.
(** [h.scraper], [nil] when the scraper could not be created, and its
    [ScrapePriceWithHybridMethod]. *)
Variable scraper : option (string -> Z -> result PriceData).

(** [CheckPriceNow]; [id] is the outcome of [strconv.Atoi(vars["id"])]. *)
Definition CheckPriceNow (db : DB) (id : option Z) : DB * Reply PriceData :=
  match id with
  | None => (db, writeError StatusBadRequest "Invalid URL ID")
  | Some id =>
      match GetURLByID failing db id with
      | Err e =>
          if String.eqb e "URL not found"
          then (db, writeError StatusNotFound "URL not found")
          else (db, writeError StatusInternalServerError "Failed to get URL")
      | Ok url =>
          if negb (CanRetry now url)
          then (db, writeError StatusTooManyRequests "Price check failed recently")
          else
            match scraper with
            | None => (db, writeError StatusInternalServerError "Scraper not available")
            | Some ScrapePriceWithHybridMethod =>
                match ScrapePriceWithHybridMethod (URL url) id with
                | Err _ =>
                    let '(db1, _) := MarkPriceCheckFailed failing now db id in
                    (db1, writeError StatusInternalServerError "Failed to scrape price")
                | Ok priceData =>
                    let '(db1, _) := MarkPriceCheckSuccess failing now db id in
                    match UpdateURLPrice failing now db1 id priceData with
                    | (db2, Err _) =>
                        (db2, writeError StatusInternalServerError "Failed to update URL price")
                    | (db2, Ok _) =>
                        let '(db3, _) := AddPriceHistory failing now db2 id priceData in
                        let isRealistic :=
                          IsPriceChangeRealistic url (pd_CurrentPrice priceData) in
                        let db4 :=
                          if isRealistic
                          then fst (CheckAlerts failing now db3 id (pd_CurrentPrice priceData))
                          else db3 in
                        (db4, writeJSON StatusOK priceData)
                    end
                end
            end
      end
  end.

(** [SubmitPriceFeedback]; [req] is the decoded request body, [None] when
    decoding fails. *)
Definition SubmitPriceFeedback (db : DB) (req : option PriceFeedbackRequest)
  : DB * Reply PriceFeedbackResponse :=
  match req with
  | None => (db, writeError StatusBadRequest "Invalid request body")
  | Some req =>
      if (String.eqb (fr_FeedbackID req) "" || Z.eqb (fr_URLID req) 0)%bool
      then (db, writeError StatusBadRequest "Feedback ID and URL ID are required")
      else
        let pref :=
          match GetPreference failing db (fr_URLID req) with
          | Err _ =>
              Some {| sp_URLID := fr_URLID req;
                      sp_Method := "hybrid";
                      sp_Confidence := 0.5%Q;
                      sp_SuccessRate := 0.5%Q;
                      sp_LastUsed := now;
                      sp_CreatedAt := now;
                      sp_UpdatedAt := now |}
          | Ok p => p
          end in
        match pref with
        | None => (db, panic "invalid memory address or nil pointer dereference")
        | Some pref =>
            let '(method, successRate) :=
              if fr_PrimaryCorrect req then
                (sp_Method pref, min 1.0%Q (sp_SuccessRate pref + 0.1)%Q)
              else if fr_AlternativeCorrect req then
                let updatedMethod := alternativeMethod (sp_Method pref) in
                (updatedMethod, min 1.0%Q (sp_SuccessRate pref + 0.1)%Q)
              else
                (sp_Method pref, max 0.0%Q (sp_SuccessRate pref - 0.1)%Q) in
            match SavePreference failing now db (sp_URLID pref) method successRate with
            | (db1, Err _) =>
                (db1, writeError StatusInternalServerError "Failed to save preference")
            | (db1, Ok _) =>
                (db1, writeJSON StatusOK
                        {| Success := true;
                           UpdatedMethod := method;
                           ConfidenceUpdated := true |})
            end
        end
  end.

End WithEnvironment.

End Handlers.

(** ** Go's [regexp]: leftmost-first matching with submatches

    Go's regular expressions return the leftmost match and, among the matches
    starting there, the one a backtracking search finds first. [run] below is
    that backtracking search, written with a success continuation; a pattern
    of the source is transcribed as a [regex] term, one constructor per
    operator. Matching is byte-wise: a class is a set of bytes and a
    non-ASCII rune of a pattern is the literal sequence of its UTF-8 bytes. *)

Module Regexp.

Local Open Scope string_scope.

Inductive regex : Type :=
| Eps                                   (* the empty pattern *)
| Cls (p : ascii -> bool)               (* one byte of a class *)
| Lit (s : string)                      (* a literal byte sequence *)
| Seq (r1 r2 : regex)
| Alt (r1 r2 : regex)                   (* r1|r2, r1 preferred *)
| Star (r : regex)                      (* the greedy star of r *)
| Grp (i : nat) (r : regex).            (* capturing group number i *)

Definition Opt (r : regex) : regex := Alt r Eps.           (* r?  *)
Definition Plus (r : regex) : regex := Seq r (Star r).      (* r+  *)

(** [r{n}] *)
Fixpoint Rep (n : nat) (r : regex) : regex :=
  match n with
  | O => Eps
  | S n' => Seq r (Rep n' r)
  end.

(** [r{0,n}], greedy *)
Fixpoint UpTo (n : nat) (r : regex) : regex :=
  match n with
  | O => Eps
  | S n' => Opt (Seq r (UpTo n' r))
  end.

(** [r{lo,hi}], greedy *)
Definition Range (lo hi : nat) (r : regex) : regex :=
  Seq (Rep lo r) (UpTo (hi - lo) r).

Fixpoint seqs (rs : list regex) : regex :=
  match rs with
  | [] => Eps
  | [r] => r
  | r :: rs' => Seq r (seqs rs')
  end.

Fixpoint alts (rs : list regex) : regex :=
  match rs with
  | [] => Cls (fun _ => false)
  | [r] => r
  | r :: rs' => Alt r (alts rs')
  end.

(** The words of a pattern. *)
Inductive lang : regex -> string -> Prop :=
| lang_Eps : lang Eps ""
| lang_Cls p c : p c = true -> lang (Cls p) (String c "")
| lang_Lit t : lang (Lit t) t
| lang_Seq r1 r2 w1 w2 : lang r1 w1 -> lang r2 w2 -> lang (Seq r1 r2) (w1 ++ w2)
| lang_AltL r1 r2 w : lang r1 w -> lang (Alt r1 r2) w
| lang_AltR r1 r2 w : lang r2 w -> lang (Alt r1 r2) w
| lang_StarNil r : lang (Star r) ""
| lang_StarCons r w1 w2 : lang r w1 -> lang (Star r) w2 -> lang (Star r) (w1 ++ w2)
| lang_Grp i r w : lang r w -> lang (Grp i r) w.

(** A pattern that matches at every position, if only the empty word. *)
Fixpoint always (r : regex) : bool :=
  match r with
  | Eps => true
  | Cls _ => false
  | Lit _ => false
  | Seq r1 r2 => (always r1 && always r2)%bool
  | Alt r1 r2 => (always r1 || always r2)%bool
  | Star _ => true
  | Grp _ r1 => always r1
  end.

Definition digit (c : ascii) : bool :=
  (Nat.leb 48 (nat_of_ascii c) && Nat.leb (nat_of_ascii c) 57)%bool.

(** [\s] is [[\t\n\f\r ]]. *)
Definition space (c : ascii) : bool :=
  let n := nat_of_ascii c in
  (Nat.eqb n 9 || Nat.eqb n 10 || Nat.eqb n 12 || Nat.eqb n 13 || Nat.eqb n 32)%bool.

Definition one_of (s : string) (c : ascii) : bool :=
  existsb (Ascii.eqb c) (list_ascii_of_string s).

(** The text captured so far, by group number. *)
Definition captures := list (nat * string).

Fixpoint capture (caps : captures) (i : nat) : string :=
  match caps with
  | [] => ""
  | (j, t) :: rest => if Nat.eqb i j then t else capture rest i
  end.

Fixpoint take (n : nat) (s : string) : string :=
  match n, s with
  | O, _ => ""
  | S _, EmptyString => ""
  | S n', String c s' => String c (take n' s')
  end.

(** The text between the suffix [s] and its suffix [s']. *)
Definition consumed (s s' : string) : string :=
  take (String.length s - String.length s') s.

Section Run.

Context {R : Type}.

Fixpoint run (r : regex) (s : string) (caps : captures)
         (k : string -> captures -> option R) {struct r} : option R :=
  match r with
  | Eps => k s caps
  | Cls p =>
      match s with
      | String c s' => if p c then k s' caps else None
      | EmptyString => None
      end
  | Lit t =>
      if GoStrings.HasPrefix s t
      then k (GoStrings.drop (String.length t) s) caps
      else None
  | Seq r1 r2 => run r1 s caps (fun s1 caps1 => run r2 s1 caps1 k)
  | Alt r1 r2 =>
      match run r1 s caps k with
      | Some x => Some x
      | None => run r2 s caps k
      end
  | Star r1 =>
      (fix loop (fuel : nat) (s : string) (caps : captures) : option R :=
         match fuel with
         | O => k s caps
         | S fuel' =>
             match run r1 s caps
                     (fun s1 caps1 =>
                        if Nat.ltb (String.length s1) (String.length s)
                        then loop fuel' s1 caps1 else None) with
             | Some x => Some x
             | None => k s caps
             end
         end) (String.length s) s caps
  | Grp i r1 =>
      run r1 s caps (fun s1 caps1 => k s1 ((i, consumed s s1) :: caps1))
  end.

End Run.

(** A match anchored at the start of [s]: the rest of the text and the
    captures. *)
Definition match_here (r : regex) (s : string) : option (string * captures) :=
  run r s [] (fun s' caps => Some (s', caps)).

(** The submatch slice: the whole match, then groups [1..groups]. *)
Definition submatches (groups : nat) (whole : string) (caps : captures) : list string :=
  whole :: List.map (capture caps) (seq 1 groups).

(** The leftmost match at or after the start of [s]: the text skipped, the
    submatch slice and the text after the match. *)
Fixpoint find_from (r : regex) (groups : nat) (s : string) (skipped : nat)
  : option (nat * list string * string) :=
  match match_here r s with
  | Some (s', caps) => Some (skipped, submatches groups (consumed s s') caps, s')
  | None =>
      match s with
      | EmptyString => None
      | String _ s' => find_from r groups s' (S skipped)
      end
  end.

(** Go's [Regexp.FindStringSubmatch]; [None] is the [nil] slice. *)
Definition FindStringSubmatch (r : regex) (groups : nat) (s : string)
  : option (list string) :=
  match find_from r groups s 0 with
  | Some (_, m, _) => Some m
  | None => None
  end.

(** Go's [Regexp.FindAllStringSubmatch(s, -1)]: successive non-overlapping
    leftmost matches. After an empty match the scan moves on by one byte. *)
Fixpoint find_all (fuel : nat) (r : regex) (groups : nat) (s : string)
  : list (list string) :=
  match fuel with
  | O => []
  | S fuel' =>
      match find_from r groups s 0 with
      | None => []
      | Some (_, m, rest) =>
          let next :=
            if Nat.ltb (String.length rest) (String.length s) then rest
            else match rest with
                 | String _ rest' => rest'
                 | EmptyString => EmptyString
                 end in
          match s with
          | EmptyString => [m]
          | _ => m :: find_all fuel' r groups next
          end
      end
  end.

Definition FindAllStringSubmatch (r : regex) (groups : nat) (s : string)
  : list (list string) :=
  find_all (S (String.length s)) r groups s.

End Regexp.

(** A Go computation that may end in a run-time panic. *)
Inductive go (A : Type) : Type :=
| Ret (a : A)
| GoPanic (msg : string).
Arguments Ret {A} a.
Arguments GoPanic {A} msg.

(** ** Go's [strconv]: the decimal literals the parsers can pass *)

Module Strconv.

Local Open Scope string_scope.

Definition digit_value (c : ascii) : option Z :=
  if Regexp.digit c then Some (Z.of_nat (nat_of_ascii c) - 48) else None.

(** Reads a run of digits: the accumulated value, the number of digits
    read and the rest of the text. *)
Fixpoint digits (s : string) (acc : Z) (n : nat) : Z * nat * string :=
  match s with
  | String c s' =>
      match digit_value c with
      | Some d => digits s' (10 * acc + d) (S n)
      | None => (acc, n, s)
      end
  | EmptyString => (acc, n, s)
  end.

(** [strconv.ParseFloat(s, 64)] on unsigned decimal literals without
    exponent, [ddd], [ddd.ddd], [ddd.] and [.ddd]; any other byte makes the
    text a syntax error. The texts the parsers pass hold digits, dots,
    commas and white space only. The value is the exact decimal; the range
    error of a literal beyond the largest [float64] is left out. *)
Definition ParseFloat (s : string) : option Q :=
  let '(ip, n1, rest) := digits s 0 0 in
  match rest with
  | EmptyString =>
      if Nat.eqb n1 0 then None else Some (inject_Z ip)
  | String c rest' =>
      if Ascii.eqb c "."%char then
        let '(fp, n2, rest2) := digits rest' 0 0 in
        match rest2 with
        | EmptyString =>
            if Nat.eqb (n1 + n2) 0 then None
            else Some (Qmake (ip * 10 ^ Z.of_nat n2 + fp) (Z.to_pos (10 ^ Z.of_nat n2)))
        | _ => None
        end
      else None
  end.

End Strconv.

(** ** scraper: the locale parser *)

Module LocaleParser.

Import Regexp GoStrings.
Local Open Scope string_scope.

Definition is_lower (c : ascii) : bool :=
  (Nat.leb 97 (nat_of_ascii c) && Nat.leb (nat_of_ascii c) 122)%bool.

(** [strings.ToUpper], on ASCII letters. *)
Fixpoint ToUpper (s : string) : string :=
  match s with
  | EmptyString => EmptyString
  | String c s' =>
      String (if is_lower c then ascii_of_nat (nat_of_ascii c - 32) else c) (ToUpper s')
  end.

Definition symbol : regex := alts [Lit "$"; Lit "£"; Lit "€"].
Definition d : regex := Cls digit.

(** [[0-9]{1,3}(?:,[0-9]{3})*(?:\.[0-9]{2})?] *)
Definition us_uk_number : regex :=
  seqs [ Range 1 3 d;
         Star (Seq (Lit ",") (Rep 3 d));
         Opt (Seq (Lit ".") (Rep 2 d)) ].

(** [(?i)(\$|£|€)?\s*([0-9]{1,3}(?:,[0-9]{3})*(?:\.[0-9]{2})?)] *)
Definition us_uk : regex :=
  seqs [ Opt (Grp 1 symbol); Star (Cls space); Grp 2 us_uk_number ].

(** The bytes of the integer part of such a number, and its fraction:
    absent, or a dot and two digits. *)
Definition digit_or_comma (c : ascii) : bool := (digit c || Ascii.eqb "," c)%bool.

Definition fraction (f : string) : Prop :=
  f = "" \/ exists c1 c2,
             f = String "." (String c1 (String c2 ""))
             /\ digit c1 = true /\ digit c2 = true.

(** [(?i)(\$|£|€)?\s*([0-9]{1,3}(?:[.\s][0-9]{3})*(?:,[0-9]{2})?)] *)
Definition european : regex :=
  seqs [ Opt (Grp 1 symbol); Star (Cls space);
         Grp 2 (seqs [ Range 1 3 d;
                       Star (Seq (Cls (fun c => Ascii.eqb c "."%char || space c)%bool) (Rep 3 d));
                       Opt (Seq (Lit ",") (Rep 2 d)) ]) ].

(** [([0-9]+(?:[.,][0-9]{2})?)] *)
Definition simple : regex :=
  Grp 1 (Seq (Plus d) (Opt (Seq (Cls (one_of ".,")) (Rep 2 d)))).

(** [(?i)(\$|£|€)\s*([0-9]+(?:\.[0-9]{2})?)] *)
Definition currency_only : regex :=
  seqs [ Grp 1 symbol; Star (Cls space);
         Grp 2 (Seq (Plus d) (Opt (Seq (Lit ".") (Rep 2 d)))) ].

Inductive locale := loc_us_uk | loc_european | loc_currency_only | loc_simple.

(** The compiled pattern of a locale and its number of groups. *)
Definition pattern (l : locale) : regex * nat :=
  match l with
  | loc_us_uk => (us_uk, 2%nat)
  | loc_european => (european, 2%nat)
  | loc_currency_only => (currency_only, 2%nat)
  | loc_simple => (simple, 1%nat)
  end.

Definition cleanNumberString (numberStr : string) (l : locale) : string :=
  match l with
  | loc_us_uk => ReplaceAll numberStr "," ""
  | loc_european =>
      let temp := ReplaceAll numberStr "." "TEMP" in
      let temp := ReplaceAll temp "," "." in
      ReplaceAll temp "TEMP" ""
  | loc_currency_only => numberStr
  | loc_simple =>
      if (Contains numberStr "," && negb (Contains numberStr "."))%bool
      then ReplaceAll numberStr "," "."
      else numberStr
  end.

(** The loop of [ParsePrice] over the patterns still to try; indexing the
    submatch slice out of range panics. *)
Fixpoint try_patterns (text : string) (ls : list locale) : go (result (Q * string)) :=
  match ls with
  | [] => Ret (Err "no valid price pattern found")
  | l :: rest =>
      let '(re, groups) := pattern l in
      match FindStringSubmatch re groups text with
      | None => try_patterns text rest
      | Some matches =>
          match nth_error matches 1, nth_error matches 2 with
          | Some m1, Some numberStr =>
              let currency := ToUpper m1 in
              let cleanNumber := cleanNumberString numberStr l in
              match Strconv.ParseFloat cleanNumber with
              | Some value => Ret (Ok (value, currency))
              | None => try_patterns text rest
              end
          | _, _ => GoPanic "index out of range"
          end
      end
  end.

Definition ParsePrice (text : string) : go (result (Q * string)) :=
  let text := TrimSpace text in
  try_patterns text [loc_us_uk; loc_european; loc_currency_only; loc_simple].

End LocaleParser.

(** ** scraper: the vision ensemble's selection of the best attempt *)

Module OCR.

Import Float64 GoStrings.
Local Open Scope string_scope.

Record OCRAttempt := {
  Strategy : string;
  ExpansionFactor : Q;
  Price : Q;
  Text : string;
  Confidence : Q;
  Success : bool;
  Error : string
}.

Record OCRResult := {
  r_Price : Q;
  r_Text : string;
  r_Confidence : Q;
  r_Strategy : string;
  r_AllAttempts : list OCRAttempt
}.

Record EnhancedOCRResult := {
  e_Success : bool;
  e_Price : Q;
  e_YOLOConfidence : Q;
  e_OCRConfidence : Q;
  e_TotalDetections : Z;
  e_Error : string
}.

(** The zero value of [OCRAttempt]. *)
Definition zeroAttempt : OCRAttempt :=
  {| Strategy := ""; ExpansionFactor := 0; Price := 0; Text := "";
     Confidence := 0; Success := false; Error := "" |}.

(** An attempt takes part in the selection unless
    [!attempt.Success || attempt.Price <= 0]. *)
Definition eligible (attempt : OCRAttempt) : bool :=
  negb (negb (Success attempt) || le (Price attempt) 0).

Definition region_scoped (attempt : OCRAttempt) : bool :=
  negb (Contains (Strategy attempt) "full_image").

Definition sweet_spot (attempt : OCRAttempt) : bool :=
  (ge (ExpansionFactor attempt) 1.5 && le (ExpansionFactor attempt) 2.5)%bool.

(** The score computed in the body of the loop. *)
Definition score (attempt : OCRAttempt) : Q :=
  let score := Confidence attempt in
  let score := if region_scoped attempt then (score * 1.2)%Q else score in
  let score := if sweet_spot attempt then (score * 1.1)%Q else score in
  score.

(** The loop of [selectBestOCRResult] from a state
    [(bestAttempt, bestScore)]. *)
Fixpoint select_loop (attempts : list OCRAttempt)
         (bestAttempt : OCRAttempt) (bestScore : Q) : OCRAttempt * Q :=
  match attempts with
  | [] => (bestAttempt, bestScore)
  | attempt :: rest =>
      if negb (eligible attempt) then select_loop rest bestAttempt bestScore
      else
        let score := score attempt in
        if gt score bestScore
        then select_loop rest attempt score
        else select_loop rest bestAttempt bestScore
  end.

Definition noSuccessfulAttempts (attempts : list OCRAttempt) : OCRResult :=
  {| r_Price := 0; r_Text := ""; r_Confidence := 0;
     r_Strategy := "no_successful_attempts"; r_AllAttempts := attempts |}.

Definition resultOf (bestAttempt : OCRAttempt) (attempts : list OCRAttempt) : OCRResult :=
  {| r_Price := Price bestAttempt; r_Text := Text bestAttempt;
     r_Confidence := Confidence bestAttempt;
     r_Strategy := Strategy bestAttempt; r_AllAttempts := attempts |}.

Definition selectBestOCRResult (attempts : list OCRAttempt) : OCRResult :=
  let '(bestAttempt, bestScore) := select_loop attempts zeroAttempt 0 in
  if eqb bestScore 0 then noSuccessfulAttempts attempts
  else resultOf bestAttempt attempts.

End OCR.

(** ** Go's [fmt]: the verb [%.2f] *)

Module Fmt.

Local Open Scope string_scope.

(** The nearest integer to [q], a tie going to the even neighbour. *)
Definition round_half_even (q : Q) : Z :=
  let n := Qnum q in
  let dd := Zpos (Qden q) in
  let fl := n / dd in
  let twice := 2 * (n - fl * dd) in
  if Z.ltb twice dd then fl
  else if Z.ltb dd twice then fl + 1
  else if Z.even fl then fl else fl + 1.

Definition digit_char (n : Z) : ascii := ascii_of_nat (Z.to_nat n + 48).

(** The decimal digits of a natural number [n]; the fuel bounds their
    number. *)
Fixpoint digits_of (fuel : nat) (n : Z) (acc : string) : string :=
  match fuel with
  | O => acc
  | S fuel' =>
      let acc := String (digit_char (n mod 10)) acc in
      if Z.ltb n 10 then acc else digits_of fuel' (n / 10) acc
  end.

Definition itoa (n : Z) : string :=
  digits_of (S (Z.to_nat (Z.log2 n))) n "".

(** [fmt.Sprintf("%.2f", q)]. *)
Definition Sprintf_2f (q : Q) : string :=
  let cents := round_half_even (q * 100)%Q in
  let a := Z.abs cents in
  let body :=
    itoa (a / 100) ++ "." ++
    String (digit_char ((a / 10) mod 10)) (String (digit_char (a mod 10)) "") in
  if Z.ltb cents 0 then "-" ++ body else body.

End Fmt.

(** ** scraper: the hybrid scraper and its arbitration *)

Module Hybrid.

Import Float64 GoStrings Models.
Local Open Scope string_scope.

Record PriceMatchResult := {
  NetworkPrice : Q;
  OCRPrice : Q;
  NetworkSuccess : bool;
  OCRSuccess : bool;
  PricesMatch : bool;
  MatchConfidence : Q;
  FinalPrice : Q;
  Method : string;
  Error : string;
  NetworkSource : string;
  NetworkConfidence : Q;
  OCRConfidence : Q;
  Reasons : list string
}.

(** [&PriceMatchResult{Reasons: []string{}}] *)
Definition emptyResult : PriceMatchResult :=
  {| NetworkPrice := 0; OCRPrice := 0; NetworkSuccess := false;
     OCRSuccess := false; PricesMatch := false; MatchConfidence := 0;
     FinalPrice := 0; Method := ""; Error := ""; NetworkSource := "";
     NetworkConfidence := 0; OCRConfidence := 0; Reasons := [] |}.

Definition isAmazonDomain (url : string) : bool :=
  (Contains (ToLower url) "amazon.com"
   || Contains (ToLower url) "amazon."
   || Contains (ToLower url) "amazon")%bool.

(** The percentage difference of two prices relative to their average. *)
Definition percentageDiff (price1 price2 : Q) : Q :=
  let diff := Abs (price1 - price2) in
  let avgPrice := ((price1 + price2) / 2)%Q in
  ((diff / avgPrice) * 100)%Q.

Definition pricesMatch (price1 price2 : Q) : bool :=
  if (le price1 0 || le price2 0)%bool then false
  else
    let diff := Abs (price1 - price2) in
    let avgPrice := ((price1 + price2) / 2)%Q in
    let percentageDiff := ((diff / avgPrice) * 100)%Q in
    let threshold := if gt avgPrice 100 then 3.0%Q else 5.0%Q in
    le percentageDiff threshold.

Definition calculateMatchConfidence (price1 price2 : Q) : Q :=
  if (le price1 0 || le price2 0)%bool then 0.0%Q
  else
    let diff := Abs (price1 - price2) in
    let avgPrice := ((price1 + price2) / 2)%Q in
    let percentageDiff := ((diff / avgPrice) * 100)%Q in
    let confidence := (1.0 - percentageDiff / 20.0)%Q in
    let confidence := if lt confidence 0.0 then 0.0%Q else confidence in
    let confidence := if gt confidence 1.0 then 1.0%Q else confidence in
    confidence.

(** The [&models.PriceData{...}] literal every branch returns. *)
Definition priceData (price : Q) (source method : string) (confidence : Q) : PriceData :=
  {| pd_CurrentPrice := price; pd_OriginalPrice := price; pd_Currency := "USD";
     pd_DiscountPercentage := 0; pd_IsOnSale := false;
     pd_Source := source; pd_ExtractionMethod := method;
     pd_Confidence := confidence |}.

(** The assignments to [matchResult] made by a branch; the reason strings
    stand without their formatted numbers. *)
Definition decided (m : PriceMatchResult) (final : Q) (method : string)
           (reasons : list string) : PriceMatchResult :=
  {| NetworkPrice := NetworkPrice m; OCRPrice := OCRPrice m;
     NetworkSuccess := NetworkSuccess m; OCRSuccess := OCRSuccess m;
     PricesMatch := PricesMatch m; MatchConfidence := MatchConfidence m;
     FinalPrice := final; Method := method; Error := Error m;
     NetworkSource := NetworkSource m;
     NetworkConfidence := NetworkConfidence m; OCRConfidence := OCRConfidence m;
     Reasons := Reasons m ++ reasons |}.

Definition failed (m : PriceMatchResult) : PriceMatchResult :=
  {| NetworkPrice := NetworkPrice m; OCRPrice := OCRPrice m;
     NetworkSuccess := NetworkSuccess m; OCRSuccess := OCRSuccess m;
     PricesMatch := PricesMatch m; MatchConfidence := MatchConfidence m;
     FinalPrice := FinalPrice m; Method := "failed";
     Error := "Both network extraction and OCR failed";
     NetworkSource := NetworkSource m;
     NetworkConfidence := NetworkConfidence m; OCRConfidence := OCRConfidence m;
     Reasons := Reasons m |}.

(** Case 5 of [determineFinalResult]: the selection on a mismatch, as
    [(selectedPrice, selectedSource, selectedConfidence, method, reason)]. *)
Definition intelligentSelection (m : PriceMatchResult) (isAmazon : bool)
  : Q * string * Q * string * string :=
  if isAmazon then
    if gt (OCRConfidence m) (NetworkConfidence m + 0.15)%Q then
      (OCRPrice m, "yolo_ocr_amazon", OCRConfidence m,
       "yolo_ocr_priority_amazon_high_confidence",
       "Amazon domain: Preferring YOLO+OCR due to significantly higher confidence")
    else
      (NetworkPrice m, "network_amazon", NetworkConfidence m,
       "network_priority_amazon_default",
       "Amazon domain: Defaulting to HTTP scraping for consistency")
  else
    if gt (OCRConfidence m) (NetworkConfidence m + 0.05)%Q then
      (OCRPrice m, "yolo_ocr", OCRConfidence m,
       "yolo_ocr_priority_confidence",
       "Preferring YOLO+OCR over network due to higher confidence")
    else if gt (NetworkConfidence m) (OCRConfidence m + 0.1)%Q then
      (NetworkPrice m, NetworkSource m, NetworkConfidence m,
       "network_priority_confidence",
       "Preferring network over YOLO+OCR due to significantly higher confidence")
    else
      (OCRPrice m, "yolo_ocr", OCRConfidence m,
       "yolo_ocr_priority_default",
       "Defaulting to YOLO+OCR price for consistency").

(** [determineFinalResult]: the updated [matchResult] and the returned
    [( *models.PriceData, error)]. *)
Definition determineFinalResult (m : PriceMatchResult) (url : string)
  : PriceMatchResult * result PriceData :=
  let isAmazon := isAmazonDomain url in
  if (isAmazon && (NetworkSuccess m && gt (NetworkConfidence m) 0.5))%bool then
    (decided m (NetworkPrice m) "network_primary_amazon"
       ["Amazon domain: HTTP scraping succeeded with confidence"],
     Ok (priceData (NetworkPrice m) "network_amazon" "network_primary_amazon"
           (NetworkConfidence m)))
  else if (isAmazon && (negb (NetworkSuccess m) && OCRSuccess m))%bool then
    (decided m (OCRPrice m) "ocr_fallback_amazon"
       ["Amazon domain: HTTP failed, using YOLO+OCR fallback"],
     Ok (priceData (OCRPrice m) "yolo_ocr_amazon_fallback" "ocr_fallback_amazon"
           (OCRConfidence m)))
  else if (OCRSuccess m && gt (OCRConfidence m) 0.7)%bool then
    (decided m (OCRPrice m) "yolo_ocr_primary"
       ["YOLO+OCR succeeded with high confidence"],
     Ok (priceData (OCRPrice m) "yolo_ocr" "yolo_ocr_primary" (OCRConfidence m)))
  else if (NetworkSuccess m && OCRSuccess m && PricesMatch m)%bool then
    if isAmazon then
      (decided m (NetworkPrice m) "hybrid_match_network_priority_amazon"
         ["Amazon domain: Prices match, using HTTP result"],
       Ok (priceData (NetworkPrice m) "network_amazon_hybrid"
             "hybrid_match_network_priority_amazon" (NetworkConfidence m)))
    else
      (decided m (OCRPrice m) "hybrid_match_yolo_priority"
         ["Prices match, using YOLO+OCR result"],
       Ok (priceData (OCRPrice m) "yolo_ocr_hybrid" "hybrid_match_yolo_priority"
             (OCRConfidence m)))
  else if (negb (NetworkSuccess m) && OCRSuccess m)%bool then
    (decided m (OCRPrice m) "ocr_fallback" ["Only OCR extraction succeeded"],
     Ok (priceData (OCRPrice m) "ocr" "ocr_fallback" (OCRConfidence m)))
  else if (NetworkSuccess m && negb (OCRSuccess m))%bool then
    (decided m (NetworkPrice m) "network_fallback" ["Network extraction fallback"],
     Ok (priceData (NetworkPrice m) (NetworkSource m) "network_fallback"
           (NetworkConfidence m)))
  else if (NetworkSuccess m && OCRSuccess m && negb (PricesMatch m))%bool then
    let '(selectedPrice, selectedSource, selectedConfidence, method, reason) :=
      intelligentSelection m isAmazon in
    (decided m selectedPrice method
       ["Prices don't match, using intelligent selection"; reason],
     Ok (priceData selectedPrice selectedSource method selectedConfidence))
  else
    (failed m,
     Err "price extraction not possible: both network extraction and OCR failed").

End Hybrid.

(** ** scraper: [extractAndMatchPrices], the two extraction branches

    Each branch runs in a goroutine of its own and the caller waits for it
    in a [select] against [time.After]. Time is a virtual clock: a goroutine
    body is given by the time it needs and by what it leaves in the variables
    it shares with the caller, and the code between the waits takes no
    time. *)

Module Extraction.

Import Float64 GoStrings Models OCR Hybrid.
Local Open Scope string_scope.

(** A goroutine body: how long it runs ([None]: it never returns) and its
    outcome. *)
Record Branch (A : Type) := {
  latency : option Z;
  outcome : A
}.
Arguments latency {A} _.
Arguments outcome {A} _.

(** [go func() { defer close(done); ... }()] at time [start], followed by
    [select { case <-done: ; case <-time.After(timeout): }]: the outcome
    when the goroutine is done in time, and the time at which the [select]
    returns. A goroutine done exactly at the deadline counts as done. *)
Definition await {A : Type} (start : Z) (t : Branch A) (timeout : Z) : option A * Z :=
  match latency t with
  | Some dt =>
      if Z.leb dt timeout then (Some (outcome t), start + dt)
      else (None, start + timeout)
  | None => (None, start + timeout)
  end.

(** What [ExtractFromNetworkRequests] returns: [( *models.PriceData, error)]. *)
Definition result_of_network : Type := result (option PriceData).

(** What the vision goroutine meets. *)
Inductive OCRRun :=
| ScreenshotFailed (err : string)
| YOLOReturned (httpResult : option EnhancedOCRResult) (httpErr : option string).

(** The values the vision goroutine leaves in
    [(ocrPrice, ocrErr, ocrConfidence)]. *)
Definition ocr_vars (run : OCRRun) : Q * option string * Q :=
  match run with
  | ScreenshotFailed err => (0%Q, Some err, 0%Q)
  | YOLOReturned (Some httpResult) None =>
      if e_Success httpResult
      then (e_Price httpResult, None, e_OCRConfidence httpResult)
      else (0%Q, None, 0%Q)
  | YOLOReturned _ httpErr => (0%Q, httpErr, 0%Q)
  end.

(** The clock readings of one run. *)
Record Timeline := {
  ocrStart : Z;
  ocrResolved : Z;
  networkStart : Z;
  networkResolved : Z
}.

Definition withOCR (m : PriceMatchResult) (price confidence : Q) : PriceMatchResult :=
  {| NetworkPrice := NetworkPrice m; OCRPrice := price;
     NetworkSuccess := NetworkSuccess m; OCRSuccess := true;
     PricesMatch := PricesMatch m; MatchConfidence := MatchConfidence m;
     FinalPrice := FinalPrice m; Method := Method m; Error := Hybrid.Error m;
     NetworkSource := NetworkSource m;
     NetworkConfidence := NetworkConfidence m; OCRConfidence := confidence;
     Reasons := Reasons m |}.

Definition withNetwork (m : PriceMatchResult) (price : Q) (source : string)
           (confidence : Q) : PriceMatchResult :=
  {| NetworkPrice := price; OCRPrice := OCRPrice m;
     NetworkSuccess := true; OCRSuccess := OCRSuccess m;
     PricesMatch := PricesMatch m; MatchConfidence := MatchConfidence m;
     FinalPrice := FinalPrice m; Method := Method m; Error := Hybrid.Error m;
     NetworkSource := source;
     NetworkConfidence := confidence; OCRConfidence := OCRConfidence m;
     Reasons := Reasons m |}.

Definition withMatch (m : PriceMatchResult) (matches : bool) (confidence : Q)
  : PriceMatchResult :=
  {| NetworkPrice := NetworkPrice m; OCRPrice := OCRPrice m;
     NetworkSuccess := NetworkSuccess m; OCRSuccess := OCRSuccess m;
     PricesMatch := matches; MatchConfidence := confidence;
     FinalPrice := FinalPrice m; Method := Method m; Error := Hybrid.Error m;
     NetworkSource := NetworkSource m;
     NetworkConfidence := NetworkConfidence m; OCRConfidence := OCRConfidence m;
     Reasons := Reasons m |}.

(** The vision price after
    [hps.localeParser.ParsePrice(fmt.Sprintf("%.2f", ocrPrice))]. *)
Definition reparse (ocrPrice : Q) : go Q :=
  match LocaleParser.ParsePrice (Fmt.Sprintf_2f ocrPrice) with
  | Ret (Ok (parsedPrice, _)) => Ret parsedPrice
  | Ret (Err _) => Ret ocrPrice
  | GoPanic msg => GoPanic msg
  end.

(** How long the [select] of [await] blocks. *)
Definition waited (lat : option Z) (timeout : Z) : Z :=
  match lat with
  | Some dt => if Z.leb dt timeout then dt else timeout
  | None => timeout
  end.

(** After the first [select]: the vision result is recorded when
    [ocrErr == nil && ocrPrice > 0]. *)
Definition recordOCR (result : PriceMatchResult) (ocrDone : option OCRRun)
  : go PriceMatchResult :=
  let '(ocrPrice, ocrErr, ocrConfidence) :=
    match ocrDone with
    | Some run => ocr_vars run
    | None => (0%Q, Some "YOLO+OCR extraction timed out", 0%Q)
    end in
  match ocrErr with
  | None =>
      if gt ocrPrice 0 then
        match reparse ocrPrice with
        | Ret ocrPrice => Ret (withOCR result ocrPrice ocrConfidence)
        | GoPanic msg => GoPanic msg
        end
      else Ret result
  | Some _ => Ret result
  end.

(** After the second [select]: the network result is recorded when
    [networkErr == nil && networkPriceData != nil &&
     networkPriceData.CurrentPrice > 0]. *)
Definition recordNetwork (result : PriceMatchResult)
           (networkDone : option (result_of_network))
  : PriceMatchResult :=
  let '(networkPriceData, networkErr) :=
    match networkDone with
    | Some (Ok pd) => (pd, None)
    | Some (Err e) => (None, Some e)
    | None => (None, Some "Network extraction timed out")
    end in
  match networkErr, networkPriceData with
  | None, Some pd =>
      if gt (pd_CurrentPrice pd) 0 then
        withNetwork result (pd_CurrentPrice pd) (pd_Source pd)
          (if eqb (pd_Confidence pd) 0 then 0.8%Q else pd_Confidence pd)
      else result
  | _, _ => result
  end.

(** The comparison of the two values when both methods succeeded. *)
Definition recordMatch (result : PriceMatchResult) : PriceMatchResult :=
  if (NetworkSuccess result && OCRSuccess result)%bool then
    withMatch result
      (pricesMatch (NetworkPrice result) (OCRPrice result))
      (calculateMatchConfidence (NetworkPrice result) (OCRPrice result))
  else result.

Definition extractAndMatchPrices (t0 : Z) (ocr : Branch OCRRun)
           (network : Branch result_of_network)
  : go (PriceMatchResult * Timeline) :=
  let result := emptyResult in
  (* Method 1: YOLO+OCR, waited for at most 30 seconds *)
  let ocrStart := t0 in
  let '(ocrDone, t1) := await ocrStart ocr (30 * GoTime.Second) in
  match recordOCR result ocrDone with
  | GoPanic msg => GoPanic msg
  | Ret result =>
      (* Method 2: network extraction, waited for at most 20 seconds *)
      let networkStart := t1 in
      let '(networkDone, t2) := await networkStart network (20 * GoTime.Second) in
      let result := recordNetwork result networkDone in
      (* Check if prices match *)
      let result := recordMatch result in
      Ret (result,
           {| ocrStart := ocrStart; ocrResolved := t1;
              networkStart := networkStart; networkResolved := t2 |})
  end.

End Extraction.

(** ** scraper/price_scraper.go: the numeric tokens of a DOM text *)

Module PriceScraper.

Import Float64 GoStrings Regexp.
Local Open Scope string_scope.

(** The runes of the class [[\$€£¥₹₽₩₪₦₨₫₴₸₺₼₾₿]]. *)
Definition currencySymbols : list string :=
  [ "$"; "€"; "£"; "¥"; "₹"; "₽"; "₩"; "₪"; "₦"; "₨"; "₫"; "₴"; "₸"; "₺"; "₼"; "₾"; "₿" ].

Definition currencyCodes : list string :=
  [ "USD"; "EUR"; "GBP"; "JPY"; "INR"; "RUB"; "KRW"; "ILS"; "NGN"; "PKR"; "VND";
    "UAH"; "KZT"; "TRY"; "AZN"; "GEL" ].

Definition sym : regex := alts (List.map Lit currencySymbols).

(** [\d+(?:[.,]\d{2})?] *)
Definition num : regex :=
  Seq (Plus (Cls digit)) (Opt (Seq (Cls (one_of ".,")) (Rep 2 (Cls digit)))).

(** [(sym)\s*(num)|(num)\s*(sym)|(num)\s*(?:USD|EUR|...)], five groups. *)
Definition pricePattern : regex :=
  alts [ seqs [Grp 1 sym; Star (Cls space); Grp 2 num];
         seqs [Grp 3 num; Star (Cls space); Grp 4 sym];
         seqs [Grp 5 num; Star (Cls space); alts (List.map Lit currencyCodes)] ].

(** [(\d+(?:[.,]\d{2})?)], one group. *)
Definition lenientPattern : regex := Grp 1 num.

(** [strings.Split(s, sep)] for a one-byte separator. *)
Fixpoint split_acc (sep : ascii) (s cur : string) : list string :=
  match s with
  | EmptyString => [rev cur]
  | String c s' =>
      if Ascii.eqb c sep then rev cur :: split_acc sep s' ""
      else split_acc sep s' (String c cur)
  end.

Definition Split (s : string) (sep : ascii) : list string := split_acc sep s "".

Definition nonempty (s : string) : bool := negb (String.eqb s "").

(** The group a match takes its number from; a submatch slice of this
    pattern has six entries. *)
Definition priceStrOf (match_ : list string) : string :=
  if Nat.leb 3 (List.length match_) then
    if (nonempty (nth 1 match_ "") && nonempty (nth 2 match_ ""))%bool then nth 2 match_ ""
    else if (nonempty (nth 3 match_ "") && nonempty (nth 4 match_ ""))%bool then nth 3 match_ ""
    else if nonempty (nth 5 match_ "") then nth 5 match_ ""
    else ""
  else "".

(** The handling of the decimal separators. *)
Definition normalizeSeparators (priceStr : string) : string :=
  if (Contains priceStr "," && Contains priceStr ".")%bool then
    let parts := Split priceStr ","%char in
    if (Nat.eqb (List.length parts) 2
        && Nat.leb (String.length (nth 0 parts "")) 4
        && Nat.leb 3 (String.length (nth 1 parts "")))%bool
    then ReplaceAll priceStr "," ""
    else ReplaceAll (ReplaceAll priceStr "." "") "," "."
  else if Contains priceStr "," then ReplaceAll priceStr "," "."
  else priceStr.

Definition feeWords : list string :=
  [ "shipping"; "tax"; "fee"; "handling"; "processing"; "cable"; "adapter"; "mount";
    "stand"; "bracket"; "screw"; "manual"; "guide"; "driver"; "software"; "utility";
    "threshold"; "minimum" ].

Definition lenientWords : list string :=
  [ "price"; "cost"; "amount"; "eur"; "usd"; "gbp" ].

(** Whether the first loop appends [price]: none of its [continue]s is
    taken. *)
Definition accepted (text : string) (price : Q) : bool :=
  if (ge price 2020 && le price 2030)%bool then false
  else if lt price 1.0 then false
  else if gt price 1000000 then false
  else if (lt price 10.0 && contains_any (ToLower text) feeWords)%bool then false
  else true.

Fixpoint strict_loop (text : string) (matches : list (list string)) (prices : list Q)
  : list Q :=
  match matches with
  | [] => prices
  | match_ :: rest =>
      let priceStr := priceStrOf match_ in
      if nonempty priceStr then
        let priceStr := normalizeSeparators priceStr in
        match Strconv.ParseFloat priceStr with
        | Some price =>
            if (gt price 0 && accepted text price)%bool
            then strict_loop text rest (prices ++ [price])
            else strict_loop text rest prices
        | None => strict_loop text rest prices
        end
      else strict_loop text rest prices
  end.

(** Whether the lenient loop appends [price]. *)
Definition acceptedLenient (price : Q) : bool :=
  if (ge price 2020 && le price 2030)%bool then false
  else if gt price 2000 then false
  else if lt price 20 then false
  else true.

Fixpoint lenient_loop (matches : list (list string)) (prices : list Q) : list Q :=
  match matches with
  | [] => prices
  | match_ :: rest =>
      if Nat.ltb 1 (List.length match_) then
        let priceStr := ReplaceAll (nth 1 match_ "") "," "." in
        match Strconv.ParseFloat priceStr with
        | Some price =>
            if (gt price 0 && lt price 10000 && acceptedLenient price)%bool
            then lenient_loop rest (prices ++ [price])
            else lenient_loop rest prices
        | None => lenient_loop rest prices
        end
      else lenient_loop rest prices
  end.

Definition extractAllPrices (text : string) : list Q :=
  let matches := FindAllStringSubmatch pricePattern 5 text in
  let prices := strict_loop text matches [] in
  match prices with
  | [] =>
      if contains_any (ToLower text) lenientWords
      then lenient_loop (FindAllStringSubmatch lenientPattern 1 text) []
      else prices
  | _ => prices
  end.

End PriceScraper.

(** ** scraper/price_scraper.go: the choice among several prices *)

Module PriceSelection.

Import Float64 GoStrings.
Local Open Scope string_scope.

Record PriceCandidate := {
  c_Price : Q;
  c_Text : string;
  c_Selector : string;
  c_ElementID : string;
  c_Context : string
}.

(** [for _, price := range prices { if price > lo && price < hi { return
    price } }] *)
Definition first_within (lo hi : Q) (prices : list Q) : option Q :=
  List.find (fun price => (gt price lo && lt price hi)%bool) prices.

Definition selectMainPrice (prices : list Q) (text : string) : Q :=
  match prices with
  | [] => 0
  | [price] => price
  | first :: _ =>
      let textLower := ToLower text in
      let keyword (k : string) : option Q :=
        if Contains textLower k then first_within 10 1000 prices else None in
      match keyword "sale" with
      | Some price => price
      | None =>
          match keyword "regular" with
          | Some price => price
          | None =>
              match keyword "current" with
              | Some price => price
              | None =>
                  match first_within 5 2000 prices with
                  | Some price => price
                  | None => first
                  end
              end
          end
      end
  end.

(** [sort.Float64s]: ascending order. *)
Fixpoint insert (x : Q) (sorted : list Q) : list Q :=
  match sorted with
  | [] => [x]
  | y :: rest => if le x y then x :: sorted else y :: insert x rest
  end.

Definition sortFloat64s (prices : list Q) : list Q := fold_right insert [] prices.

(** The keywords of [PriceScraper.isLuxuryProduct], a shorter list than the
    one of the models. *)
Definition luxuryKeywords : list string :=
  [ "chloe"; "louis vuitton"; "gucci"; "hermes"; "chanel"; "prada"; "fendi"; "balenciaga";
    "dior"; "celine"; "givenchy"; "saint laurent"; "valentino"; "bottega"; "moynat";
    "goyard"; "delvaux"; "mansur gavriel"; "strathberry"; "aspinal"; "mulberry";
    "leather"; "premium"; "luxury"; "designer"; "handbag"; "bag"; "purse"; "tote" ].

Definition isLuxuryProduct (productName : string) : bool :=
  contains_any (ToLower productName) luxuryKeywords.

(** Whether the loop of [filterValidPrices] keeps a candidate: none of its
    three [continue]s is taken. *)
Definition kept (medianPrice : Q) (productName : string) (candidate : PriceCandidate)
  : bool :=
  if (gt medianPrice 100 && lt (c_Price candidate) (medianPrice * 0.1))%bool then false
  else if (gt medianPrice 0 && gt (c_Price candidate) (medianPrice * 10))%bool then false
  else if (isLuxuryProduct productName && lt (c_Price candidate) 50)%bool then false
  else true.

(** [prices[len(prices)/2]] of the sorted prices. *)
Definition medianPrice (candidates : list PriceCandidate) : Q :=
  let prices := sortFloat64s (List.map c_Price candidates) in
  nth (List.length prices / 2) prices 0%Q.

Definition filterValidPrices (candidates : list PriceCandidate) (productName : string)
  : list PriceCandidate :=
  match candidates with
  | [] => candidates
  | _ => List.filter (kept (medianPrice candidates) productName) candidates
  end.

Section Scoring.

(** [calculateMatchScore], the scoring of a candidate against the product
    name; the statements on [findBestPriceMatch] hold for every scoring. *)
Variable calculateMatchScore : PriceCandidate -> string -> Q.



End Scoring.

End PriceSelection.

(** ** scraper/price_scraper.go: the price in a JSON response *)

Module PriceJSON.

Import Float64 GoStrings Models.
Local Open Scope string_scope.














End PriceJSON.

(** ** scraper: the vision extractor, from the detected regions to its
    answer

    The detection service and the text-recognition service are external
    collaborators. A run is given by the answer of the detection service and
    by the answers of the text-recognition service to the requests made for
    each detected region: one per expansion factor, one per preprocessing
    strategy and one for the full image. *)

Module EnhancedOCR.

Import Float64 GoStrings OCR.
Local Open Scope string_scope.

(** [fmt.Sprintf("%.1f", q)] *)
Definition Sprintf_1f (q : Q) : string :=
  let tenths := Fmt.round_half_even (q * 10)%Q in
  let a := Z.abs tenths in
  let body := Fmt.itoa (a / 10) ++ "." ++ String (Fmt.digit_char (a mod 10)) "" in
  if Z.ltb tenths 0 then "-" ++ body else body.

(** What a request to the text-recognition service comes to: an error on
    the way or a response without success, or an extracted price with its
    text and confidence. *)
Inductive OCRReply :=
| Failed (err : string)
| Extracted (price : Q) (text : string) (confidence : Q).

(** The [OCRAttempt] literal built from a reply. *)
Definition attempt (strategy : string) (expansionFactor : Q) (reply : OCRReply)
  : OCRAttempt :=
  match reply with
  | Failed err =>
      {| Strategy := strategy; ExpansionFactor := expansionFactor; Price := 0;
         Text := ""; Confidence := 0; Success := false; Error := err |}
  | Extracted price text confidence =>
      {| Strategy := strategy; ExpansionFactor := expansionFactor; Price := price;
         Text := text; Confidence := confidence; Success := true; Error := "" |}
  end.

Record Detection := {
  BBox : list Q;
  d_Confidence : Q
}.

Record YOLOResponse := {
  Detections : list Detection;
  TotalDetections : Z
}.


Definition getExpansionFactors (yoloConfidence : Q) : list Q :=
  if gt yoloConfidence 0.8 then [ 1.0; 1.5; 2.0 ]%Q
  else if gt yoloConfidence 0.6 then [ 1.5; 2.0; 2.5 ]%Q
  else [ 2.0; 2.5; 3.0; 3.5 ]%Q.

Definition preprocessingStrategies : list string :=
  [ "default"; "enhanced"; "aggressive"; "conservative" ].

Definition hasSuccessfulBboxResults (attempts : list OCRAttempt) : bool :=
  existsb (fun attempt =>
             (Success attempt && gt (Price attempt) 0
              && negb (Contains (Strategy attempt) "full_image"))%bool)
          attempts.

Section Service.

(** The replies of the text-recognition service, by the index of the
    detected region the request is made for. *)
Variable expansionReply : nat -> Q -> OCRReply.
Variable preprocessingReply : nat -> string -> OCRReply.
Variable fullImageReply : nat -> OCRReply.

Definition extractWithExpansion (i : nat) (expansionFactor : Q) : OCRAttempt :=
  attempt ("expansion_" ++ Sprintf_1f expansionFactor ++ "x") expansionFactor
          (expansionReply i expansionFactor).

Definition extractWithPreprocessing (i : nat) (strategy : string) : OCRAttempt :=
  attempt ("preprocessing_" ++ strategy) 2.0 (preprocessingReply i strategy).

Definition extractFromFullImage (i : nat) : OCRAttempt :=
  attempt "full_image" 0.0 (fullImageReply i).

(** Strategy 1: the expansion factors in turn, stopping at the first
    attempt that succeeded with a confidence above 0.8 and a positive
    price. *)
Fixpoint expansion_loop (i : nat) (expansionFactors : list Q)
         (allAttempts : list OCRAttempt) : list OCRAttempt :=
  match expansionFactors with
  | [] => allAttempts
  | expansion :: rest =>
      let attempt := extractWithExpansion i expansion in
      let allAttempts := (allAttempts ++ [attempt])%list in
      if (Success attempt && gt (Confidence attempt) 0.8 && gt (Price attempt) 0)%bool
      then allAttempts
      else expansion_loop i rest allAttempts
  end.

(** The attempts of [extractPriceWithComprehensiveOCR] for region [i]. *)
Definition allAttempts (i : nat) (yoloConfidence : Q) : list OCRAttempt :=
  let allAttempts := expansion_loop i (getExpansionFactors yoloConfidence) [] in
  let allAttempts :=
    (allAttempts ++ List.map (extractWithPreprocessing i) preprocessingStrategies)%list in
  if negb (hasSuccessfulBboxResults allAttempts)
  then (allAttempts ++ [extractFromFullImage i])%list
  else allAttempts.

Definition extractPriceWithComprehensiveOCR (i : nat) (yoloConfidence : Q) : OCRResult :=
  selectBestOCRResult (allAttempts i yoloConfidence).

(** The loop of [ExtractPriceWithYOLO] over the detections from a state
    [(bestPrice, bestConfidence)]. *)
Fixpoint detection_loop (i : nat) (detections : list Detection)
         (bestPrice bestConfidence : Q) : Q * Q :=
  match detections with
  | [] => (bestPrice, bestConfidence)
  | detection :: rest =>
      let ocrResult := extractPriceWithComprehensiveOCR i (d_Confidence detection) in
      let combinedConfidence :=
        ((d_Confidence detection + r_Confidence ocrResult) / 2)%Q in
      if (gt combinedConfidence bestConfidence && gt (r_Price ocrResult) 0)%bool
      then detection_loop (S i) rest (r_Price ocrResult) combinedConfidence
      else detection_loop (S i) rest bestPrice bestConfidence
  end.

(** [ExtractPriceWithYOLO]; [yolo] is what [detectPricesWithYOLO]
    returns. Indexing [Detections] out of range panics. *)
Definition ExtractPriceWithYOLO (yolo : result YOLOResponse)
  : go (result EnhancedOCRResult) :=
  match yolo with
  | Err _ => Ret (Err "YOLO detection failed")
  | Ok yoloResult =>
      if Z.eqb (TotalDetections yoloResult) 0 then
        Ret (Ok {| e_Success := false; e_Price := 0; e_YOLOConfidence := 0;
                   e_OCRConfidence := 0; e_TotalDetections := 0;
                   e_Error := "No price regions detected by YOLO" |})
      else
        let '(bestPrice, bestConfidence) :=
          detection_loop 0 (Detections yoloResult) 0 0 in
        if le bestPrice 0 then
          Ret (Ok {| e_Success := false; e_Price := 0; e_YOLOConfidence := 0;
                     e_OCRConfidence := 0;
                     e_TotalDetections := TotalDetections yoloResult;
                     e_Error := "No valid prices extracted from detected regions" |})
        else
          match Detections yoloResult with
          | [] => GoPanic "index out of range"
          | first :: _ =>
              Ret (Ok {| e_Success := true; e_Price := bestPrice;
                         e_YOLOConfidence := d_Confidence first;
                         e_OCRConfidence := bestConfidence;
                         e_TotalDetections := TotalDetections yoloResult;
                         e_Error := "" |})
          end
  end.

End Service.

End EnhancedOCR.

(** ** scraper: the detection of bot walls

    The patterns are compiled by Go's [regexp]; whether a pattern matches a
    text is the matcher's answer, [MatchString] below, by the source text
    of the pattern. *)

Module BotDetector.

Import Float64 GoStrings.
Local Open Scope string_scope.

Definition botPatterns : list string :=
  [ "(?i)unfortunately we are unable"; "(?i)access denied"; "(?i)blocked";
    "(?i)bot detected"; "(?i)please verify you are human"; "(?i)security check";
    "(?i)cloudflare"; "(?i)distil networks"; "(?i)imperva"; "(?i)akamai";
    "(?i)rate limit"; "(?i)too many requests"; "(?i)please wait";
    "(?i)checking your browser"; "(?i)ddos protection"; "(?i)captcha";
    "(?i)recaptcha"; "(?i)hcaptcha"; "(?i)turnstile" ].

Definition captchaPatterns : list string :=
  [ "(?i)captcha"; "(?i)recaptcha"; "(?i)hcaptcha"; "(?i)turnstile";
    "(?i)verify you are human"; "(?i)select all images"; "(?i)click the checkbox" ].

Definition blockPatterns : list string :=
  [ "(?i)403 forbidden"; "(?i)429 too many requests"; "(?i)503 service unavailable";
    "(?i)maintenance"; "(?i)under construction"; "(?i)site temporarily unavailable" ].

(** [strings.Join] *)
Fixpoint Join (elems : list string) (sep : string) : string :=
  match elems with
  | [] => ""
  | [e] => e
  | e :: rest => e ++ sep ++ Join rest sep
  end.

Section Matching.

(** [regexp.MustCompile(pattern).MatchString(content)] *)
Variable MatchString : string -> string -> bool.

(** One of the three loops over a list of patterns: each pattern that
    matches adds [weight] to the score and a reason to the list. *)
Fixpoint scan (patterns : list string) (content : string) (weight : Q) (label : string)
         (botScore : Q) (botReasons : list string) : Q * list string :=
  match patterns with
  | [] => (botScore, botReasons)
  | pattern :: rest =>
      if MatchString pattern content
      then scan rest content weight label (botScore + weight)%Q
                (botReasons ++ [(label ++ pattern)%string])%list
      else scan rest content weight label botScore botReasons
  end.

Definition DetectBotWall (pageContent pageTitle : string) : bool * string * Q :=
  let content := ToLower (pageContent ++ " " ++ pageTitle) in
  let '(botScore, botReasons) := scan botPatterns content 0.3 "" 0.0 [] in
  let '(botScore, botReasons) :=
    scan captchaPatterns content 0.5 "CAPTCHA detected: " botScore botReasons in
  let '(botScore, botReasons) :=
    scan blockPatterns content 0.4 "HTTP error: " botScore botReasons in
  let '(botScore, botReasons) :=
    if (Contains content "javascript" && Contains content "disabled")%bool
    then ((botScore + 0.2)%Q, (botReasons ++ ["JavaScript disabled warning"])%list)
    else (botScore, botReasons) in
  let '(botScore, botReasons) :=
    if (Nat.ltb (String.length content) 1000 && gt botScore 0)%bool
    then ((botScore + 0.2)%Q,
          (botReasons ++ ["Very short content with bot indicators"])%list)
    else (botScore, botReasons) in
  let botScore := if gt botScore 1.0 then 1.0%Q else botScore in
  let isBotWall := gt botScore 0.3 in
  (isBotWall, Join botReasons "; ", botScore).

Definition DetectCaptcha (pageContent pageTitle : string) : bool * string :=
  let content := ToLower (pageContent ++ " " ++ pageTitle) in
  match List.find (fun pattern => MatchString pattern content) captchaPatterns with
  | Some pattern => (true, "CAPTCHA detected: " ++ pattern)
  | None => (false, "")
  end.

Definition GetBlockType (pageContent pageTitle : string) : string :=
  let content := ToLower (pageContent ++ " " ++ pageTitle) in
  if fst (DetectCaptcha pageContent pageTitle) then "captcha"
  else if existsb (fun pattern => MatchString pattern content) blockPatterns
       then "http_error"
       else "bot_wall".

End Matching.

(** The matcher on lower-case ASCII texts: the patterns are literals under
    the flag [(?i)], which the four bytes dropped here spell. *)
Definition matchLiteral (pattern content : string) : bool :=
  Contains content (drop 4 pattern).

End BotDetector.

(** ** handlers: the check behind the asynchronous endpoint *)

Module AsyncCheck.

Import Float64 Models Repository.
Local Open Scope string_scope.

Section WithEnvironment.

Variable failing : DbOp -> bool.
Variable now : Z.
(** [h.scraper.ScrapePriceWithHybridMethod] *)
Variable ScrapePriceWithHybridMethod : string -> Z -> result PriceData.

(** [performPriceCheck], the function the task manager runs; the error
    texts stand without their formatted details. *)
Definition performPriceCheck (db : DB) (urlID : Z) : DB * result PriceData :=
  match GetURLByID failing db urlID with
  | Err _ => (db, Err "failed to get URL details")
  | Ok url =>
      if negb (CanRetry now url)
      then (db, Err "price check failed recently")
      else
        match ScrapePriceWithHybridMethod (URL url) urlID with
        | Err _ =>
            let '(db1, _) := MarkPriceCheckFailed failing now db urlID in
            (db1, Err "failed to scrape price")
        | Ok priceData =>
            let '(db1, _) := MarkPriceCheckSuccess failing now db urlID in
            match UpdateURLPrice failing now db1 urlID priceData with
            | (db2, Err _) => (db2, Err "failed to update URL price")
            | (db2, Ok _) =>
                let '(db3, _) := AddPriceHistory failing now db2 urlID priceData in
                let '(db4, _) :=
                  CheckAlerts failing now db3 urlID (pd_CurrentPrice priceData) in
                (db4, Ok priceData)
            end
        end
  end.

End WithEnvironment.

End AsyncCheck.

(** ** handlers: the feedback id, written by [CheckPriceNow] and read back
    by [GetAlternativePrice] *)

Module FeedbackID.

Local Open Scope string_scope.

(** [fmt.Sprintf("%d", n)] *)
Definition Sprintf_d (n : Z) : string :=
  if Z.ltb n 0 then "-" ++ Fmt.itoa (- n) else Fmt.itoa n.

(** [strconv.Atoi]: an optional sign and at least one digit, nothing else;
    the range error of a literal beyond [int] is left out. *)
Definition Atoi (s : string) : option Z :=
  match s with
  | EmptyString => None
  | String c rest =>
      let '(negative, body) :=
        if Ascii.eqb c "-" then (true, rest)
        else if Ascii.eqb c "+" then (false, rest)
        else (false, s) in
      match Strconv.digits body 0 0 with
      | (v, n, EmptyString) =>
          if Nat.eqb n 0 then None else Some (if negative then - v else v)
      | _ => None
      end
  end.

(** [fmt.Sprintf("feedback_%d_%d", id, time.Now().Unix())] *)
Definition feedbackID (id unix : Z) : string :=
  "feedback_" ++ Sprintf_d id ++ "_" ++ Sprintf_d unix.

(** The target [GetAlternativePrice] reads from a feedback id, or the
    message of its 400 answer. *)
Definition urlIDOf (feedbackID : string) : result Z :=
  if String.eqb feedbackID "" then Err "Feedback ID is required"
  else
    let parts := PriceScraper.Split feedbackID "_" in
    if Nat.ltb (List.length parts) 3 then Err "Invalid feedback ID format"
    else
      match Atoi (nth 1 parts "") with
      | Some urlID => Ok urlID
      | None => Err "Invalid URL ID in feedback ID"
      end.

End FeedbackID.

(** ** database/supabase.go: the constraints of the tables *)

Module Schema.

Local Open Scope string_scope.

(** [method VARCHAR(20) NOT NULL CHECK (method IN ('network', 'ocr',
    'hybrid'))] of [scraping_preferences]. *)
Definition scrapingMethods : list string := [ "network"; "ocr"; "hybrid" ].

Definition method_check (method : string) : bool :=
  existsb (String.eqb method) scrapingMethods.

(** [alert_type VARCHAR(20) NOT NULL CHECK (alert_type IN ('price_drop',
    'percentage_drop'))] of [price_alerts]. *)
Definition alertTypes : list string := [ "price_drop"; "percentage_drop" ].

Definition alert_type_check (alertType : string) : bool :=
  existsb (String.eqb alertType) alertTypes.

End Schema.

(** ** Vocabulary of the design document, for the statements below *)

Module Design.

Import Float64 Hybrid.





(** The arbitration is in its mismatch branch: both methods succeeded, the
    values disagree, and no earlier row of the decision table applies. *)
Definition mismatchBranch (m : PriceMatchResult) (url : string) : bool :=
  (NetworkSuccess m && OCRSuccess m && negb (PricesMatch m)
   && negb (isAmazonDomain url && gt (NetworkConfidence m) 0.5)
   && negb (gt (OCRConfidence m) 0.7))%bool.

(** The range a price candidate must lie in: within [1, 1000000] and not a
    year of 2020..2030. *)
Definition candidateRange (price : Q) : Prop :=
  (1 <= price)%Q /\ (price <= 1000000)%Q /\ ~ ((2020 <= price)%Q /\ (price <= 2030)%Q).



End Design.

(** ** Vocabulary for the statements on the patterns *)

Module Patterns.

Import Regexp.
Local Open Scope string_scope.

(** The 256 bytes. *)
Definition bytes : list ascii := List.map ascii_of_nat (seq 0 256).

(** Every byte of the class [p] is a digit. *)
Definition digits_only (p : ascii -> bool) : bool :=
  forallb (fun c => implb (p c) (digit c)) bytes.

(** A pattern every word of which holds a digit. *)
Fixpoint demands_digit (r : regex) : bool :=
  match r with
  | Eps => false
  | Cls p => digits_only p
  | Lit t => negb (GoStrings.all_bytes (fun c => negb (digit c)) t)
  | Seq r1 r2 => (demands_digit r1 || demands_digit r2)%bool
  | Alt r1 r2 => (demands_digit r1 && demands_digit r2)%bool
  | Star _ => false
  | Grp _ r1 => demands_digit r1
  end.

(** A byte other than the comma. *)
Definition not_comma (c : ascii) : bool := negb (Ascii.eqb "," c).

End Patterns.

(** ** Vocabulary for the statements on the alerts *)

Module Alerts.

Import Float64 Models Repository.
Local Open Scope string_scope.

(** An alert as [TriggerAlert] at time [now] leaves it. *)
Definition fired (now : Z) (a : PriceAlert) : PriceAlert :=
  {| pa_ID := pa_ID a; pa_URLID := pa_URLID a; pa_TargetPrice := pa_TargetPrice a;
     pa_AlertType := pa_AlertType a; pa_Percentage := pa_Percentage a;
     pa_IsActive := pa_IsActive a; pa_CreatedAt := pa_CreatedAt a;
     pa_TriggeredAt := Some now |}.

(** The rows [GetActiveAlertsForURL] selects: [url_id = $1 AND is_active =
    true AND triggered_at IS NULL]. *)
Definition pending (urlID : Z) (a : PriceAlert) : bool :=
  (Z.eqb (pa_URLID a) urlID && pa_IsActive a
   && match pa_TriggeredAt a with None => true | Some _ => false end)%bool.


End Alerts.

(** ** Concrete targets and runs used in the statements below *)

Module Samples.

Import Models Repository Hybrid.
Local Open Scope string_scope.

(** A database on which every statement succeeds. *)
Definition healthy : DbOp -> bool := fun _ => false.

(** A tracked target of the default category whose last price is
    [$100.00]. *)
Definition widget : TrackedURL :=
  {| ID := 1; URL := "https://shop.example.com/widget"; Name := "Widget";
     CurrentPrice := Some 100%Q; OriginalPrice := Some 100%Q;
     Currency := "USD"; LastChecked := Some 0; LastFailedAt := None;
     RetryCount := 0; NextRetryAt := None; CreatedAt := 0; UpdatedAt := 0;
     IsActive := true |}.

(** The same target after one failed check at time 0. *)
Definition widgetFailedOnce : TrackedURL :=
  {| ID := 1; URL := "https://shop.example.com/widget"; Name := "Widget";
     CurrentPrice := Some 100%Q; OriginalPrice := Some 100%Q;
     Currency := "USD"; LastChecked := Some 0; LastFailedAt := Some 0;
     RetryCount := 1; NextRetryAt := Some (10 * GoTime.Minute);
     CreatedAt := 0; UpdatedAt := 0; IsActive := true |}.

Definition dbWith (u : TrackedURL) : DB :=
  {| tracked_urls := {[ ID u := u ]}; price_history := [];
     price_alerts := []; scraping_preferences := ∅;
     alert_evaluations := [] |}.

(** An extraction that succeeds with [$1.00]. *)
Definition oneDollar : PriceData := priceData 1%Q "network" "network_fallback" 0.8%Q.

Definition scrapesOneDollar : string -> Z -> result PriceData :=
  fun _ _ => Ok oneDollar.





(** The same on a marketplace page, with low confidences. *)
Definition mismatchMarketplace : PriceMatchResult :=
  {| NetworkPrice := 200; OCRPrice := 340; NetworkSuccess := true;
     OCRSuccess := true; PricesMatch := pricesMatch 200 340;
     MatchConfidence := calculateMatchConfidence 200 340;
     FinalPrice := 0; Method := ""; Error := ""; NetworkSource := "network";
     NetworkConfidence := 0.4; OCRConfidence := 0.5; Reasons := [] |}.

Definition shopURL : string := "https://shop.example.com/item/42".
Definition marketplaceURL : string := "https://www.amazon.com/dp/B000000000".


(** Vision answers [$120.00] after 25 seconds, after 1 second, or never;
    the network answers [$120.00] after 2 seconds. *)
Definition visionAnswer : Extraction.OCRRun :=
  Extraction.YOLOReturned
    (Some {| OCR.e_Success := true; OCR.e_Price := 120; OCR.e_YOLOConfidence := 0.9;
             OCR.e_OCRConfidence := 0.6; OCR.e_TotalDetections := 1;
             OCR.e_Error := "" |}) None.

Definition slowVision : Extraction.Branch Extraction.OCRRun :=
  {| Extraction.latency := Some (25 * GoTime.Second);
     Extraction.outcome := visionAnswer |}.

Definition fastVision : Extraction.Branch Extraction.OCRRun :=
  {| Extraction.latency := Some (1 * GoTime.Second);
     Extraction.outcome := visionAnswer |}.

Definition blockedVision : Extraction.Branch Extraction.OCRRun :=
  {| Extraction.latency := None; Extraction.outcome := visionAnswer |}.

Definition quickNetwork : Extraction.Branch Extraction.result_of_network :=
  {| Extraction.latency := Some (2 * GoTime.Second);
     Extraction.outcome := Ok (Some (priceData 120 "network" "" 0.8)) |}.


(** A full-image attempt and a region-scoped one in the sweet spot. *)
Definition fullImageAttempt : OCR.OCRAttempt :=
  {| OCR.Strategy := "full_image"; OCR.ExpansionFactor := 0.0;
     OCR.Price := 24.99; OCR.Text := "24.99"; OCR.Confidence := 0.9;
     OCR.Success := true; OCR.Error := "" |}.

Definition regionAttempt : OCR.OCRAttempt :=
  {| OCR.Strategy := "expansion_2.0x"; OCR.ExpansionFactor := 2.0;
     OCR.Price := 19.99; OCR.Text := "$19.99"; OCR.Confidence := 0.7;
     OCR.Success := true; OCR.Error := "" |}.

End Samples.

(** ** Further targets and inputs used in the statements below *)

Module Cases.

Import Models Repository.
Local Open Scope string_scope.

(** An alert on target 1 for a price at or below [$90.00]. *)
Definition priceDropAlert : PriceAlert :=
  {| pa_ID := 3; pa_URLID := 1; pa_TargetPrice := 90; pa_AlertType := "price_drop";
     pa_Percentage := 0; pa_IsActive := true; pa_CreatedAt := 0;
     pa_TriggeredAt := None |}.

Definition dbWithAlert : DB :=
  {| tracked_urls := {[ 1 := Samples.widget ]}; price_history := [];
     price_alerts := [ priceDropAlert ]; scraping_preferences := ∅;
     alert_evaluations := [] |}.


(** A page that asks for a CAPTCHA, and a long page that mentions a content
    delivery network once. *)
Definition captchaPage : string := "Please complete the CAPTCHA to continue".

Fixpoint filler (n : nat) : string :=
  match n with
  | O => ""
  | S n' => "lorem ipsum " ++ filler n'
  end.

Definition longPage : string := "Served by Cloudflare. " ++ filler 100.

(** Vision answers after 45 seconds, past its 30 seconds. *)
Definition lateVision : Extraction.Branch Extraction.OCRRun :=
  {| Extraction.latency := Some (45 * GoTime.Second);
     Extraction.outcome := Samples.visionAnswer |}.

End Cases.

(** * Properties *)

(** ** Plausibility gate (C1) *)

Section PlausibilityGate.

Import Models Repository Scheduler Handlers Samples.

Variable failing : DbOp -> bool.
Variable now : Z.

(** On the scheduled path an implausible value leaves the database as it
    was: no price update, no history row, no alert evaluation. *)
Lemma checkURLPrice_implausible_no_effect
      (scrape : string -> result PriceData) (db : DB) (url : TrackedURL)
      (pd : PriceData) :
  scrape (URL url) = Ok pd ->
  IsPriceChangeRealistic url (pd_CurrentPrice pd) = false ->
  checkURLPrice failing now scrape db url = db.
Proof.
  intros Hs Hr. unfold checkURLPrice. rewrite Hs, Hr. reflexivity.
Qed.

Lemma alert_evaluations_UpdateURLPrice db id pd :
  alert_evaluations (fst (UpdateURLPrice failing now db id pd)) = alert_evaluations db.
Proof. unfold UpdateURLPrice. destruct (failing _); reflexivity. Qed.

Lemma alert_evaluations_AddPriceHistory db id pd :
  alert_evaluations (fst (AddPriceHistory failing now db id pd)) = alert_evaluations db.
Proof. unfold AddPriceHistory. destruct (failing _); reflexivity. Qed.

Lemma alert_evaluations_MarkPriceCheckSuccess db id :
  alert_evaluations (fst (MarkPriceCheckSuccess failing now db id)) = alert_evaluations db.
Proof. unfold MarkPriceCheckSuccess. destruct (failing _); reflexivity. Qed.

(** On the on-demand path an implausible value triggers no alert
    evaluation. *)
Lemma CheckPriceNow_implausible_no_alert_evaluation
      (scrape : string -> Z -> result PriceData) (db : DB) (id : Z)
      (url : TrackedURL) (pd : PriceData) :
  GetURLByID failing db id = Ok url ->
  scrape (URL url) id = Ok pd ->
  IsPriceChangeRealistic url (pd_CurrentPrice pd) = false ->
  alert_evaluations (fst (CheckPriceNow failing now (Some scrape) db (Some id)))
  = alert_evaluations db.
Proof.
  intros Hu Hs Hr. unfold CheckPriceNow. rewrite Hu.
  destruct (negb (CanRetry now url)); [reflexivity|].
  rewrite Hs.
  pose proof (alert_evaluations_MarkPriceCheckSuccess db id) as H1.
  destruct (MarkPriceCheckSuccess failing now db id) as [db1 r1]. simpl in H1.
  pose proof (alert_evaluations_UpdateURLPrice db1 id pd) as H2.
  destruct (UpdateURLPrice failing now db1 id pd) as [db2 [ [] | e ] ]; simpl in H2.
  - pose proof (alert_evaluations_AddPriceHistory db2 id pd) as H3.
    destruct (AddPriceHistory failing now db2 id pd) as [db3 r3]. simpl in H3.
    rewrite Hr. simpl. congruence.
  - simpl. congruence.
Qed.

(** ... but it is written to the price history all the same, whenever the
    price update goes through. *)
Lemma CheckPriceNow_implausible_writes_history
      (scrape : string -> Z -> result PriceData) (db : DB) (id : Z)
      (url : TrackedURL) (pd : PriceData) :
  failing OpUpdateURLPrice = false ->
  failing OpAddPriceHistory = false ->
  GetURLByID failing db id = Ok url ->
  CanRetry now url = true ->
  scrape (URL url) id = Ok pd ->
  IsPriceChangeRealistic url (pd_CurrentPrice pd) = false ->
  price_history (fst (CheckPriceNow failing now (Some scrape) db (Some id)))
  = price_history db ++
      [ {| ph_URLID := id; ph_Price := pd_CurrentPrice pd;
           ph_Currency := pd_Currency pd;
           ph_DiscountPercentage := pd_DiscountPercentage pd;
           ph_OriginalPrice := pd_OriginalPrice pd; ph_CheckedAt := now |} ].
Proof.
  intros Hf1 Hf2 Hu Hc Hs Hr. unfold CheckPriceNow.
  rewrite Hu, Hc, Hs. simpl.
  unfold MarkPriceCheckSuccess, UpdateURLPrice, AddPriceHistory.
  rewrite Hf1, Hf2, Hr.
  destruct (failing OpMarkPriceCheckSuccess); reflexivity.
Qed.

End PlausibilityGate.

(** C1. Target [widget] was last seen at [$100.00] (default category) and the
    extraction returns [$1.00], a change of -99%. The scheduled check leaves
    the database untouched; the on-demand check evaluates no alert but
    updates the current price and appends a price-history row. *)
Theorem C1_on_demand_check_records_implausible_price :
  let db := Samples.dbWith Samples.widget in
  let after := fst (Handlers.CheckPriceNow Samples.healthy 5 (Some Samples.scrapesOneDollar)
                      db (Some 1)) in
  Models.IsPriceChangeRealistic Samples.widget 1 = false
  /\ Scheduler.checkURLPrice Samples.healthy 5 (fun _ => Ok Samples.oneDollar) db Samples.widget
     = db
  /\ Repository.alert_evaluations after = []
  /\ Repository.price_history after
     = [ {| Models.ph_URLID := 1; Models.ph_Price := 1; Models.ph_Currency := "USD";
            Models.ph_DiscountPercentage := 0; Models.ph_OriginalPrice := 1;
            Models.ph_CheckedAt := 5 |} ]
  /\ (Models.CurrentPrice <$> (Repository.tracked_urls after !! 1)) = Some (Some 1%Q).
Proof.
  vm_compute. repeat split; reflexivity.
Qed.

(** ** Retry schedule (C2) *)

Section RetrySchedule.

Import Models Repository.

Lemma Minute_pos : 0 < GoTime.Minute.
Proof. reflexivity. Qed.

Lemma retry_delay_from_one (n : Z) :
  1 <= n -> 30 * GoTime.Minute <= retry_delay n.
Proof.
  intros Hn. unfold retry_delay.
  destruct n as [|p|p]; [lia| |lia].
  destruct p as [[[q|q|]|[q|q|]|]|[[q|q|]|[q|q|]|]|]; vm_compute; congruence.
Qed.

(** A failed extraction on the scheduled path schedules nothing: the
    database is left as it was. *)
Lemma checkURLPrice_failure_no_effect
      (failing : DbOp -> bool) (now : Z) (scrape : string -> result PriceData)
      (db : DB) (url : TrackedURL) (e : string) :
  scrape (URL url) = Err e ->
  Scheduler.checkURLPrice failing now scrape db url = db.
Proof. intros H. unfold Scheduler.checkURLPrice. rewrite H. reflexivity. Qed.

(** The escalating table itself is monotone up to its ceiling. *)
Lemma retry_delay_monotone (n : Z) :
  0 <= n -> retry_delay n <= retry_delay (n + 1).
Proof.
  intros Hn.
  destruct (Z_lt_le_dec n 5) as [Hlt|Hge].
  - assert (n = 0 \/ n = 1 \/ n = 2 \/ n = 3 \/ n = 4) as H by lia.
    destruct H as [->|[->|[->|[->| ->]]]]; vm_compute; congruence.
  - assert (retry_delay n = 24 * GoTime.Hour) as ->.
    { unfold retry_delay. destruct n as [|p|p]; try lia.
      destruct p as [[[q|q|]|[q|q|]|]|[[q|q|]|[q|q|]|]|]; try reflexivity; lia. }
    assert (retry_delay (n + 1) = 24 * GoTime.Hour) as ->.
    { unfold retry_delay. destruct (n + 1) as [|p|p] eqn:E; try lia.
      destruct p as [[[q|q|]|[q|q|]|]|[[q|q|]|[q|q|]|]|]; try reflexivity; lia. }
    lia.
Qed.

End RetrySchedule.

(** C2. After a failed extraction of a target whose retry count is already
    [n >= 1], the stored [next_retry_at] is [last_failed_at] plus ten
    minutes: the delay is the constant of [MarkPriceCheckFailed], and it is
    neither the table's entry for the count before the failure nor the entry
    for the count after it. *)
Theorem C2_failed_check_schedules_constant_delay
        (failing : Repository.DbOp -> bool) (now : Z) (db : Repository.DB) (id : Z)
        (u : Models.TrackedURL) :
  failing Repository.OpMarkPriceCheckFailed = false ->
  Repository.tracked_urls db !! id = Some u ->
  1 <= Models.RetryCount u ->
  exists u',
    Repository.tracked_urls (fst (Repository.MarkPriceCheckFailed failing now db id)) !! id
    = Some u'
    /\ Models.RetryCount u' = Models.RetryCount u + 1
    /\ Models.LastFailedAt u' = Some now
    /\ Models.NextRetryAt u' = Some (now + 10 * GoTime.Minute)
    /\ now + 10 * GoTime.Minute < now + Models.GetRetryDelay u
    /\ now + 10 * GoTime.Minute < now + Models.GetRetryDelay u'.
Proof.
  intros Hf Hu Hn. unfold Repository.MarkPriceCheckFailed. rewrite Hf. simpl.
  rewrite lookup_alter_eq, Hu. simpl. eexists. split; [reflexivity|]. simpl.
  repeat split.
  - pose proof (retry_delay_from_one (Models.RetryCount u) Hn) as H.
    unfold Models.GetRetryDelay. pose proof Minute_pos. lia.
  - assert (1 <= Models.RetryCount u + 1) as Hn' by lia.
    pose proof (retry_delay_from_one _ Hn') as H.
    unfold Models.GetRetryDelay. simpl. pose proof Minute_pos. lia.
Qed.

Lemma C2_failed_check_schedules_constant_delay_witness :
  exists u',
    Repository.tracked_urls
      (fst (Repository.MarkPriceCheckFailed Samples.healthy (20 * GoTime.Minute)
              (Samples.dbWith Samples.widgetFailedOnce) 1)) !! 1
    = Some u'
    /\ Models.RetryCount u' = Models.RetryCount Samples.widgetFailedOnce + 1
    /\ Models.LastFailedAt u' = Some (20 * GoTime.Minute)
    /\ Models.NextRetryAt u' = Some (20 * GoTime.Minute + 10 * GoTime.Minute)
    /\ 20 * GoTime.Minute + 10 * GoTime.Minute
       < 20 * GoTime.Minute + Models.GetRetryDelay Samples.widgetFailedOnce
    /\ 20 * GoTime.Minute + 10 * GoTime.Minute
       < 20 * GoTime.Minute + Models.GetRetryDelay u'.
Proof.
  apply (C2_failed_check_schedules_constant_delay Samples.healthy (20 * GoTime.Minute)
           (Samples.dbWith Samples.widgetFailedOnce) 1 Samples.widgetFailedOnce).
  - reflexivity.
  - vm_compute. reflexivity.
  - vm_compute. congruence.
Defined.

(** ** Feedback on the preference store (C7) *)

Section Feedback.

Import Float64 Models Repository Handlers.

Variable failing : DbOp -> bool.
Variable now : Z.

(** What feedback confirming the alternative leaves in the row of a target
    that has one: the complementary method, the raised success rate in the
    [confidence] column, and the stored success rate as it was. *)
Lemma SubmitPriceFeedback_alternative_row
      (db : DB) (req : PriceFeedbackRequest) (old : ScrapingPreference) :
  failing OpGetPreference = false ->
  failing OpSavePreference = false ->
  fr_FeedbackID req <> ""%string ->
  fr_URLID req <> 0 ->
  fr_PrimaryCorrect req = false ->
  fr_AlternativeCorrect req = true ->
  scraping_preferences db !! fr_URLID req = Some old ->
  sp_URLID old = fr_URLID req ->
  exists row,
    scraping_preferences (fst (SubmitPriceFeedback failing now db (Some req))) !! fr_URLID req
    = Some row
    /\ sp_Method row = alternativeMethod (sp_Method old)
    /\ sp_Confidence row = min 1.0%Q (sp_SuccessRate old + 0.1)%Q
    /\ sp_SuccessRate row = sp_SuccessRate old.
Proof.
  intros Hg Hs Hid Hurl Hp Ha Hold Hkey.
  unfold SubmitPriceFeedback.
  apply String.eqb_neq in Hid. apply Z.eqb_neq in Hurl.
  rewrite Hid, Hurl. simpl.
  unfold GetPreference. rewrite Hg, Hold, Hp, Ha.
  unfold SavePreference. rewrite Hs, Hkey, Hold. simpl.
  rewrite lookup_insert_eq. eexists. split; [reflexivity|]. simpl.
  repeat split.
Qed.

(** Without a stored row [GetPreference] returns [(nil, nil)] and the
    handler dereferences the [nil] preference. *)
Lemma SubmitPriceFeedback_without_row_panics
      (db : DB) (req : PriceFeedbackRequest) :
  failing OpGetPreference = false ->
  fr_FeedbackID req <> ""%string ->
  fr_URLID req <> 0 ->
  scraping_preferences db !! fr_URLID req = None ->
  SubmitPriceFeedback failing now db (Some req)
  = (db, panic "invalid memory address or nil pointer dereference").
Proof.
  intros Hg Hid Hurl Hnone. unfold SubmitPriceFeedback.
  apply String.eqb_neq in Hid. apply Z.eqb_neq in Hurl.
  rewrite Hid, Hurl. simpl. unfold GetPreference. rewrite Hg, Hnone. reflexivity.
Qed.

End Feedback.


(** ** Locale parser (C8) *)

(** C8. The value 1234.56 written in the European grouped format, in the
    bare symbol and decimal format and as a plain decimal token is not parsed
    back: the first pattern tried matches a prefix of each text. Only the
    symbol-prefixed grouped format gives the value back. *)
Theorem C8_formats_not_parsed_back :
  LocaleParser.ParsePrice "$1,234.56" = Ret (Ok (1234.56%Q, "$"%string))
  /\ LocaleParser.ParsePrice "€1.234,56" = Ret (Ok (1.23%Q, "€"%string))
  /\ LocaleParser.ParsePrice "$1234.56" = Ret (Ok (123%Q, "$"%string))
  /\ LocaleParser.ParsePrice "1234.56" = Ret (Ok (123%Q, ""%string))
  /\ ~ (1.23 == 1234.56)%Q /\ ~ (123 == 1234.56)%Q.
Proof.
  repeat split; try (vm_compute; reflexivity); intros H; vm_compute in H; discriminate H.
Qed.

(** ** Comparisons of [Float64] as order facts *)

Section Float64Facts.

Import Float64.

Lemma le_true (a b : Q) : le a b = true <-> (a <= b)%Q.
Proof. unfold le. apply Qle_bool_iff. Qed.

Lemma le_false (a b : Q) : le a b = false <-> (b < a)%Q.
Proof.
  unfold le. split; intros H.
  - apply Qnot_le_lt. intros Hle. apply Qle_bool_iff in Hle. congruence.
  - destruct (Qle_bool a b) eqn:E; [|reflexivity].
    apply Qle_bool_iff in E. exfalso. exact (Qlt_not_le _ _ H E).
Qed.

Lemma gt_true (a b : Q) : gt a b = true <-> (b < a)%Q.
Proof. unfold gt. rewrite negb_true_iff. apply le_false. Qed.

Lemma gt_false (a b : Q) : gt a b = false <-> (a <= b)%Q.
Proof. unfold gt. rewrite negb_false_iff. apply le_true. Qed.

Lemma lt_true (a b : Q) : lt a b = true <-> (a < b)%Q.
Proof. unfold lt. rewrite negb_true_iff. apply le_false. Qed.

Lemma lt_false (a b : Q) : lt a b = false <-> (b <= a)%Q.
Proof. unfold lt. rewrite negb_false_iff. apply le_true. Qed.


Lemma ge_false (a b : Q) : ge a b = false <-> (a < b)%Q.
Proof. unfold ge. apply le_false. Qed.

Lemma eqb_true (a b : Q) : eqb a b = true <-> (a == b)%Q.
Proof. unfold eqb. apply Qeq_bool_iff. Qed.

(** [math.Abs] is the absolute value. *)
Lemma Abs_Qabs (a : Q) : (Abs a == Qabs a)%Q.
Proof.
  unfold Abs. destruct (lt a 0) eqn:E.
  - apply lt_true in E. symmetry. apply Qabs_neg. apply Qlt_le_weak. exact E.
  - apply lt_false in E. symmetry. apply Qabs_pos. exact E.
Qed.

End Float64Facts.

(** ** Arbitration (C3, C4, C6) *)

Section Arbitration.

Import Float64 Models Hybrid Design.


End Arbitration.




(** On a marketplace domain the default of the mismatch branch is the
    network's value. *)
Example mismatch_on_marketplace_defaults_to_network :
  Design.mismatchBranch Samples.mismatchMarketplace Samples.marketplaceURL = true
  /\ snd (Hybrid.determineFinalResult Samples.mismatchMarketplace Samples.marketplaceURL)
     = Ok (Hybrid.priceData 200 "network_amazon" "network_priority_amazon_default" 0.4).
Proof. split; vm_compute; reflexivity. Qed.






(** The scenarios of the design document. Network [$49.99] and vision
    [$49.95] match; network [$200.00] at confidence 0.6 against vision
    [$340.00] at confidence 0.4 on a non-marketplace page is decided for the
    network. *)
Example scenario_prices_match :
  Hybrid.pricesMatch 49.99 49.95 = true.
Proof. reflexivity. Qed.

Example scenario_network_margin :
  snd (Hybrid.determineFinalResult
         {| Hybrid.NetworkPrice := 200; Hybrid.OCRPrice := 340;
            Hybrid.NetworkSuccess := true; Hybrid.OCRSuccess := true;
            Hybrid.PricesMatch := Hybrid.pricesMatch 200 340;
            Hybrid.MatchConfidence := Hybrid.calculateMatchConfidence 200 340;
            Hybrid.FinalPrice := 0; Hybrid.Method := ""; Hybrid.Error := "";
            Hybrid.NetworkSource := "network";
            Hybrid.NetworkConfidence := 0.6; Hybrid.OCRConfidence := 0.4;
            Hybrid.Reasons := [] |} Samples.shopURL)
  = Ok (Hybrid.priceData 200 "network" "network_priority_confidence" 0.6).
Proof. vm_compute. reflexivity. Qed.

(** ** Selection of the best text-recognition attempt (C9) *)

Section BestAttempt.

Import Float64 OCR.


(** What the loop computes from a state [(b, s)]: either the state is
    unchanged and no eligible attempt scores above [s], or the new best is
    the first eligible attempt of maximal score, and it scores above [s]. *)
Lemma select_loop_spec (attempts : list OCRAttempt) :
  forall (b : OCRAttempt) (s : Q),
    (select_loop attempts b s = (b, s)
     /\ forall a, In a attempts -> eligible a = true -> (score a <= s)%Q)
    \/ exists l1 best l2,
         attempts = l1 ++ best :: l2
         /\ select_loop attempts b s = (best, score best)
         /\ eligible best = true
         /\ (s < score best)%Q
         /\ (forall a, In a l1 -> eligible a = true -> (score a < score best)%Q)
         /\ (forall a, In a l2 -> eligible a = true -> (score a <= score best)%Q).
Proof.
  induction attempts as [|a rest IH]; intros b s.
  - left. split; [reflexivity|]. intros a [].
  - simpl. destruct (eligible a) eqn:Ea; simpl.
    + destruct (gt (score a) s) eqn:Eg.
      * apply gt_true in Eg.
        destruct (IH a (score a)) as [[Hsame Hall]|(l1 & best & l2 & Hl & Hr & He & Hlt & H1 & H2)].
        -- right. exists [], a, rest. repeat split; auto.
           intros x [].
        -- right. exists (a :: l1), best, l2. subst rest. repeat split; auto.
           ++ eapply Qlt_trans; eassumption.
           ++ intros x [<-|Hx] Hex; [exact Hlt|auto].
      * apply gt_false in Eg.
        destruct (IH b s) as [[Hsame Hall]|(l1 & best & l2 & Hl & Hr & He & Hlt & H1 & H2)].
        -- left. split; [exact Hsame|]. intros x [<-|Hx] Hex; auto.
        -- right. exists (a :: l1), best, l2. subst rest. repeat split; auto.
           intros x [<-|Hx] Hex; [|auto].
           eapply Qle_lt_trans; eassumption.
    + destruct (IH b s) as [[Hsame Hall]|(l1 & best & l2 & Hl & Hr & He & Hlt & H1 & H2)].
      * left. split; [exact Hsame|]. intros x [<-|Hx] Hex; [congruence|auto].
      * right. exists (a :: l1), best, l2. subst rest. repeat split; auto.
        intros x [<-|Hx] Hex; [congruence|auto].
Qed.

End BestAttempt.



(** A region-scoped attempt in the sweet spot at confidence 0.7 scores
    0.924 and wins over a full-image attempt at confidence 0.9. *)
Example region_attempt_beats_full_image :
  (OCR.score Samples.regionAttempt == 0.924)%Q
  /\ (OCR.score Samples.fullImageAttempt == 0.9)%Q
  /\ OCR.selectBestOCRResult [Samples.fullImageAttempt; Samples.regionAttempt]
     = OCR.resultOf Samples.regionAttempt [Samples.fullImageAttempt; Samples.regionAttempt].
Proof. repeat split; vm_compute; reflexivity. Qed.

(** ** Numeric tokens of the DOM extractor (C10) *)

Section NumericTokens.

Import Float64 PriceScraper Design.

(** An inequality between two rational constants. *)
Ltac qconst := apply Qle_bool_iff; reflexivity.

Lemma accepted_in_range (text : string) (price : Q) :
  accepted text price = true -> candidateRange price.
Proof.
  unfold accepted, candidateRange.
  destruct (ge price 2020) eqn:E1; destruct (le price 2030) eqn:E2; simpl;
    try discriminate;
    (destruct (lt price 1.0) eqn:E3; [discriminate|]);
    (destruct (gt price 1000000) eqn:E4; [discriminate|]);
    intros _; apply lt_false in E3; apply gt_false in E4;
    (split; [eapply Qle_trans; [|exact E3]; qconst|split; [exact E4|]]);
    intros [Ha Hb].
  - apply le_false in E2. exact (Qlt_not_le _ _ E2 Hb).
  - apply ge_false in E1. exact (Qlt_not_le _ _ E1 Ha).
  - apply ge_false in E1. exact (Qlt_not_le _ _ E1 Ha).
Qed.

Lemma acceptedLenient_in_range (price : Q) :
  acceptedLenient price = true -> candidateRange price.
Proof.
  unfold acceptedLenient, candidateRange.
  destruct (ge price 2020) eqn:E1; destruct (le price 2030) eqn:E2; simpl;
    try discriminate;
    (destruct (gt price 2000) eqn:E3; [discriminate|]);
    (destruct (lt price 20) eqn:E4; [discriminate|]);
    intros _; apply gt_false in E3; apply lt_false in E4;
    (split; [eapply Qle_trans; [|exact E4]; qconst
            |split; [eapply Qle_trans; [exact E3|]; qconst|]]);
    intros [Ha Hb].
  - apply le_false in E2. exact (Qlt_not_le _ _ E2 Hb).
  - apply ge_false in E1. exact (Qlt_not_le _ _ E1 Ha).
  - apply ge_false in E1. exact (Qlt_not_le _ _ E1 Ha).
Qed.

Lemma strict_loop_in_range (text : string) (matches : list (list string)) :
  forall prices,
    Forall candidateRange prices ->
    Forall candidateRange (strict_loop text matches prices).
Proof.
  induction matches as [|m rest IH]; intros prices Hp; simpl; [exact Hp|].
  destruct (nonempty (priceStrOf m)); [|apply IH; exact Hp].
  destruct (Strconv.ParseFloat _) as [price|]; [|apply IH; exact Hp].
  destruct (gt price 0 && accepted text price)%bool eqn:E; [|apply IH; exact Hp].
  apply andb_true_iff in E. destruct E as [_ E].
  apply IH. apply Forall_app. split; [exact Hp|].
  constructor; [|constructor]. exact (accepted_in_range text price E).
Qed.

Lemma lenient_loop_in_range (matches : list (list string)) :
  forall prices,
    Forall candidateRange prices ->
    Forall candidateRange (lenient_loop matches prices).
Proof.
  induction matches as [|m rest IH]; intros prices Hp; simpl; [exact Hp|].
  destruct (Nat.ltb 1 (List.length m)); [|apply IH; exact Hp].
  destruct (Strconv.ParseFloat _) as [price|]; [|apply IH; exact Hp].
  destruct (gt price 0 && lt price 10000 && acceptedLenient price)%bool eqn:E;
    [|apply IH; exact Hp].
  apply andb_true_iff in E. destruct E as [_ E].
  apply IH. apply Forall_app. split; [exact Hp|].
  constructor; [|constructor]. exact (acceptedLenient_in_range price E).
Qed.

End NumericTokens.

(** C10. For every text, every price returned by [extractAllPrices] lies in
    [1, 1000000] and is not in the year range [2020, 2030]. *)
Theorem C10_extracted_prices_in_candidate_range (text : string) :
  Forall (fun price =>
            (1 <= price)%Q /\ (price <= 1000000)%Q
            /\ ~ ((2020 <= price)%Q /\ (price <= 2030)%Q))
         (PriceScraper.extractAllPrices text).
Proof.
  change (Forall Design.candidateRange (PriceScraper.extractAllPrices text)).
  unfold PriceScraper.extractAllPrices.
  pose proof (strict_loop_in_range text
                (Regexp.FindAllStringSubmatch PriceScraper.pricePattern 5 text) []
                (List.Forall_nil _)) as H.
  destruct (PriceScraper.strict_loop text _ []) as [|p ps]; [|exact H].
  destruct (GoStrings.contains_any _ _); [|constructor].
  apply lenient_loop_in_range. constructor.
Qed.

(** Sub-dollar tokens and year-like numbers of a text are dropped. *)
Example sub_dollar_and_year_tokens_are_dropped :
  PriceScraper.extractAllPrices "Now $49.99, was 0.50$ in £2024 (25 USD off)"
  = [49.99%Q; 25%Q].
Proof. vm_compute. reflexivity. Qed.

(** ** The matcher and the words of a pattern *)

Section Matcher.

Import GoStrings Regexp.
Local Open Scope string_scope.

Lemma append_cons (x : ascii) (a b : string) : String x a ++ b = String x (a ++ b).
Proof. reflexivity. Qed.

Lemma append_one (x : ascii) (b : string) : String x "" ++ b = String x b.
Proof. reflexivity. Qed.

Lemma append_assoc (a b c : string) : (a ++ b) ++ c = a ++ (b ++ c).
Proof.
  induction a as [|x a IH]; [reflexivity|].
  rewrite !append_cons, IH. reflexivity.
Qed.

Lemma append_nil_r (a : string) : a ++ "" = a.
Proof.
  induction a as [|x a IH]; [reflexivity|].
  rewrite append_cons, IH. reflexivity.
Qed.

Lemma length_append (a b : string) :
  String.length (a ++ b) = (String.length a + String.length b)%nat.
Proof.
  induction a as [|x a IH]; [reflexivity|].
  rewrite append_cons. simpl. rewrite IH. reflexivity.
Qed.

Lemma HasPrefix_split (s t : string) :
  HasPrefix s t = true -> s = t ++ drop (String.length t) s.
Proof.
  revert s. induction t as [|a t IH]; intros s H; simpl in *.
  - reflexivity.
  - destruct s as [|b s]; [discriminate|].
    apply andb_true_iff in H. destruct H as [Hab H].
    apply Ascii.eqb_eq in Hab. subst b. rewrite append_cons. simpl.
    rewrite <- (IH s H). reflexivity.
Qed.

Lemma take_append (w s : string) : take (String.length w) (w ++ s) = w.
Proof.
  induction w as [|a w IH]; [destruct s; reflexivity|].
  rewrite append_cons. simpl. rewrite IH. reflexivity.
Qed.

Lemma consumed_append (w s : string) : consumed (w ++ s) s = w.
Proof.
  unfold consumed. rewrite length_append.
  replace (String.length w + String.length s - String.length s)%nat
    with (String.length w) by lia.
  apply take_append.
Qed.

(** Soundness of the search: a successful run has consumed a word of the
    pattern and then succeeded in its continuation. *)
Lemma run_sound {R : Type} (r : regex) :
  forall (s : string) (caps : captures) (k : string -> captures -> option R) (x : R),
    run r s caps k = Some x ->
    exists w s' caps', s = w ++ s' /\ lang r w /\ k s' caps' = Some x.
Proof.
  induction r as [|p|t|r1 IH1 r2 IH2|r1 IH1 r2 IH2|r1 IH1|i r1 IH1];
    intros s caps k x H; simpl in H.
  - exists "", s, caps. repeat split; [constructor|exact H].
  - destruct s as [|c s']; [discriminate|].
    destruct (p c) eqn:E; [|discriminate].
    exists (String c ""), s', caps. repeat split; [constructor; exact E|exact H].
  - destruct (HasPrefix s t) eqn:E; [|discriminate].
    exists t, (drop (String.length t) s), caps.
    repeat split; [apply HasPrefix_split; exact E|constructor|exact H].
  - apply IH1 in H. destruct H as (w1 & s1 & c1 & -> & L1 & H).
    apply IH2 in H. destruct H as (w2 & s2 & c2 & -> & L2 & H).
    exists (w1 ++ w2), s2, c2. rewrite append_assoc.
    repeat split; [constructor; assumption|exact H].
  - destruct (run r1 s caps k) as [y|] eqn:E.
    + injection H as ->. apply IH1 in E.
      destruct E as (w & s' & c' & -> & L & E).
      exists w, s', c'. repeat split; [apply lang_AltL; exact L|exact E].
    + apply IH2 in H. destruct H as (w & s' & c' & -> & L & H).
      exists w, s', c'. repeat split; [apply lang_AltR; exact L|exact H].
  - revert H. generalize (String.length s) at 1. intros fuel. revert s caps.
    induction fuel as [|fuel IHf]; intros s caps H.
    + exists "", s, caps. repeat split; [constructor|exact H].
    + match type of H with
      | match ?e with _ => _ end = _ => destruct e as [y|] eqn:E
      end.
      * injection H as ->. apply IH1 in E.
        destruct E as (w1 & s1 & c1 & -> & L1 & E).
        destruct (Nat.ltb _ _); [|discriminate].
        apply IHf in E. destruct E as (w2 & s2 & c2 & -> & L2 & E).
        exists (w1 ++ w2), s2, c2. rewrite append_assoc.
        repeat split; [apply lang_StarCons; assumption|exact E].
      * exists "", s, caps. repeat split; [constructor|exact H].
  - apply IH1 in H. destruct H as (w & s' & c' & -> & L & H).
    exists w, s', ((i, consumed (w ++ s') s') :: c').
    repeat split; [constructor; exact L|exact H].
Qed.

(** The equations of the search. *)
Lemma run_Eps {R : Type} s caps (k : string -> captures -> option R) :
  run Eps s caps k = k s caps.
Proof. reflexivity. Qed.

Lemma run_Seq {R : Type} r1 r2 s caps (k : string -> captures -> option R) :
  run (Seq r1 r2) s caps k = run r1 s caps (fun s1 c1 => run r2 s1 c1 k).
Proof. reflexivity. Qed.

Lemma run_Grp {R : Type} i r1 s caps (k : string -> captures -> option R) :
  run (Grp i r1) s caps k = run r1 s caps (fun s1 c1 => k s1 ((i, consumed s s1) :: c1)).
Proof. reflexivity. Qed.

Lemma run_Cls_cons {R : Type} p c s caps (k : string -> captures -> option R) :
  run (Cls p) (String c s) caps k = if p c then k s caps else None.
Proof. reflexivity. Qed.

Lemma run_Alt_right {R : Type} r1 r2 s caps (k : string -> captures -> option R) :
  run r2 s caps k <> None -> run (Alt r1 r2) s caps k <> None.
Proof. intros H. simpl. destruct (run r1 s caps k); [discriminate|exact H]. Qed.

Lemma run_Star_skip {R : Type} r1 s caps (k : string -> captures -> option R) :
  k s caps <> None -> run (Star r1) s caps k <> None.
Proof.
  intros H. simpl. destruct (String.length s); [exact H|].
  match goal with
  | |- match ?e with _ => _ end <> _ => destruct e; [discriminate|exact H]
  end.
Qed.

(** A pattern that always matches does not fail before its continuation. *)
Lemma run_always {R : Type} (r : regex) :
  always r = true ->
  forall (s : string) (caps : captures) (k : string -> captures -> option R),
    (forall s' caps', k s' caps' <> None) -> run r s caps k <> None.
Proof.
  induction r as [|p|t|r1 IH1 r2 IH2|r1 IH1 r2 IH2|r1 IH1|i r1 IH1];
    intros Ha s caps k Hk; simpl in *; try discriminate.
  - apply Hk.
  - apply andb_true_iff in Ha. destruct Ha as [Ha1 Ha2].
    apply IH1; [exact Ha1|]. intros s1 c1. apply IH2; [exact Ha2|exact Hk].
  - destruct (run r1 s caps k) as [y|] eqn:E; [discriminate|].
    apply orb_true_iff in Ha. destruct Ha as [Ha|Ha].
    + exfalso. exact (IH1 Ha s caps k Hk E).
    + apply IH2; assumption.
  - destruct (String.length s); [apply Hk|].
    match goal with
    | |- match ?e with _ => _ end <> _ => destruct e; [discriminate|apply Hk]
    end.
  - apply IH1; [exact Ha|]. intros s1 c1. apply Hk.
Qed.

End Matcher.

(** ** The locale parser never panics *)

Section LocaleParserFacts.

Import GoStrings Regexp LocaleParser.
Local Open Scope string_scope.
Local Arguments Ascii.eqb : simpl never.

Lemma all_bytes_append (p : ascii -> bool) (a b : string) :
  all_bytes p (a ++ b) = (all_bytes p a && all_bytes p b)%bool.
Proof.
  induction a as [|x a IH]; [reflexivity|].
  rewrite append_cons. simpl. rewrite IH. apply andb_assoc.
Qed.

Lemma all_bytes_weaken (p q : ascii -> bool) (a : string) :
  (forall c, p c = true -> q c = true) ->
  all_bytes p a = true -> all_bytes q a = true.
Proof.
  intros Hpq. induction a as [|x a IH]; simpl; [reflexivity|].
  intros H. apply andb_true_iff in H. destruct H as [Hx Ha].
  rewrite (Hpq x Hx), (IH Ha). reflexivity.
Qed.

Lemma lang_Rep_digits (n : nat) (w : string) :
  lang (Rep n d) w -> all_bytes digit w = true /\ String.length w = n.
Proof.
  revert w. induction n as [|n IH]; intros w H; simpl in H.
  - inversion H; subst. split; reflexivity.
  - inversion H as [| | |r1 r2 w1 w2 H1 H2| | | | |]; subst.
    inversion H1; subst. apply IH in H2. destruct H2 as [Ha Hl].
    rewrite append_one. simpl.
    match goal with Hc : digit _ = true |- _ => rewrite Hc end.
    rewrite Ha, Hl. split; reflexivity.
Qed.

Lemma lang_UpTo_digits (n : nat) (w : string) :
  lang (UpTo n d) w -> all_bytes digit w = true.
Proof.
  revert w. induction n as [|n IH]; intros w H; simpl in H.
  - inversion H; subst. reflexivity.
  - inversion H as [| | | |r1 r2 w' H1|r1 r2 w' H1| | |]; subst.
    + inversion H1 as [| | |r1 r2 w1 w2 Ha Hb| | | | |]; subst.
      inversion Ha; subst. apply IH in Hb.
      rewrite append_one. simpl.
      match goal with Hc : digit _ = true |- _ => rewrite Hc end.
      exact Hb.
    + inversion H1; subst. reflexivity.
Qed.

(** The integer part starts with a digit and holds digits only. *)
Lemma lang_leading_digits (w : string) :
  lang (Range 1 3 d) w ->
  exists c w', w = String c w' /\ digit c = true /\ all_bytes digit w' = true.
Proof.
  intros H. unfold Range in H. simpl in H.
  inversion H as [| | |r1 r2 w1 w2 H1 H2| | | | |]; subst.
  apply (lang_Rep_digits 1) in H1. destruct H1 as [Ha Hl].
  apply (lang_UpTo_digits 2) in H2.
  destruct w1 as [|c w1]; [discriminate|].
  destruct w1; [|discriminate].
  simpl in Ha. apply andb_true_iff in Ha. destruct Ha as [Hc _].
  exists c, w2. repeat split; assumption.
Qed.

Lemma lang_groups (w : string) :
  lang (Star (Seq (Lit ",") (Rep 3 d))) w -> all_bytes digit_or_comma w = true.
Proof.
  intros H. remember (Star (Seq (Lit ",") (Rep 3 d))) as r eqn:Er.
  induction H as [| | | | | | |r0 w1 w2 H1 _ H2 IH2|]; try discriminate.
  - reflexivity.
  - injection Er as ->. rewrite all_bytes_append, (IH2 eq_refl), andb_true_r.
    inversion H1 as [| | |r1 r2 u1 u2 Ha Hb| | | | |]; subst.
    inversion Ha; subst. apply (lang_Rep_digits 3) in Hb. destruct Hb as [Hb _].
    rewrite append_cons. simpl.
    apply (all_bytes_weaken digit digit_or_comma); [|exact Hb].
    intros c Hc. unfold digit_or_comma. rewrite Hc. reflexivity.
Qed.

Lemma lang_fraction (w : string) :
  lang (Opt (Seq (Lit ".") (Rep 2 d))) w -> fraction w.
Proof.
  intros H. inversion H as [| | | |r1 r2 w' H1|r1 r2 w' H1| | |]; subst.
  - right. inversion H1 as [| | |r1 r2 u1 u2 Ha Hb| | | | |]; subst.
    inversion Ha; subst. apply (lang_Rep_digits 2) in Hb. destruct Hb as [Hb Hl].
    destruct u2 as [|c1 [|c2 [|c3 u]]]; try discriminate.
    simpl in Hb. apply andb_true_iff in Hb. destruct Hb as [Hc1 Hb].
    apply andb_true_iff in Hb. destruct Hb as [Hc2 _].
    exists c1, c2. repeat split; assumption.
  - left. inversion H1; subst. reflexivity.
Qed.

(** The shape of the number captured by the first pattern. *)
Lemma lang_us_uk_number (w : string) :
  lang us_uk_number w ->
  exists c u f,
    w = String c u ++ f /\ digit c = true
    /\ all_bytes digit_or_comma u = true /\ fraction f.
Proof.
  intros H. unfold us_uk_number in H. simpl in H.
  inversion H as [| | |r1 r2 w1 w23 H1 H23| | | | |]; subst.
  inversion H23 as [| | |r1 r2 w2 w3 H2 H3| | | | |]; subst.
  apply lang_leading_digits in H1. destruct H1 as (c & w' & -> & Hc & Hw).
  apply lang_groups in H2. apply lang_fraction in H3.
  exists c, (w' ++ w2), w3. rewrite !append_cons, append_assoc.
  repeat split; try assumption.
  rewrite all_bytes_append, H2, andb_true_r.
  apply (all_bytes_weaken digit digit_or_comma); [|exact Hw].
  intros x Hx. unfold digit_or_comma. rewrite Hx. reflexivity.
Qed.

Lemma HasPrefix_nil (s : string) : HasPrefix s "" = true.
Proof. destruct s; reflexivity. Qed.

(** Removing the commas with [ReplaceAll]. *)
Lemma replace_from_comma (fuel : nat) :
  forall s, (String.length s <= fuel)%nat -> replace_from fuel s "," "" = without "," s.
Proof.
  induction fuel as [|fuel IH]; intros s Hl.
  - destruct s; [reflexivity|simpl in Hl; lia].
  - destruct s as [|c s]; [reflexivity|]. simpl in Hl.
    cbn [replace_from HasPrefix without drop String.length].
    rewrite HasPrefix_nil, andb_true_r. destruct (Ascii.eqb "," c).
    + change ("" ++ ?x) with x. apply IH. lia.
    + rewrite IH by lia. reflexivity.
Qed.

Lemma ReplaceAll_comma (s : string) : ReplaceAll s "," "" = without "," s.
Proof. unfold ReplaceAll. apply replace_from_comma. lia. Qed.

Lemma without_append (c : ascii) (a b : string) :
  without c (a ++ b) = without c a ++ without c b.
Proof.
  induction a as [|x a IH]; [reflexivity|].
  rewrite append_cons. simpl. destruct (Ascii.eqb c x); [exact IH|].
  rewrite append_cons, IH. reflexivity.
Qed.

Lemma without_comma_digits (u : string) :
  all_bytes digit_or_comma u = true -> all_bytes digit (without "," u) = true.
Proof.
  induction u as [|x u IH]; simpl; [reflexivity|].
  intros H. apply andb_true_iff in H. destruct H as [Hx Hu].
  destruct (Ascii.eqb "," x) eqn:E; [exact (IH Hu)|].
  unfold digit_or_comma in Hx. rewrite E, orb_false_r in Hx.
  simpl. rewrite Hx. exact (IH Hu).
Qed.

Lemma digit_not_comma (c : ascii) : digit c = true -> Ascii.eqb "," c = false.
Proof.
  intros H. destruct (Ascii.eqb "," c) eqn:E; [|reflexivity].
  apply Ascii.eqb_eq in E. subst c. discriminate H.
Qed.

Lemma digit_not_dot (c : ascii) : digit c = true -> Ascii.eqb c "." = false.
Proof.
  intros H. destruct (Ascii.eqb c ".") eqn:E; [|reflexivity].
  apply Ascii.eqb_eq in E. subst c. discriminate H.
Qed.

Lemma without_comma_fraction (f : string) : fraction f -> without "," f = f.
Proof.
  intros [->|(c1 & c2 & -> & H1 & H2)]; [reflexivity|].
  simpl. rewrite (digit_not_comma c1 H1), (digit_not_comma c2 H2). reflexivity.
Qed.

(** Reading a run of digits that ends at the end of the text or at a dot. *)
Lemma digits_run (ds f : string) :
  all_bytes digit ds = true ->
  f = "" \/ (exists f', f = String "." f') ->
  forall acc n,
    exists v, Strconv.digits (ds ++ f) acc n = (v, (n + String.length ds)%nat, f).
Proof.
  intros Hd Hf. induction ds as [|c ds IH]; intros acc n.
  - change ("" ++ f) with f. simpl. rewrite Nat.add_0_r.
    destruct Hf as [->|[f' ->]]; simpl; eexists; reflexivity.
  - simpl in Hd. apply andb_true_iff in Hd. destruct Hd as [Hc Hd].
    rewrite append_cons. simpl. unfold Strconv.digit_value. rewrite Hc.
    destruct (IH Hd (10 * acc + (Z.of_nat (nat_of_ascii c) - 48)) (S n)) as [v Hv].
    rewrite Hv. exists v. f_equal. f_equal. lia.
Qed.

(** A number of the first pattern, once its commas are removed, is a decimal
    literal. *)
Lemma cleaned_number_parses (w : string) :
  lang us_uk_number w ->
  exists value, Strconv.ParseFloat (cleanNumberString w loc_us_uk) = Some value.
Proof.
  intros H. apply lang_us_uk_number in H.
  destruct H as (c & u & f & -> & Hc & Hu & Hf).
  unfold cleanNumberString. rewrite ReplaceAll_comma, without_append.
  rewrite (without_comma_fraction f Hf). simpl. rewrite (digit_not_comma c Hc).
  assert (Hds : all_bytes digit (String c (without "," u)) = true).
  { simpl. rewrite Hc. apply without_comma_digits. exact Hu. }
  assert (Hf' : f = "" \/ (exists f', f = String "." f')).
  { destruct Hf as [->|(c1 & c2 & -> & _)]; [left; reflexivity|right; eexists; reflexivity]. }
  destruct (digits_run _ f Hds Hf' 0 0%nat) as [ip Hip].
  unfold Strconv.ParseFloat. rewrite Hip.
  destruct Hf as [->|(c1 & c2 & -> & H1 & H2)].
  - simpl. eexists. reflexivity.
  - rewrite Ascii.eqb_refl.
    assert (Hfr : all_bytes digit (String c1 (String c2 "")) = true)
      by (simpl; rewrite H1, H2; reflexivity).
    destruct (digits_run _ "" Hfr (or_introl eq_refl) 0 0%nat) as [fp Hfp].
    rewrite append_nil_r in Hfp. rewrite Hfp. simpl. eexists. reflexivity.
Qed.

(** A match of the first pattern captures, as its second group, a number
    of the pattern. *)
Lemma us_uk_captures_number (t rest : string) (caps : captures) :
  match_here us_uk t = Some (rest, caps) -> lang us_uk_number (capture caps 2).
Proof.
  unfold match_here, us_uk. intros H. simpl seqs in H.
  change (run (Seq ?a ?b) ?s ?c ?k) with (run a s c (fun s1 c1 => run b s1 c1 k)) in H.
  apply run_sound in H. destruct H as (w1 & s1 & c1 & _ & _ & H).
  change (run (Seq ?a ?b) ?s ?c ?k) with (run a s c (fun s1 c1 => run b s1 c1 k)) in H.
  apply run_sound in H. destruct H as (w2 & s2 & c2 & _ & _ & H).
  change (run (Grp ?i ?a) ?s ?c ?k)
    with (run a s c (fun s1 c1 => k s1 ((i, consumed s s1) :: c1))) in H.
  apply run_sound in H. destruct H as (w & s3 & c3 & -> & L & H).
  injection H as _ <-. simpl. rewrite consumed_append. exact L.
Qed.

(** Where the permissive pattern matches, the text starts with a digit. *)
Lemma simple_needs_digit (t : string) :
  match_here simple t <> None ->
  exists c t', t = String c t' /\ digit c = true.
Proof.
  unfold match_here, simple, Plus. intros H.
  destruct t as [|c t']; [exfalso; apply H; reflexivity|].
  destruct (digit c) eqn:E.
  - exists c, t'. split; reflexivity || exact E.
  - exfalso. apply H. simpl. unfold d. simpl. rewrite E. reflexivity.
Qed.

(** Where the text starts with a digit, the first pattern matches. *)
Lemma us_uk_matches_digit (c : ascii) (t' : string) :
  digit c = true -> match_here us_uk (String c t') <> None.
Proof.
  intros Hc. unfold match_here, us_uk. cbn [seqs].
  rewrite run_Seq. apply run_Alt_right. rewrite run_Eps.
  rewrite run_Seq. apply run_Star_skip.
  rewrite run_Grp. unfold us_uk_number. cbn [seqs]. rewrite run_Seq.
  unfold Range. cbn [Rep]. rewrite !run_Seq. unfold d at 1.
  rewrite run_Cls_cons, Hc, run_Eps.
  apply (run_always (UpTo (3 - 1) d)); [reflexivity|]. intros s1 c1.
  rewrite run_Seq.
  apply (run_always (Star (Seq (Lit ",") (Seq d (Seq d (Seq d Eps)))))); [reflexivity|].
  intros s2 c2.
  apply (run_always (Opt (Seq (Lit ".") (Seq d (Seq d Eps))))); [reflexivity|].
  intros s3 c3. discriminate.
Qed.

(** A leftmost match is an anchored match at some suffix of the text. *)
Lemma find_from_Some (r : regex) (groups : nat) :
  forall s n n' m rest,
    find_from r groups s n = Some (n', m, rest) ->
    exists t caps,
      match_here r t = Some (rest, caps)
      /\ m = submatches groups (consumed t rest) caps.
Proof.
  induction s as [|c s IH]; intros n n' m rest H; simpl in H.
  - destruct (match_here r "") as [[s' caps]|] eqn:E; [|discriminate].
    injection H as _ <- <-. exists "", caps. split; [exact E|reflexivity].
  - destruct (match_here r (String c s)) as [[s' caps]|] eqn:E.
    + injection H as _ <- <-. exists (String c s), caps. split; [exact E|reflexivity].
    + apply IH in H. exact H.
Qed.

(** Where the first pattern finds nothing, the permissive one finds nothing
    either. *)
Lemma find_from_us_uk_None (s : string) :
  forall n n', find_from us_uk 2 s n = None -> find_from simple 1 s n' = None.
Proof.
  induction s as [|c s IH]; intros n n' H; simpl in H |- *.
  - destruct (match_here simple "") eqn:E; [|reflexivity].
    destruct (simple_needs_digit "") as (c & t' & Hc & _); [congruence|discriminate].
  - destruct (match_here us_uk (String c s)) as [[s' caps]|] eqn:E; [discriminate|].
    destruct (match_here simple (String c s)) as [[s' caps]|] eqn:E'.
    + destruct (simple_needs_digit (String c s)) as (c' & t' & Hc & Hd); [congruence|].
      injection Hc as <- <-. exfalso. exact (us_uk_matches_digit c s Hd E).
    + apply (IH (S n)). exact H.
Qed.

(** A pattern with two groups either answers or passes on to the next
    one. *)
Lemma try_patterns_step (text : string) (l : locale) (rest : list locale) :
  snd (pattern l) = 2%nat ->
  (exists r, try_patterns text (l :: rest) = Ret r)
  \/ try_patterns text (l :: rest) = try_patterns text rest.
Proof.
  intros Hg. simpl. destruct (pattern l) as [re groups]. simpl in Hg. subst groups.
  unfold FindStringSubmatch.
  destruct (find_from re 2 text 0) as [[[n m] t]|] eqn:E; [|right; reflexivity].
  apply find_from_Some in E. destruct E as (t0 & caps & _ & ->).
  simpl. destruct (Strconv.ParseFloat _); [left; eexists; reflexivity|right; reflexivity].
Qed.

(** The first pattern answers wherever it matches. *)
Lemma try_patterns_us_uk (text : string) (rest : list locale) :
  (exists r, try_patterns text (loc_us_uk :: rest) = Ret r)
  \/ (find_from us_uk 2 text 0 = None
      /\ try_patterns text (loc_us_uk :: rest) = try_patterns text rest).
Proof.
  cbn [try_patterns pattern]. unfold FindStringSubmatch.
  destruct (find_from us_uk 2 text 0) as [[[n m] t]|] eqn:E.
  - left. apply find_from_Some in E. destruct E as (t0 & caps & Hm & ->).
    apply us_uk_captures_number in Hm. apply cleaned_number_parses in Hm.
    destruct Hm as [value Hv].
    cbn [submatches List.map seq nth_error]. rewrite Hv. eexists. reflexivity.
  - right. split; reflexivity.
Qed.

(** [ParsePrice] returns on every text: the out-of-range index of the
    permissive pattern is never reached. *)
Theorem ParsePrice_returns (text : string) :
  exists r, ParsePrice text = Ret r.
Proof.
  unfold ParsePrice. set (t := TrimSpace text).
  destruct (try_patterns_us_uk t [loc_european; loc_currency_only; loc_simple])
    as [Hr | [E -> ] ]; [exact Hr|].
  destruct (try_patterns_step t loc_european [loc_currency_only; loc_simple] eq_refl)
    as [Hr | -> ]; [exact Hr|].
  destruct (try_patterns_step t loc_currency_only [loc_simple] eq_refl)
    as [Hr | -> ]; [exact Hr|].
  cbn [try_patterns pattern]. unfold FindStringSubmatch.
  rewrite (find_from_us_uk_None t 0%nat 0%nat E). eexists. reflexivity.
Qed.

(** In a text that holds a digit the first pattern finds a match ... *)
Lemma find_from_us_uk_digit (s : string) :
  forall n, all_bytes (fun c => negb (digit c)) s = false ->
            find_from us_uk 2 s n <> None.
Proof.
  induction s as [|c s IH]; intros n H; [discriminate H|].
  simpl in H. cbn [find_from].
  destruct (match_here us_uk (String c s)) as [[s' caps]|] eqn:E; [discriminate|].
  destruct (digit c) eqn:Ec.
  - exfalso. exact (us_uk_matches_digit c s Ec E).
  - simpl in H. apply IH. exact H.
Qed.

(** ... and the answer of [ParsePrice] is the answer of the first pattern
    alone: the other three patterns are not consulted. *)
Theorem ParsePrice_first_pattern_answers (text : string) :
  all_bytes (fun c => negb (digit c)) (TrimSpace text) = false ->
  ParsePrice text = try_patterns (TrimSpace text) [loc_us_uk].
Proof.
  intros H. unfold ParsePrice. set (t := TrimSpace text) in *.
  pose proof (find_from_us_uk_digit t 0%nat H) as Hf.
  cbn [try_patterns pattern]. unfold FindStringSubmatch.
  destruct (find_from us_uk 2 t 0) as [[[n m] rest]|] eqn:E; [|congruence].
  apply find_from_Some in E. destruct E as (t0 & caps & Hm & ->).
  apply us_uk_captures_number in Hm. apply cleaned_number_parses in Hm.
  destruct Hm as [value Hv].
  cbn [submatches List.map seq nth_error]. rewrite Hv. reflexivity.
Qed.

End LocaleParserFacts.

(** ** The two extraction branches (C5) *)

Section Branches.

Import Float64 Models OCR Hybrid Extraction.

Lemma reparse_returns (ocrPrice : Q) : exists parsed, reparse ocrPrice = Ret parsed.
Proof.
  unfold reparse.
  destruct (ParsePrice_returns (Fmt.Sprintf_2f ocrPrice)) as [[[value currency]|e] ->];
    eexists; reflexivity.
Qed.

(** Recording the vision result does not panic, leaves the network fields
    alone, and reports a success only for a vision branch that was done in
    time. *)
Lemma recordOCR_returns (result : PriceMatchResult) (ocrDone : option OCRRun) :
  exists result',
    recordOCR result ocrDone = Ret result'
    /\ NetworkSuccess result' = NetworkSuccess result
    /\ (OCRSuccess result' = true -> OCRSuccess result = true \/ ocrDone <> None).
Proof.
  unfold recordOCR.
  destruct (match ocrDone with
            | Some run => ocr_vars run
            | None => (0%Q, Some "YOLO+OCR extraction timed out"%string, 0%Q)
            end) as [[ocrPrice ocrErr] ocrConfidence] eqn:E.
  destruct ocrErr as [e|].
  - exists result. repeat split. intros H. left. exact H.
  - destruct (gt ocrPrice 0).
    + destruct (reparse_returns ocrPrice) as [parsed ->].
      eexists. split; [reflexivity|]. split; [reflexivity|].
      intros _. right. destruct ocrDone; [discriminate|]. discriminate E.
    + exists result. repeat split. intros H. left. exact H.
Qed.

Lemma await_time {A : Type} (start : Z) (t : Branch A) (timeout : Z) :
  snd (await start t timeout) = start + waited (latency t) timeout.
Proof.
  unfold await, waited. destruct (latency t) as [dt|]; [|reflexivity].
  destruct (Z.leb dt timeout); reflexivity.
Qed.

Lemma await_done {A : Type} (start : Z) (t : Branch A) (timeout : Z) (a : A) :
  fst (await start t timeout) = Some a <->
  (exists dt, latency t = Some dt /\ dt <= timeout) /\ a = outcome t.
Proof.
  unfold await. destruct (latency t) as [dt|]; simpl.
  - destruct (Z.leb dt timeout) eqn:E; simpl.
    + apply Z.leb_le in E. split.
      * intros H. injection H as <-. split; [exists dt; split; [reflexivity|exact E]|reflexivity].
      * intros [_ ->]. reflexivity.
    + apply Z.leb_gt in E. split; [discriminate|].
      intros [(dt' & H & Hle) _]. injection H as <-. lia.
  - split; [discriminate|]. intros [(dt' & H & _) _]. discriminate H.
Qed.

Lemma waited_bounds (lat : option Z) (timeout : Z) :
  (forall dt, lat = Some dt -> 0 <= dt) -> 0 <= timeout ->
  0 <= waited lat timeout <= timeout.
Proof.
  intros Hl Ht. unfold waited. destruct lat as [dt|]; [|lia].
  specialize (Hl dt eq_refl). destruct (Z.leb dt timeout) eqn:E; [|lia].
  apply Z.leb_le in E. lia.
Qed.

Lemma recordMatch_flags (result : PriceMatchResult) :
  NetworkSuccess (recordMatch result) = NetworkSuccess result
  /\ OCRSuccess (recordMatch result) = OCRSuccess result.
Proof.
  unfold recordMatch. destruct (NetworkSuccess result && OCRSuccess result)%bool;
    split; reflexivity.
Qed.

Lemma recordNetwork_flags (result : PriceMatchResult)
      (networkDone : option result_of_network) :
  OCRSuccess (recordNetwork result networkDone) = OCRSuccess result
  /\ (NetworkSuccess result = false ->
      (NetworkSuccess (recordNetwork result networkDone) = true <->
       exists pd, networkDone = Some (Ok (Some pd)) /\ gt (pd_CurrentPrice pd) 0 = true)).
Proof.
  unfold recordNetwork.
  destruct networkDone as [[[pd|]|e]|]; simpl.
  - destruct (gt (pd_CurrentPrice pd) 0) eqn:E; simpl.
    + split; [reflexivity|]. intros _. split; [|reflexivity].
      intros _. exists pd. split; [reflexivity|exact E].
    + split; [reflexivity|]. intros ->. split; [discriminate|].
      intros (pd' & H & Hg). injection H as <-. congruence.
  - split; [reflexivity|]. intros ->. split; [discriminate|].
    intros (pd' & H & _). discriminate H.
  - split; [reflexivity|]. intros ->. split; [discriminate|].
    intros (pd' & H & _). discriminate H.
  - split; [reflexivity|]. intros ->. split; [discriminate|].
    intros (pd' & H & _). discriminate H.
Qed.

End Branches.

(** C5, as worded, fails. The same network branch, which needs 2 seconds,
    starts at second 25 and is done at second 27 behind a vision branch that
    needs 25 seconds, starts at second 1 behind one that needs 1 second, and
    starts at second 30 behind one that never returns: the branches do not
    run concurrently and a slow vision service delays the network branch. *)
Lemma C5_counterexample_network_waits_for_vision :
  (exists r tl,
     Extraction.extractAndMatchPrices 0 Samples.slowVision Samples.quickNetwork = Ret (r, tl)
     /\ Extraction.ocrStart tl = 0
     /\ Extraction.networkStart tl = 25 * GoTime.Second
     /\ Extraction.networkResolved tl = 27 * GoTime.Second)
  /\ (exists r tl,
        Extraction.extractAndMatchPrices 0 Samples.fastVision Samples.quickNetwork = Ret (r, tl)
        /\ Extraction.ocrStart tl = 0
        /\ Extraction.networkStart tl = 1 * GoTime.Second
        /\ Extraction.networkResolved tl = 3 * GoTime.Second)
  /\ (exists r tl,
        Extraction.extractAndMatchPrices 0 Samples.blockedVision Samples.quickNetwork
        = Ret (r, tl)
        /\ Extraction.ocrStart tl = 0
        /\ Extraction.networkStart tl = 30 * GoTime.Second
        /\ Hybrid.OCRSuccess r = false /\ Hybrid.NetworkSuccess r = true).
Proof.
  repeat split; eexists; eexists; (split; [vm_compute; reflexivity|]);
    repeat split; reflexivity.
Qed.

(** C5, amended. For every check that falls through to full dual-method
    arbitration, the vision branch runs first, waited for at most 30 seconds,
    and the network branch starts when the vision branch has resolved (done
    or timed out) and is waited for at most 20 seconds: a slow or blocked
    vision service delays the start of the network branch by the time the
    vision branch takes, at most 30 seconds. The run returns once both have
    resolved and joins the results that are available: vision counts only
    when it was done in time, and the network counts exactly when it returned
    a positive price in time, whatever became of vision. *)
Theorem C5_branches_run_in_sequence_under_their_timeouts
        (t0 : Z) (ocr : Extraction.Branch Extraction.OCRRun)
        (network : Extraction.Branch Extraction.result_of_network) :
  (forall dt, Extraction.latency ocr = Some dt -> 0 <= dt) ->
  (forall dt, Extraction.latency network = Some dt -> 0 <= dt) ->
  exists r tl,
    Extraction.extractAndMatchPrices t0 ocr network = Ret (r, tl)
    /\ Extraction.ocrStart tl = t0
    /\ Extraction.ocrResolved tl
       = t0 + Extraction.waited (Extraction.latency ocr) (30 * GoTime.Second)
    /\ Extraction.networkStart tl = Extraction.ocrResolved tl
    /\ Extraction.networkResolved tl
       = Extraction.networkStart tl
         + Extraction.waited (Extraction.latency network) (20 * GoTime.Second)
    /\ t0 <= Extraction.networkStart tl <= t0 + 30 * GoTime.Second
    /\ Extraction.networkStart tl <= Extraction.networkResolved tl
       <= Extraction.networkStart tl + 20 * GoTime.Second
    /\ (Hybrid.OCRSuccess r = true ->
        exists dt, Extraction.latency ocr = Some dt /\ dt <= 30 * GoTime.Second)
    /\ (Hybrid.NetworkSuccess r = true <->
        exists dt pd,
          Extraction.latency network = Some dt /\ dt <= 20 * GoTime.Second
          /\ Extraction.outcome network = Ok (Some pd)
          /\ Float64.gt (Models.pd_CurrentPrice pd) 0 = true).
Proof.
  intros Hocr Hnet. unfold Extraction.extractAndMatchPrices.
  pose proof (await_time t0 ocr (30 * GoTime.Second)) as Ht1.
  pose proof (fun a => await_done t0 ocr (30 * GoTime.Second) a) as Hd1.
  destruct (Extraction.await t0 ocr (30 * GoTime.Second)) as [ocrDone t1].
  simpl in Ht1, Hd1.
  destruct (recordOCR_returns Hybrid.emptyResult ocrDone) as (r1 & -> & Hn1 & Ho1).
  pose proof (await_time t1 network (20 * GoTime.Second)) as Ht2.
  pose proof (fun a => await_done t1 network (20 * GoTime.Second) a) as Hd2.
  destruct (Extraction.await t1 network (20 * GoTime.Second)) as [networkDone t2].
  simpl in Ht2, Hd2.
  destruct (recordMatch_flags (Extraction.recordNetwork r1 networkDone)) as [Hmn Hmo].
  destruct (recordNetwork_flags r1 networkDone) as [Hro Hrn].
  pose proof (waited_bounds (Extraction.latency ocr) (30 * GoTime.Second) Hocr
                ltac:(vm_compute; congruence)) as Hb1.
  pose proof (waited_bounds (Extraction.latency network) (20 * GoTime.Second) Hnet
                ltac:(vm_compute; congruence)) as Hb2.
  eexists. eexists. split; [reflexivity|]. simpl.
  split; [reflexivity|]. split; [exact Ht1|]. split; [reflexivity|].
  split; [exact Ht2|]. split; [lia|]. split; [lia|]. split.
  - rewrite Hmo, Hro. intros H. apply Ho1 in H. destruct H as [H|H]; [discriminate H|].
    destruct ocrDone as [run|]; [|congruence].
    destruct (proj1 (Hd1 run) eq_refl) as [Hdt _]. exact Hdt.
  - rewrite Hmn, (Hrn Hn1). split.
    + intros (pd & -> & Hg).
      destruct (proj1 (Hd2 (Ok (Some pd))) eq_refl) as [(dt & Hl & Hle) Hout].
      exists dt, pd. repeat split; auto.
    + intros (dt & pd & Hl & Hle & Hout & Hg). exists pd. split; [|exact Hg].
      apply Hd2. split; [exists dt; split; assumption|]. symmetry. exact Hout.
Qed.

Lemma C5_branches_run_in_sequence_under_their_timeouts_witness :
  exists r tl,
    Extraction.extractAndMatchPrices 0 Samples.slowVision Samples.quickNetwork = Ret (r, tl)
    /\ Extraction.ocrStart tl = 0
    /\ Extraction.ocrResolved tl
       = 0 + Extraction.waited (Extraction.latency Samples.slowVision) (30 * GoTime.Second)
    /\ Extraction.networkStart tl = Extraction.ocrResolved tl
    /\ Extraction.networkResolved tl
       = Extraction.networkStart tl
         + Extraction.waited (Extraction.latency Samples.quickNetwork) (20 * GoTime.Second)
    /\ 0 <= Extraction.networkStart tl <= 0 + 30 * GoTime.Second
    /\ Extraction.networkStart tl <= Extraction.networkResolved tl
       <= Extraction.networkStart tl + 20 * GoTime.Second
    /\ (Hybrid.OCRSuccess r = true ->
        exists dt, Extraction.latency Samples.slowVision = Some dt
                   /\ dt <= 30 * GoTime.Second)
    /\ (Hybrid.NetworkSuccess r = true <->
        exists dt pd,
          Extraction.latency Samples.quickNetwork = Some dt /\ dt <= 20 * GoTime.Second
          /\ Extraction.outcome Samples.quickNetwork = Ok (Some pd)
          /\ Float64.gt (Models.pd_CurrentPrice pd) 0 = true).
Proof.
  apply (C5_branches_run_in_sequence_under_their_timeouts 0 Samples.slowVision
           Samples.quickNetwork).
  - intros dt H. vm_compute in H. injection H as <-. lia.
  - intros dt H. vm_compute in H. injection H as <-. lia.
Defined.

(** * Further properties of the modelled code *)

(** ** models/models.go: the retry table and the plausibility window *)

(** Linear arithmetic with the divisions by a constant written as
    products. *)
Ltac qlra :=
  unfold Qdiv in *;
  repeat match goal with
         | |- context [Qinv (Qmake ?n ?d)] =>
             let v := eval vm_compute in (Qinv (Qmake n d)) in
             change (Qinv (Qmake n d)) with v
         | H : context [Qinv (Qmake ?n ?d)] |- _ =>
             let v := eval vm_compute in (Qinv (Qmake n d)) in
             change (Qinv (Qmake n d)) with v in H
         end;
  lra.

Section PriceWindow.

Import Float64 Models.

Lemma retry_delay_cases (n : Z) :
  (n = 0 /\ retry_delay n = 10 * GoTime.Minute)
  \/ (n = 1 /\ retry_delay n = 30 * GoTime.Minute)
  \/ (n = 2 /\ retry_delay n = 1 * GoTime.Hour)
  \/ (n = 3 /\ retry_delay n = 3 * GoTime.Hour)
  \/ (n = 4 /\ retry_delay n = 6 * GoTime.Hour)
  \/ ((n < 0 \/ 5 <= n) /\ retry_delay n = 24 * GoTime.Hour).
Proof.
  destruct (Z_lt_le_dec n 0) as [Hneg|Hpos].
  - right; right; right; right; right. split; [lia|].
    destruct n; try lia. reflexivity.
  - destruct (Z_lt_le_dec n 5) as [Hlt|Hge].
    + assert (n = 0 \/ n = 1 \/ n = 2 \/ n = 3 \/ n = 4) as H by lia.
      destruct H as [->|[->|[->|[->| ->]]]]; tauto.
    + right; right; right; right; right. split; [lia|].
      unfold retry_delay. destruct n as [|p|p]; try lia.
      destruct p as [[[q|q|]|[q|q|]|]|[[q|q|]|[q|q|]|]|]; try reflexivity; lia.
Qed.






End PriceWindow.

(** X1. The delay announced for a tracked target is never below ten
    minutes and never above a day, and it is below a day exactly for the
    retry counts 0 to 4: a negative count is treated like an exhausted
    one. *)
Theorem GetRetryDelay_between_ten_minutes_and_a_day (t : Models.TrackedURL) :
  10 * GoTime.Minute <= Models.GetRetryDelay t <= 24 * GoTime.Hour
  /\ (Models.GetRetryDelay t < 24 * GoTime.Hour <-> 0 <= Models.RetryCount t <= 4).
Proof.
  unfold Models.GetRetryDelay.
  assert (GoTime.Minute = 60000000000) as Em by reflexivity.
  assert (GoTime.Hour = 3600000000000) as Eh by reflexivity.
  destruct (retry_delay_cases (Models.RetryCount t))
    as [[E ->]|[[E ->]|[[E ->]|[[E ->]|[[E ->]|[E ->]]]]]]; lia.
Qed.





(** ** repository and handlers: the retry state of a target *)

Section RetryState.

Import Float64 Models Repository Scheduler Handlers.

Variable failing : DbOp -> bool.

Lemma tracked_urls_TriggerAlert now db alertID :
  tracked_urls (fst (TriggerAlert failing now db alertID)) = tracked_urls db.
Proof. unfold TriggerAlert. destruct (failing _); reflexivity. Qed.

Lemma price_history_TriggerAlert now db alertID :
  price_history (fst (TriggerAlert failing now db alertID)) = price_history db.
Proof. unfold TriggerAlert. destruct (failing _); reflexivity. Qed.

Lemma shouldTrigger_tracked_urls db db' urlID price alert :
  tracked_urls db' = tracked_urls db ->
  shouldTrigger failing db' urlID price alert = shouldTrigger failing db urlID price alert.
Proof.
  intros E. unfold shouldTrigger, GetURLByID. rewrite E. reflexivity.
Qed.

Lemma check_alerts_loop_frame now urlID price alerts :
  forall db triggered,
    tracked_urls (fst (check_alerts_loop failing now db urlID price alerts triggered))
    = tracked_urls db
    /\ price_history (fst (check_alerts_loop failing now db urlID price alerts triggered))
       = price_history db.
Proof.
  induction alerts as [|a rest IH]; intros db triggered; [split; reflexivity|].
  cbn [check_alerts_loop].
  destruct (shouldTrigger failing db urlID price a); [|apply IH].
  pose proof (tracked_urls_TriggerAlert now db (pa_ID a)) as Ht.
  pose proof (price_history_TriggerAlert now db (pa_ID a)) as Hh.
  destruct (TriggerAlert failing now db (pa_ID a)) as [db' [[]|e]]; cbn [fst] in Ht, Hh;
    rewrite <- Ht, <- Hh; apply IH.
Qed.

Lemma CheckAlerts_frame now db urlID price :
  tracked_urls (fst (CheckAlerts failing now db urlID price)) = tracked_urls db
  /\ price_history (fst (CheckAlerts failing now db urlID price)) = price_history db.
Proof.
  unfold CheckAlerts.
  destruct (GetActiveAlertsForURL failing _ urlID) as [alerts|e]; [|split; reflexivity].
  pose proof (check_alerts_loop_frame now urlID price alerts
                (log_alert_evaluation db urlID price) []) as H.
  destruct (check_alerts_loop failing now _ urlID price alerts []) as [db' triggered].
  exact H.
Qed.

Lemma price_history_MarkPriceCheckFailed now db id :
  price_history (fst (MarkPriceCheckFailed failing now db id)) = price_history db.
Proof. unfold MarkPriceCheckFailed. destruct (failing _); reflexivity. Qed.

Lemma price_history_MarkPriceCheckSuccess now db id :
  price_history (fst (MarkPriceCheckSuccess failing now db id)) = price_history db.
Proof. unfold MarkPriceCheckSuccess. destruct (failing _); reflexivity. Qed.

Lemma price_history_UpdateURLPrice now db id pd :
  price_history (fst (UpdateURLPrice failing now db id pd)) = price_history db.
Proof. unfold UpdateURLPrice. destruct (failing _); reflexivity. Qed.

Lemma price_history_SavePreference now db id method confidence :
  price_history (fst (SavePreference failing now db id method confidence)) = price_history db.
Proof. unfold SavePreference. destruct (failing _); reflexivity. Qed.

(** What [AddPriceHistory] appends: nothing when the statement fails, else
    one row for the target, stamped with the time of the call. *)
Lemma price_history_AddPriceHistory now db id pd :
  exists rows,
    price_history (fst (AddPriceHistory failing now db id pd)) = price_history db ++ rows
    /\ (length rows <= 1)%nat
    /\ Forall (fun r => ph_URLID r = id /\ ph_CheckedAt r = now) rows.
Proof.
  unfold AddPriceHistory. destruct (failing _); cbn [fst price_history set_price_history].
  - exists []. rewrite app_nil_r. repeat split; [cbn; lia|constructor].
  - eexists [_]. repeat split; [cbn; lia|]. constructor; [split; reflexivity|constructor].
Qed.

Lemma no_rows (h : list PriceHistory) (id now : Z) :
  exists rows,
    h = h ++ rows /\ (length rows <= 1)%nat
    /\ Forall (fun r => ph_URLID r = id /\ ph_CheckedAt r = now) rows.
Proof. exists []. rewrite app_nil_r. repeat split; [cbn; lia|constructor]. Qed.

End RetryState.

(** X4. After a failed check recorded at time [t0], the on-demand check of
    the same target is refused with 429 and leaves the database untouched
    exactly up to and including ten minutes after [t0], whatever the
    target's retry count and whether or not a scraper is configured. *)
Theorem failed_check_blocks_on_demand_check_for_ten_minutes
        (failing : Repository.DbOp -> bool) (t0 t : Z)
        (scraper : option (string -> Z -> result Models.PriceData))
        (db : Repository.DB) (id : Z) (u : Models.TrackedURL) :
  failing Repository.OpMarkPriceCheckFailed = false ->
  failing Repository.OpGetURLByID = false ->
  Repository.tracked_urls db !! id = Some u ->
  Models.IsActive u = true ->
  let db1 := fst (Repository.MarkPriceCheckFailed failing t0 db id) in
  t <= t0 + 10 * GoTime.Minute <->
  Handlers.CheckPriceNow failing t scraper db1 (Some id)
  = (db1, Handlers.writeError Handlers.StatusTooManyRequests "Price check failed recently").
Proof.
  intros Hf Hg Hu Ha db1. subst db1.
  unfold Repository.MarkPriceCheckFailed. rewrite Hf. cbn [fst].
  unfold Handlers.CheckPriceNow, Repository.GetURLByID. rewrite Hg.
  cbn [Repository.tracked_urls Repository.set_tracked_urls].
  rewrite lookup_alter_eq, Hu. cbn [fmap option_fmap option_map Models.IsActive].
  rewrite Ha. unfold Models.CanRetry. cbn [Models.NextRetryAt].
  destruct (Z.ltb_spec (t0 + 10 * GoTime.Minute) t) as [Hlt|Hge]; cbn [negb].
  - split; [lia|]. intros H. exfalso.
    destruct scraper as [scrape|]; [|discriminate H].
    destruct (scrape _ id) as [pd|e].
    + destruct (Repository.MarkPriceCheckSuccess failing t _ id) as [d1 r1].
      destruct (Repository.UpdateURLPrice failing t d1 id pd) as [d2 [[]|e2]];
        [|discriminate H].
      destruct (Repository.AddPriceHistory failing t d2 id pd) as [d3 r3].
      discriminate H.
    + destruct (Repository.MarkPriceCheckFailed failing t _ id) as [d1 r1].
      discriminate H.
  - split; [reflexivity|lia].
Qed.

Lemma failed_check_blocks_on_demand_check_for_ten_minutes_witness :
  let db1 := fst (Repository.MarkPriceCheckFailed Samples.healthy 0
                    (Samples.dbWith Samples.widget) 1) in
  5 * GoTime.Minute <= 0 + 10 * GoTime.Minute <->
  Handlers.CheckPriceNow Samples.healthy (5 * GoTime.Minute)
    (Some Samples.scrapesOneDollar) db1 (Some 1)
  = (db1, Handlers.writeError Handlers.StatusTooManyRequests "Price check failed recently").
Proof.
  apply (failed_check_blocks_on_demand_check_for_ten_minutes Samples.healthy 0
           (5 * GoTime.Minute) (Some Samples.scrapesOneDollar)
           (Samples.dbWith Samples.widget) 1 Samples.widget).
  - reflexivity.
  - reflexivity.
  - vm_compute. reflexivity.
  - reflexivity.
Defined.

(** X5. The retry count of a target counts its recorded failures: after the
    failures recorded at the times [times] it has grown by their number,
    the target's address, name, price and activity are as before, and once
    the count has reached five the scheduled retry is off at every later
    reading of the clock. *)
Theorem retry_count_counts_recorded_failures
        (failing : Repository.DbOp -> bool) (times : list Z)
        (db : Repository.DB) (id : Z) (u : Models.TrackedURL) :
  failing Repository.OpMarkPriceCheckFailed = false ->
  Repository.tracked_urls db !! id = Some u ->
  exists u',
    Repository.tracked_urls
      (fold_left (fun d t => fst (Repository.MarkPriceCheckFailed failing t d id)) times db)
      !! id = Some u'
    /\ Models.RetryCount u' = Models.RetryCount u + Z.of_nat (length times)
    /\ Models.URL u' = Models.URL u /\ Models.Name u' = Models.Name u
    /\ Models.CurrentPrice u' = Models.CurrentPrice u
    /\ Models.IsActive u' = Models.IsActive u
    /\ (5 <= Models.RetryCount u' -> forall now, Models.ShouldRetry now u' = false).
Proof.
  intros Hf. revert db u.
  induction times as [|t rest IH]; intros db u Hu.
  - exists u. cbn [fold_left length]. repeat split; try assumption; try lia.
    intros H5 now. unfold Models.ShouldRetry.
    destruct (Models.LastFailedAt u); [|reflexivity].
    destruct (Z.ltb_spec (Models.RetryCount u) 5); [lia|]. apply andb_false_r.
  - cbn [fold_left].
    destruct (IH (fst (Repository.MarkPriceCheckFailed failing t db id))
                 {| Models.ID := Models.ID u; Models.URL := Models.URL u;
                    Models.Name := Models.Name u;
                    Models.CurrentPrice := Models.CurrentPrice u;
                    Models.OriginalPrice := Models.OriginalPrice u;
                    Models.Currency := Models.Currency u;
                    Models.LastChecked := Models.LastChecked u;
                    Models.LastFailedAt := Some t;
                    Models.RetryCount := Models.RetryCount u + 1;
                    Models.NextRetryAt := Some (t + 10 * GoTime.Minute);
                    Models.CreatedAt := Models.CreatedAt u;
                    Models.UpdatedAt := t;
                    Models.IsActive := Models.IsActive u |})
      as (u' & H1 & H2 & H3 & H4 & H5 & H6 & H7).
    { unfold Repository.MarkPriceCheckFailed. rewrite Hf. cbn [fst].
      cbn [Repository.tracked_urls Repository.set_tracked_urls].
      rewrite lookup_alter_eq, Hu. reflexivity. }
    exists u'. cbn in H2, H3, H4, H5, H6.
    repeat split; try assumption.
    rewrite H2. cbn [length]. lia.
Qed.

Lemma retry_count_counts_recorded_failures_witness :
  exists u',
    Repository.tracked_urls
      (fold_left (fun d t => fst (Repository.MarkPriceCheckFailed Samples.healthy t d 1))
                 [0; 1; 2; 3; 4] (Samples.dbWith Samples.widget))
      !! 1 = Some u'
    /\ Models.RetryCount u'
       = Models.RetryCount Samples.widget + Z.of_nat (length [0; 1; 2; 3; 4])
    /\ Models.URL u' = Models.URL Samples.widget
    /\ Models.Name u' = Models.Name Samples.widget
    /\ Models.CurrentPrice u' = Models.CurrentPrice Samples.widget
    /\ Models.IsActive u' = Models.IsActive Samples.widget
    /\ (5 <= Models.RetryCount u' -> forall now, Models.ShouldRetry now u' = false).
Proof.
  apply (retry_count_counts_recorded_failures Samples.healthy [0; 1; 2; 3; 4]
           (Samples.dbWith Samples.widget) 1 Samples.widget).
  - reflexivity.
  - vm_compute. reflexivity.
Defined.

(** X6. An on-demand check whose extraction succeeds, on a database whose
    statements all succeed, answers 200 with the extracted data as its
    primary price and leaves the target with a price, a retry count of zero and neither a failure
    time nor a retry time: the next on-demand check is allowed at once and
    the scheduled retry is off, whatever the history of the target and
    whether or not the new price is plausible. *)
Theorem successful_check_clears_retry_state
        (failing : Repository.DbOp -> bool) (now : Z)
        (scrape : string -> Z -> result Models.PriceData)
        (db : Repository.DB) (id : Z) (url : Models.TrackedURL) (pd : Models.PriceData) :
  (forall op, failing op = false) ->
  Repository.GetURLByID failing db id = Ok url ->
  Models.CanRetry now url = true ->
  scrape (Models.URL url) id = Ok pd ->
  snd (Handlers.CheckPriceNow failing now (Some scrape) db (Some id))
  = Handlers.writeJSON Handlers.StatusOK pd
  /\ exists u',
      Repository.tracked_urls
        (fst (Handlers.CheckPriceNow failing now (Some scrape) db (Some id))) !! id
      = Some u'
      /\ Models.HasPrice u' = true
      /\ Models.LastChecked u' = Some now
      /\ Models.RetryCount u' = 0
      /\ Models.LastFailedAt u' = None
      /\ Models.NextRetryAt u' = None
      /\ forall t, Models.CanRetry t u' = true /\ Models.ShouldRetry t u' = false.
Proof.
  intros Hf Hu Hc Hs.
  assert (Hl : Repository.tracked_urls db !! id = Some url).
  { unfold Repository.GetURLByID in Hu. rewrite Hf in Hu.
    destruct (Repository.tracked_urls db !! id) as [u0|]; [|discriminate Hu].
    destruct (Models.IsActive u0); [|discriminate Hu]. congruence. }
  unfold Handlers.CheckPriceNow. rewrite Hu, Hc, Hs. cbn [negb].
  unfold Repository.MarkPriceCheckSuccess, Repository.UpdateURLPrice,
    Repository.AddPriceHistory.
  rewrite !Hf. cbn [fst snd].
  split.
  - reflexivity.
  - eexists.
    split.
    + destruct (Models.IsPriceChangeRealistic url _).
      * rewrite (proj1 (CheckAlerts_frame failing now _ id (Models.pd_CurrentPrice pd))).
        cbn [Repository.tracked_urls Repository.set_tracked_urls Repository.set_price_history].
        rewrite !lookup_alter_eq, Hl. reflexivity.
      * cbn [fst Repository.tracked_urls Repository.set_tracked_urls
               Repository.set_price_history].
        rewrite !lookup_alter_eq, Hl. reflexivity.
    + cbn. repeat split.
Qed.

Lemma successful_check_clears_retry_state_witness :
  snd (Handlers.CheckPriceNow Samples.healthy (20 * GoTime.Minute)
         (Some Samples.scrapesOneDollar) (Samples.dbWith Samples.widgetFailedOnce) (Some 1))
  = Handlers.writeJSON Handlers.StatusOK Samples.oneDollar
  /\ exists u',
      Repository.tracked_urls
        (fst (Handlers.CheckPriceNow Samples.healthy (20 * GoTime.Minute)
                (Some Samples.scrapesOneDollar) (Samples.dbWith Samples.widgetFailedOnce)
                (Some 1))) !! 1
      = Some u'
      /\ Models.HasPrice u' = true
      /\ Models.LastChecked u' = Some (20 * GoTime.Minute)
      /\ Models.RetryCount u' = 0
      /\ Models.LastFailedAt u' = None
      /\ Models.NextRetryAt u' = None
      /\ forall t, Models.CanRetry t u' = true /\ Models.ShouldRetry t u' = false.
Proof.
  apply (successful_check_clears_retry_state Samples.healthy (20 * GoTime.Minute)
           Samples.scrapesOneDollar (Samples.dbWith Samples.widgetFailedOnce) 1
           Samples.widgetFailedOnce Samples.oneDollar).
  - intros op. reflexivity.
  - vm_compute. reflexivity.
  - reflexivity.
  - reflexivity.
Defined.

(** X7. The price history only grows, and by at most one row per check:
    the on-demand check and the scheduled check leave the rows they find
    and append at most one, for the checked target and stamped with the time
    of the check; the feedback endpoint never touches the history. *)
Theorem price_history_is_append_only
        (failing : Repository.DbOp -> bool) (now : Z)
        (scraper : option (string -> Z -> result Models.PriceData))
        (scrape : string -> result Models.PriceData)
        (db : Repository.DB) (id : Z) (url : Models.TrackedURL)
        (req : option Models.PriceFeedbackRequest) :
  (exists rows,
      Repository.price_history (fst (Handlers.CheckPriceNow failing now scraper db (Some id)))
      = Repository.price_history db ++ rows
      /\ (length rows <= 1)%nat
      /\ Forall (fun r => Models.ph_URLID r = id /\ Models.ph_CheckedAt r = now) rows)
  /\ (exists rows,
         Repository.price_history (Scheduler.checkURLPrice failing now scrape db url)
         = Repository.price_history db ++ rows
         /\ (length rows <= 1)%nat
         /\ Forall (fun r => Models.ph_URLID r = Models.ID url
                             /\ Models.ph_CheckedAt r = now) rows)
  /\ Repository.price_history (fst (Handlers.SubmitPriceFeedback failing now db req))
     = Repository.price_history db.
Proof.
  split; [|split].
  - unfold Handlers.CheckPriceNow.
    destruct (Repository.GetURLByID failing db id) as [u|e].
    2:{ destruct (String.eqb e _); apply no_rows. }
    destruct (negb (Models.CanRetry now u)); [apply no_rows|].
    destruct scraper as [sc|]; [|apply no_rows].
    destruct (sc (Models.URL u) id) as [pd|e].
    + pose proof (price_history_MarkPriceCheckSuccess failing now db id) as H1.
      destruct (Repository.MarkPriceCheckSuccess failing now db id) as [d1 r1].
      cbn [fst] in H1.
      pose proof (price_history_UpdateURLPrice failing now d1 id pd) as H2.
      destruct (Repository.UpdateURLPrice failing now d1 id pd) as [d2 [[]|e2]];
        cbn [fst] in H2.
      * pose proof (price_history_AddPriceHistory failing now d2 id pd) as H3.
        destruct (Repository.AddPriceHistory failing now d2 id pd) as [d3 r3].
        cbn [fst] in H3 |- *.
        destruct (Models.IsPriceChangeRealistic u _).
        -- rewrite (proj2 (CheckAlerts_frame failing now d3 id (Models.pd_CurrentPrice pd))).
           rewrite <- H1, <- H2. exact H3.
        -- rewrite <- H1, <- H2. exact H3.
      * cbn [fst]. rewrite H2, H1. apply no_rows.
    + pose proof (price_history_MarkPriceCheckFailed failing now db id) as H1.
      destruct (Repository.MarkPriceCheckFailed failing now db id) as [d1 r1].
      cbn [fst] in H1 |- *. rewrite H1. apply no_rows.
  - unfold Scheduler.checkURLPrice.
    destruct (scrape (Models.URL url)) as [pd|e]; [|apply no_rows].
    destruct (Models.IsPriceChangeRealistic url _); [|apply no_rows].
    pose proof (price_history_UpdateURLPrice failing now db (Models.ID url) pd) as H2.
    destruct (Repository.UpdateURLPrice failing now db (Models.ID url) pd)
      as [d2 [[]|e2]]; cbn [fst] in H2.
    + pose proof (price_history_AddPriceHistory failing now d2 (Models.ID url) pd) as H3.
      destruct (Repository.AddPriceHistory failing now d2 (Models.ID url) pd) as [d3 r3].
      cbn [fst] in H3.
      pose proof (proj2 (CheckAlerts_frame failing now d3 (Models.ID url)
                           (Models.pd_CurrentPrice pd))) as H4.
      destruct (Repository.CheckAlerts failing now d3 (Models.ID url) _) as [d4 r4].
      cbn [fst] in H4. rewrite H4, <- H2. exact H3.
    + rewrite H2. apply no_rows.
  - unfold Handlers.SubmitPriceFeedback.
    destruct req as [r|]; [|reflexivity].
    destruct (String.eqb _ _ || Z.eqb _ _)%bool; [reflexivity|].
    match goal with
    | |- context [match ?p with Some _ => _ | None => _ end] =>
        destruct p as [pref|] eqn:Ep
    end; [|reflexivity].
    match goal with
    | |- context [let '(_, _) := ?c in _] => destruct c as [method rate]
    end.
    pose proof (price_history_SavePreference failing now db (Models.sp_URLID pref)
                  method rate) as H.
    destruct (Repository.SavePreference failing now db _ method rate) as [d1 [[]|e]];
      cbn [fst] in H |- *; exact H.
Qed.

(** ** handlers: the feedback endpoint *)

(** X8. The feedback endpoint ends in a nil dereference exactly when the
    request names a feedback id and a target, the preference lookup succeeds
    and the target has no stored preference; the database is then left as it
    was. *)
Theorem SubmitPriceFeedback_panics_iff_preference_row_missing
        (failing : Repository.DbOp -> bool) (now : Z) (db : Repository.DB)
        (req : Models.PriceFeedbackRequest) :
  ((exists msg,
       snd (Handlers.SubmitPriceFeedback failing now db (Some req)) = Handlers.panic msg)
   <-> (Models.fr_FeedbackID req <> ""%string /\ Models.fr_URLID req <> 0
        /\ failing Repository.OpGetPreference = false
        /\ Repository.scraping_preferences db !! Models.fr_URLID req = None))
  /\ ((exists msg,
          snd (Handlers.SubmitPriceFeedback failing now db (Some req)) = Handlers.panic msg)
      -> fst (Handlers.SubmitPriceFeedback failing now db (Some req)) = db).
Proof.
  unfold Handlers.SubmitPriceFeedback, Repository.GetPreference.
  destruct (String.eqb_spec (Models.fr_FeedbackID req) "") as [E1|E1]; cbn [orb].
  { split; [split|]; [intros [msg H]; discriminate H | tauto | reflexivity]. }
  destruct (Z.eqb_spec (Models.fr_URLID req) 0) as [E2|E2].
  { split; [split|]; [intros [msg H]; discriminate H | tauto | reflexivity]. }
  destruct (failing Repository.OpGetPreference).
  { match goal with
    | |- context [let '(_, _) := ?c in _] => destruct c as [method rate]
    end.
    destruct (Repository.SavePreference failing now db _ method rate) as [d1 [[]|e]];
      (split; [split|]; [intros [msg H]; discriminate H
                        | intros (_ & _ & H & _); discriminate H
                        | intros [msg H]; discriminate H]). }
  destruct (Repository.scraping_preferences db !! Models.fr_URLID req) as [pref|].
  - match goal with
    | |- context [let '(_, _) := ?c in _] => destruct c as [method rate]
    end.
    destruct (Repository.SavePreference failing now db _ method rate) as [d1 [[]|e]];
      (split; [split|]; [intros [msg H]; discriminate H
                        | intros (_ & _ & _ & H); discriminate H
                        | intros [msg H]; discriminate H]).
  - split; [split|]; [tauto | intros _; eexists; reflexivity | reflexivity].
Qed.

Section SwitchedMethod.

Import GoStrings Handlers Schema.
Local Open Scope string_scope.

Lemma method_check_cases (method : string) :
  method_check method = true ->
  method = "network" \/ method = "ocr" \/ method = "hybrid".
Proof.
  unfold method_check, scrapingMethods. cbn [existsb].
  rewrite !orb_true_iff, !String.eqb_eq.
  intros [H|[H|[H|H]]]; auto. discriminate H.
Qed.

End SwitchedMethod.

(** X9. The method the feedback endpoint switches to on a confirmed
    alternative always differs from the current one, and it is one the
    [CHECK] of [scraping_preferences] admits exactly when the current method
    mentions [yolo] or [ocr]: from a stored method, which the [CHECK] makes
    one of network, ocr and hybrid, the switch can be stored only from
    [ocr], while from network and from hybrid it produces [yolo_ocr], which
    the [CHECK] rejects. *)
Theorem alternativeMethod_against_method_check (method : string) :
  Handlers.alternativeMethod method <> method
  /\ Schema.method_check (Handlers.alternativeMethod method)
     = (GoStrings.Contains method "yolo" || GoStrings.Contains method "ocr")%bool
  /\ (Schema.method_check method = true ->
      (Schema.method_check (Handlers.alternativeMethod method) = true
       <-> method = "ocr"%string)).
Proof.
  unfold Handlers.alternativeMethod.
  split; [|split].
  - destruct (GoStrings.Contains method "yolo" || GoStrings.Contains method "ocr")%bool
      eqn:E; intros H; rewrite <- H in E; vm_compute in E; discriminate E.
  - destruct (GoStrings.Contains method "yolo" || GoStrings.Contains method "ocr")%bool;
      reflexivity.
  - intros Hc. destruct (method_check_cases method Hc) as [->|[->| ->]];
      vm_compute; split; intros H; try reflexivity; discriminate H.
Qed.

(** ** repository: the evaluation of the alerts *)

Section AlertEvaluation.

Import Float64 Models Repository Alerts.
Local Open Scope string_scope.

Variable failing : DbOp -> bool.

Lemma TriggerAlert_marks now db alertID :
  failing OpTriggerAlert = false ->
  TriggerAlert failing now db alertID
  = (set_price_alerts db
       (List.map (fun a => if Z.eqb (pa_ID a) alertID then fired now a else a)
                 (price_alerts db)), Ok tt).
Proof. intros Hf. unfold TriggerAlert. rewrite Hf. reflexivity. Qed.



(** The effect of the loop on the table: every row is left as it was or is
    marked as triggered, and the rows sharing the id of a due alert of the
    list are marked. *)
Lemma check_alerts_loop_marks now urlID price alerts :
  failing OpTriggerAlert = false ->
  forall db triggered,
    exists f,
      price_alerts (fst (check_alerts_loop failing now db urlID price alerts triggered))
      = List.map f (price_alerts db)
      /\ (forall b, f b = b \/ f b = fired now b)
      /\ (forall a, In a alerts -> shouldTrigger failing db urlID price a = true ->
                    forall b, pa_ID b = pa_ID a -> f b = fired now b).
Proof.
  intros Hf. induction alerts as [|a rest IH]; intros db triggered.
  - exists (fun b => b). cbn [check_alerts_loop fst]. rewrite List.map_id.
    repeat split; [left; reflexivity|intros a []].
  - cbn [check_alerts_loop].
    destruct (shouldTrigger failing db urlID price a) eqn:Es.
    + rewrite (TriggerAlert_marks now db (pa_ID a) Hf).
      match goal with
      | |- context [check_alerts_loop _ _ ?d _ _ rest ?acc] =>
          destruct (IH d acc) as (g & Hg & Hmark & Hhit)
      end.
      cbn [price_alerts set_price_alerts] in Hg. rewrite List.map_map in Hg.
      eexists. split; [exact Hg|]. split.
      * intros b. cbv beta. destruct (Z.eqb (pa_ID b) (pa_ID a)).
        -- right. destruct (Hmark (fired now b)) as [E|E]; rewrite E; reflexivity.
        -- apply Hmark.
      * intros a' [<-|Hin] Hs b Hb; cbv beta.
        -- rewrite Hb, Z.eqb_refl.
           destruct (Hmark (fired now b)) as [E|E]; rewrite E; reflexivity.
        -- assert (Hs' : shouldTrigger failing
                           (set_price_alerts db
                              (List.map
                                 (fun a0 => if Z.eqb (pa_ID a0) (pa_ID a)
                                            then fired now a0 else a0)
                                 (price_alerts db))) urlID price a' = true)
             by (rewrite <- Hs; apply shouldTrigger_tracked_urls; reflexivity).
           destruct (Z.eqb (pa_ID b) (pa_ID a)).
           ++ destruct (Hmark (fired now b)) as [E|E]; rewrite E; reflexivity.
           ++ exact (Hhit a' Hin Hs' b Hb).
    + destruct (IH db triggered) as (g & Hg & Hmark & Hhit).
      exists g. split; [exact Hg|]. split; [exact Hmark|].
      intros a' [<-|Hin] Hs b Hb; [congruence|exact (Hhit a' Hin Hs b Hb)].
Qed.

Lemma check_alerts_loop_idle now urlID price alerts :
  forall db triggered,
    Forall (fun a => shouldTrigger failing db urlID price a = false) alerts ->
    check_alerts_loop failing now db urlID price alerts triggered = (db, triggered).
Proof.
  induction alerts as [|a rest IH]; intros db triggered H; [reflexivity|].
  inversion H as [|? ? Ha Hrest]; subst.
  cbn [check_alerts_loop]. rewrite Ha. apply IH. exact Hrest.
Qed.

Lemma CheckAlerts_evaluates now db urlID price :
  failing OpGetActiveAlertsForURL = false ->
  CheckAlerts failing now db urlID price
  = (fst (check_alerts_loop failing now (log_alert_evaluation db urlID price) urlID price
            (List.filter (pending urlID) (price_alerts db)) []),
     Ok (snd (check_alerts_loop failing now (log_alert_evaluation db urlID price) urlID
                price (List.filter (pending urlID) (price_alerts db)) []))).
Proof.
  intros Hg. unfold CheckAlerts, GetActiveAlertsForURL. rewrite Hg.
  cbn [price_alerts log_alert_evaluation].
  change (fun a : PriceAlert =>
            (Z.eqb (pa_URLID a) urlID && pa_IsActive a
             && match pa_TriggeredAt a with None => true | Some _ => false end)%bool)
    with (pending urlID).
  destruct (check_alerts_loop failing now _ urlID price _ []) as [db' out].
  reflexivity.
Qed.

End AlertEvaluation.



(** X11. An alert fires at most once: when the statements succeed, a second
    evaluation of a target's alerts at the same price, at whatever later
    time, returns no alert. *)
Theorem CheckAlerts_triggers_each_alert_once
        (failing : Repository.DbOp -> bool) (now later : Z) (db : Repository.DB)
        (urlID : Z) (price : Q) :
  failing Repository.OpGetActiveAlertsForURL = false ->
  failing Repository.OpTriggerAlert = false ->
  snd (Repository.CheckAlerts failing later
         (fst (Repository.CheckAlerts failing now db urlID price)) urlID price)
  = Ok [].
Proof.
  intros Hg Ht.
  rewrite (CheckAlerts_evaluates failing now db urlID price Hg). cbn [fst].
  set (db0 := Repository.log_alert_evaluation db urlID price).
  set (alerts := List.filter (Alerts.pending urlID) (Repository.price_alerts db)).
  destruct (check_alerts_loop_marks failing now urlID price alerts Ht db0 [])
    as (f & Hf & Hmark & Hhit).
  pose proof (proj1 (check_alerts_loop_frame failing now urlID price alerts db0 []))
    as Hframe.
  destruct (Repository.check_alerts_loop failing now db0 urlID price alerts [])
    as [db1 out].
  cbn [fst] in *.
  rewrite (CheckAlerts_evaluates failing later db1 urlID price Hg). cbn [snd].
  rewrite check_alerts_loop_idle; [reflexivity|].
  apply List.Forall_forall. intros x Hx.
  apply List.filter_In in Hx as [Hin Hpend].
  rewrite Hf in Hin. apply List.in_map_iff in Hin as (b & <- & Hb).
  rewrite (shouldTrigger_tracked_urls failing db0 _ urlID price (f b))
    by (cbn [Repository.tracked_urls Repository.log_alert_evaluation]; exact Hframe).
  destruct (Repository.shouldTrigger failing db0 urlID price (f b)) eqn:Es;
    [exfalso|reflexivity].
  assert (Hnot : forall c, Alerts.pending urlID (Alerts.fired now c) = false).
  { intros c. unfold Alerts.pending, Alerts.fired. cbn. apply andb_false_r. }
  destruct (Hmark b) as [E|E].
  - rewrite E in Es, Hpend.
    assert (Hin : In b alerts).
    { subst alerts. apply List.filter_In. split; [exact Hb|exact Hpend]. }
    pose proof (Hhit b Hin Es b eq_refl) as Hfired.
    rewrite E in Hfired. rewrite Hfired, Hnot in Hpend. discriminate Hpend.
  - rewrite E, Hnot in Hpend. discriminate Hpend.
Qed.

Lemma CheckAlerts_triggers_each_alert_once_witness :
  snd (Repository.CheckAlerts Samples.healthy 9
         (fst (Repository.CheckAlerts Samples.healthy 5 Cases.dbWithAlert 1 80)) 1 80)
  = Ok [].
Proof.
  apply (CheckAlerts_triggers_each_alert_once Samples.healthy 5 9 Cases.dbWithAlert 1 80).
  - reflexivity.
  - reflexivity.
Defined.

(** ** scraper: the arbitration and the comparison of two prices *)

Section Comparison.

Import Float64 Hybrid.

Lemma Abs_sym (a b : Q) : (Abs (a - b) == Abs (b - a))%Q.
Proof.
  rewrite !Abs_Qabs.
  assert (E : (b - a == - (a - b))%Q) by ring.
  rewrite E. symmetry. apply Qabs_opp.
Qed.

Lemma Abs_nonneg (a : Q) : (0 <= Abs a)%Q.
Proof. rewrite Abs_Qabs. apply Qabs_nonneg. Qed.

Lemma percentageDiff_sym (p1 p2 : Q) :
  (percentageDiff p1 p2 == percentageDiff p2 p1)%Q.
Proof.
  unfold percentageDiff. rewrite (Abs_sym p1 p2).
  assert (E : (p2 + p1 == p1 + p2)%Q) by ring.
  rewrite E. reflexivity.
Qed.

Lemma percentageDiff_nonneg (p1 p2 : Q) :
  (0 < p1)%Q -> (0 < p2)%Q -> (0 <= percentageDiff p1 p2)%Q.
Proof.
  intros H1 H2. unfold percentageDiff.
  apply Qmult_le_0_compat; [|discriminate].
  apply Qle_shift_div_l; [qlra|].
  rewrite Qmult_0_l. apply Abs_nonneg.
Qed.

Lemma le_compat (a b c d : Q) : (a == c)%Q -> (b == d)%Q -> le a b = le c d.
Proof. intros E1 E2. unfold le. rewrite E1, E2. reflexivity. Qed.

Lemma gt_compat (a b c d : Q) : (a == c)%Q -> (b == d)%Q -> gt a b = gt c d.
Proof. intros E1 E2. unfold gt. rewrite E1, E2. reflexivity. Qed.

Lemma lt_compat (a b c d : Q) : (a == c)%Q -> (b == d)%Q -> lt a b = lt c d.
Proof. intros E1 E2. unfold lt. rewrite E1, E2. reflexivity. Qed.

(** The two functions in terms of [percentageDiff]. *)
Lemma pricesMatch_positive (p1 p2 : Q) :
  (0 < p1)%Q -> (0 < p2)%Q ->
  pricesMatch p1 p2
  = le (percentageDiff p1 p2) (if gt ((p1 + p2) / 2) 100 then 3.0 else 5.0)%Q.
Proof.
  intros H1 H2. unfold pricesMatch.
  assert (le p1 0 = false) as -> by (apply le_false; exact H1).
  assert (le p2 0 = false) as -> by (apply le_false; exact H2).
  reflexivity.
Qed.

Lemma calculateMatchConfidence_positive (p1 p2 : Q) :
  (0 < p1)%Q -> (0 < p2)%Q ->
  calculateMatchConfidence p1 p2
  = (let confidence := (1.0 - percentageDiff p1 p2 / 20.0)%Q in
     let confidence := if lt confidence 0.0 then 0.0%Q else confidence in
     if gt confidence 1.0 then 1.0%Q else confidence).
Proof.
  intros H1 H2. unfold calculateMatchConfidence.
  assert (le p1 0 = false) as -> by (apply le_false; exact H1).
  assert (le p2 0 = false) as -> by (apply le_false; exact H2).
  reflexivity.
Qed.

End Comparison.

(** X12. The arbitration fails exactly when both methods failed. When it
    succeeds, the returned price is the price of a method that succeeded,
    with that method's confidence; it is also the final price recorded in
    the match result, and the data carry no discount: the original price is
    the current one and the sale flag is off. *)
Theorem determineFinalResult_fails_iff_both_methods_failed
        (m : Hybrid.PriceMatchResult) (url : string) :
  ((exists e, snd (Hybrid.determineFinalResult m url) = Err e)
   <-> Hybrid.NetworkSuccess m = false /\ Hybrid.OCRSuccess m = false)
  /\ forall pd,
      snd (Hybrid.determineFinalResult m url) = Ok pd ->
      Hybrid.FinalPrice (fst (Hybrid.determineFinalResult m url)) = Models.pd_CurrentPrice pd
      /\ Models.pd_OriginalPrice pd = Models.pd_CurrentPrice pd
      /\ Models.pd_IsOnSale pd = false
      /\ ((Hybrid.NetworkSuccess m = true
           /\ Models.pd_CurrentPrice pd = Hybrid.NetworkPrice m
           /\ Models.pd_Confidence pd = Hybrid.NetworkConfidence m)
          \/ (Hybrid.OCRSuccess m = true
              /\ Models.pd_CurrentPrice pd = Hybrid.OCRPrice m
              /\ Models.pd_Confidence pd = Hybrid.OCRConfidence m)).
Proof.
  unfold Hybrid.determineFinalResult, Hybrid.intelligentSelection.
  destruct (Hybrid.isAmazonDomain url), (Hybrid.NetworkSuccess m), (Hybrid.OCRSuccess m),
    (Hybrid.PricesMatch m); cbn [andb negb orb];
    repeat match goal with
           | |- context [if ?b then _ else _] => destruct b
           end;
    cbn [fst snd]; (split; [split|]);
    try (intros [e H]; discriminate H);
    try (intros [H1 H2]; discriminate);
    try (intros _; eexists; reflexivity);
    try (split; reflexivity);
    try (intros pd H; discriminate H);
    try (intros pd H; injection H as <-; cbn;
         repeat split; (left; repeat split; reflexivity) || (right; repeat split; reflexivity)).
Qed.

(** X13. The comparison of two prices does not depend on their order, the
    match confidence lies between 0 and 1, and two prices that match have a
    match confidence of at least 0.75. *)
Theorem price_comparison_is_symmetric (price1 price2 : Q) :
  Hybrid.pricesMatch price1 price2 = Hybrid.pricesMatch price2 price1
  /\ (Hybrid.calculateMatchConfidence price1 price2
      == Hybrid.calculateMatchConfidence price2 price1)%Q
  /\ (0 <= Hybrid.calculateMatchConfidence price1 price2 <= 1)%Q
  /\ (Hybrid.pricesMatch price1 price2 = true ->
      (3 # 4 <= Hybrid.calculateMatchConfidence price1 price2)%Q).
Proof.
  destruct (Qlt_le_dec 0 price1) as [H1|H1]; [destruct (Qlt_le_dec 0 price2) as [H2|H2]|].
  - rewrite (pricesMatch_positive price1 price2 H1 H2),
      (pricesMatch_positive price2 price1 H2 H1),
      (calculateMatchConfidence_positive price1 price2 H1 H2),
      (calculateMatchConfidence_positive price2 price1 H2 H1).
    pose proof (percentageDiff_sym price1 price2) as Es.
    pose proof (percentageDiff_nonneg price1 price2 H1 H2) as Hn.
    assert (Ea : ((price1 + price2) / 2 == (price2 + price1) / 2)%Q)
      by (unfold Qdiv; ring).
    rewrite (gt_compat _ 100 _ 100 Ea (Qeq_refl _)).
    set (thr := (if Float64.gt ((price2 + price1) / 2) 100 then 3.0 else 5.0)%Q).
    assert (Ht : (thr <= 5)%Q) by (subst thr; destruct (Float64.gt _ _); lra).
    rewrite (le_compat _ thr _ thr Es (Qeq_refl _)).
    remember (Hybrid.percentageDiff price1 price2) as x eqn:Ex.
    remember (Hybrid.percentageDiff price2 price1) as y eqn:Ey.
    clear Ex Ey. cbv zeta.
    assert (E1 : (1.0 - x / 20.0 == 1.0 - y / 20.0)%Q) by (rewrite Es; reflexivity).
    rewrite (lt_compat _ 0.0 _ 0.0 E1 (Qeq_refl _)).
    destruct (Float64.lt (1.0 - y / 20.0) 0.0) eqn:El.
    + assert (Float64.gt 0.0 1.0 = false) as -> by reflexivity.
      split; [reflexivity|]. split; [reflexivity|]. split; [split; discriminate|].
      intros Hm. apply le_true in Hm. apply lt_true in El.
      rewrite <- E1 in El. exfalso. qlra.
    + rewrite (gt_compat _ 1.0 _ 1.0 E1 (Qeq_refl _)).
      apply lt_false in El.
      destruct (Float64.gt (1.0 - y / 20.0) 1.0) eqn:Eg.
      * split; [reflexivity|]. split; [reflexivity|]. split; [split; discriminate|].
        intros _. discriminate.
      * apply gt_false in Eg. rewrite <- E1 in El, Eg.
        split; [reflexivity|]. split; [exact E1|]. split; [split; qlra|].
        intros Hm. apply le_true in Hm. qlra.
  - assert (El : Float64.le price2 0 = true) by (apply le_true; exact H2).
    unfold Hybrid.pricesMatch, Hybrid.calculateMatchConfidence.
    rewrite El, orb_true_r. cbn [orb].
    split; [reflexivity|]. split; [reflexivity|]. split; [split; discriminate|].
    intros H; discriminate H.
  - assert (El : Float64.le price1 0 = true) by (apply le_true; exact H1).
    unfold Hybrid.pricesMatch, Hybrid.calculateMatchConfidence.
    rewrite El, orb_true_r. cbn [orb].
    split; [reflexivity|]. split; [reflexivity|]. split; [split; discriminate|].
    intros H; discriminate H.
Qed.

(** ** scraper: what the locale parser answers *)

Section LocaleParserAnswers.

Import GoStrings Regexp LocaleParser Patterns.
Local Open Scope string_scope.
Local Arguments Ascii.eqb : simpl never.

Lemma rev_acc_rev_acc (s : string) :
  forall a b, rev_acc (rev_acc s a) b = rev_acc a (s ++ b).
Proof.
  induction s as [|c s IH]; intros a b; [reflexivity|].
  cbn [rev_acc]. rewrite IH. cbn [rev_acc]. rewrite append_cons. reflexivity.
Qed.

Lemma rev_rev (s : string) : rev (rev s) = s.
Proof. unfold rev. rewrite rev_acc_rev_acc. cbn [rev_acc]. apply append_nil_r. Qed.

Lemma all_bytes_rev_acc (p : ascii -> bool) (s : string) :
  forall a, all_bytes p (rev_acc s a) = (all_bytes p s && all_bytes p a)%bool.
Proof.
  induction s as [|c s IH]; intros a; [reflexivity|].
  cbn [rev_acc all_bytes]. rewrite IH. cbn [all_bytes].
  destruct (p c), (all_bytes p s), (all_bytes p a); reflexivity.
Qed.

Lemma all_bytes_rev (p : ascii -> bool) (s : string) :
  all_bytes p (rev s) = all_bytes p s.
Proof. unfold rev. rewrite all_bytes_rev_acc. cbn [all_bytes]. apply andb_true_r. Qed.

Lemma all_bytes_TrimLeft (p : ascii -> bool) (s : string) :
  (forall c, is_space c = true -> p c = true) ->
  all_bytes p (TrimLeft s) = all_bytes p s.
Proof.
  intros Hp. induction s as [|c s IH]; [reflexivity|].
  cbn [TrimLeft]. destruct (is_space c) eqn:E; [|reflexivity].
  cbn [all_bytes]. rewrite (Hp c E). exact IH.
Qed.

(** Trimming removes white space only. *)
Lemma all_bytes_TrimSpace (p : ascii -> bool) (s : string) :
  (forall c, is_space c = true -> p c = true) ->
  all_bytes p (TrimSpace s) = all_bytes p s.
Proof.
  intros Hp. unfold TrimSpace.
  rewrite all_bytes_rev, (all_bytes_TrimLeft p _ Hp), all_bytes_rev.
  apply all_bytes_TrimLeft. exact Hp.
Qed.

Lemma space_not_digit (c : ascii) : is_space c = true -> negb (digit c) = true.
Proof.
  destruct c as [[] [] [] [] [] [] [] []]; vm_compute; intros H;
    reflexivity || discriminate H.
Qed.

Lemma space_not_comma (c : ascii) : is_space c = true -> not_comma c = true.
Proof.
  destruct c as [[] [] [] [] [] [] [] []]; vm_compute; intros H;
    reflexivity || discriminate H.
Qed.

Lemma find_from_suffix (r : regex) (groups : nat) :
  forall s n n' m rest,
    find_from r groups s n = Some (n', m, rest) ->
    exists pre t caps,
      s = pre ++ t /\ match_here r t = Some (rest, caps)
      /\ m = submatches groups (consumed t rest) caps.
Proof.
  induction s as [|c s IH]; intros n n' m rest H; cbn [find_from] in H.
  - destruct (match_here r "") as [[s' caps]|] eqn:E; [|discriminate].
    injection H as _ <- <-. exists "", "", caps. repeat split. exact E.
  - destruct (match_here r (String c s)) as [[s' caps]|] eqn:E.
    + injection H as _ <- <-. exists "", (String c s), caps. repeat split. exact E.
    + apply IH in H. destruct H as (pre & t & caps & -> & Hm & Hs).
      exists (String c pre), t, caps. rewrite append_cons. repeat split; assumption.
Qed.

(** The number captured by the first pattern lies within the text. *)
Lemma us_uk_capture_within (t rest : string) (caps : captures) :
  match_here us_uk t = Some (rest, caps) ->
  exists pre, t = pre ++ capture caps 2 ++ rest /\ lang us_uk_number (capture caps 2).
Proof.
  unfold match_here, us_uk. intros H. simpl seqs in H.
  change (run (Seq ?a ?b) ?s ?c ?k) with (run a s c (fun s1 c1 => run b s1 c1 k)) in H.
  apply run_sound in H. destruct H as (w1 & s1 & c1 & -> & _ & H).
  change (run (Seq ?a ?b) ?s ?c ?k) with (run a s c (fun s1 c1 => run b s1 c1 k)) in H.
  apply run_sound in H. destruct H as (w2 & s2 & c2 & -> & _ & H).
  change (run (Grp ?i ?a) ?s ?c ?k)
    with (run a s c (fun s1 c1 => k s1 ((i, consumed s s1) :: c1))) in H.
  apply run_sound in H. destruct H as (w & s3 & c3 & -> & L & H).
  injection H as <- <-. simpl. rewrite consumed_append.
  exists (w1 ++ w2). rewrite !append_assoc. split; [reflexivity|exact L].
Qed.

Lemma lang_UpTo_length (n : nat) (w : string) :
  lang (UpTo n d) w -> (String.length w <= n)%nat.
Proof.
  revert w. induction n as [|n IH]; intros w H; simpl in H.
  - inversion H; subst. cbn. lia.
  - inversion H as [| | | |r1 r2 w' H1|r1 r2 w' H1| | |]; subst.
    + inversion H1 as [| | |r1 r2 w1 w2 Ha Hb| | | | |]; subst.
      inversion Ha; subst. apply IH in Hb.
      rewrite append_one. cbn [String.length]. lia.
    + inversion H1; subst. cbn. lia.
Qed.

Lemma lang_groups_no_comma (w : string) :
  lang (Star (Seq (Lit ",") (Rep 3 d))) w -> all_bytes not_comma w = true -> w = "".
Proof.
  intros H Hn.
  inversion H as [| | | | | |r0|r0 w1 w2 H1 H2|]; subst; [reflexivity|].
  inversion H1 as [| | |r1 r2 u1 u2 Ha Hb| | | | |]; subst.
  inversion Ha; subst.
  rewrite !append_cons in Hn. cbn [all_bytes] in Hn.
  unfold not_comma at 1 in Hn. rewrite Ascii.eqb_refl in Hn. discriminate Hn.
Qed.

(** A number of the first pattern without a comma: one to three digits and
    the optional fraction. *)
Lemma lang_us_uk_number_no_comma (w : string) :
  lang us_uk_number w -> all_bytes not_comma w = true ->
  exists ds f,
    w = ds ++ f /\ all_bytes digit ds = true
    /\ (1 <= String.length ds <= 3)%nat /\ fraction f.
Proof.
  intros H Hn. unfold us_uk_number in H. simpl seqs in H.
  inversion H as [| | |r1 r2 w1 w23 H1 H23| | | | |]; subst.
  inversion H23 as [| | |r1 r2 w2 w3 H2 H3| | | | |]; subst.
  rewrite !all_bytes_append in Hn.
  apply andb_true_iff in Hn as [_ Hn]. apply andb_true_iff in Hn as [Hn2 _].
  rewrite (lang_groups_no_comma w2 H2 Hn2).
  unfold Range in H1. simpl in H1.
  inversion H1 as [| | |r1 r2 u1 u2 Ha Hb| | | | |]; subst.
  pose proof (lang_UpTo_length 2 u2 Hb) as Hl2.
  apply (lang_UpTo_digits 2) in Hb.
  apply (lang_Rep_digits 1) in Ha. destruct Ha as [Ha Hl1].
  exists (u1 ++ u2), w3. repeat split.
  - rewrite all_bytes_append, Ha, Hb. reflexivity.
  - rewrite length_append. lia.
  - rewrite length_append. lia.
  - apply lang_fraction. exact H3.
Qed.

Lemma digit_value_range (c : ascii) :
  digit c = true -> exists v, Strconv.digit_value c = Some v /\ 0 <= v <= 9.
Proof.
  intros Hc. unfold Strconv.digit_value. rewrite Hc. eexists. split; [reflexivity|].
  unfold digit in Hc. apply andb_true_iff in Hc as [H1 H2].
  apply Nat.leb_le in H1, H2. lia.
Qed.

(** The value read from a run of digits. *)
Lemma digits_run_bound (ds f : string) :
  all_bytes digit ds = true ->
  f = "" \/ (exists f', f = String "." f') ->
  forall acc n,
    exists v,
      Strconv.digits (ds ++ f) acc n = (v, (n + String.length ds)%nat, f)
      /\ acc * 10 ^ Z.of_nat (String.length ds) <= v
         < (acc + 1) * 10 ^ Z.of_nat (String.length ds).
Proof.
  intros Hds Hf. induction ds as [|c ds IH]; intros acc n.
  - exists acc. cbn [String.length]. rewrite Nat.add_0_r. split; [|cbn; lia].
    destruct Hf as [->|[f' ->]]; reflexivity.
  - cbn [all_bytes] in Hds. apply andb_true_iff in Hds as [Hc Hds].
    destruct (digit_value_range c Hc) as (v0 & Hv0 & Hr).
    rewrite append_cons. cbn [Strconv.digits]. rewrite Hv0.
    destruct (IH Hds (10 * acc + v0) (S n)) as (v & Hv & Hb).
    exists v. split.
    + rewrite Hv. f_equal. f_equal. cbn [String.length]. lia.
    + cbn [String.length]. rewrite Nat2Z.inj_succ, Z.pow_succ_r by lia.
      assert (0 < 10 ^ Z.of_nat (String.length ds)) by (apply Z.pow_pos_nonneg; lia).
      nia.
Qed.

Lemma without_no_comma (w : string) :
  all_bytes not_comma w = true -> without "," w = w.
Proof.
  induction w as [|c w IH]; [reflexivity|].
  cbn [all_bytes without]. intros H. apply andb_true_iff in H as [Hc Hw].
  unfold not_comma in Hc. apply negb_true_iff in Hc. rewrite Hc, (IH Hw). reflexivity.
Qed.

(** Such a number parses to a value below 1000. *)
Lemma short_number_parses (ds f : string) :
  all_bytes digit ds = true -> (1 <= String.length ds <= 3)%nat -> fraction f ->
  exists value,
    Strconv.ParseFloat (ds ++ f) = Some value /\ (0 <= value)%Q /\ (value < 1000)%Q.
Proof.
  intros Hds Hl Hf.
  assert (Hf' : f = "" \/ (exists f', f = String "." f')).
  { destruct Hf as [->|(c1 & c2 & -> & _)]; [left; reflexivity|right; eexists; reflexivity]. }
  destruct (digits_run_bound ds f Hds Hf' 0 0%nat) as (ip & Hip & Hb).
  assert (Hip3 : 0 <= ip < 1000).
  { assert (10 ^ Z.of_nat (String.length ds) <= 10 ^ 3)
      by (apply Z.pow_le_mono_r; lia).
    assert (0 < 10 ^ Z.of_nat (String.length ds)) by (apply Z.pow_pos_nonneg; lia).
    change (10 ^ 3) with 1000 in *. lia. }
  unfold Strconv.ParseFloat. rewrite Hip.
  destruct Hf as [->|(c1 & c2 & -> & H1 & H2)].
  - destruct (String.length ds) as [|k] eqn:E; [lia|]. cbn [Nat.add Nat.eqb].
    eexists. split; [reflexivity|].
    unfold Qle, Qlt. cbn. lia.
  - rewrite Ascii.eqb_refl.
    assert (Hfr : all_bytes digit (String c1 (String c2 "")) = true)
      by (cbn [all_bytes]; rewrite H1, H2; reflexivity).
    destruct (digits_run_bound _ "" Hfr (or_introl eq_refl) 0 0%nat) as (fp & Hfp & Hbf).
    rewrite append_nil_r in Hfp. rewrite Hfp.
    cbn [String.length Nat.add] in *.
    destruct (String.length ds) as [|k] eqn:E; [lia|]. cbn [Nat.add Nat.eqb].
    eexists. split; [reflexivity|].
    change (10 ^ Z.of_nat 2) with 100 in *.
    unfold Qle, Qlt. cbn. lia.
Qed.

Lemma try_patterns_skip (text : string) (l : locale) (rest : list locale) :
  find_from (fst (pattern l)) (snd (pattern l)) text 0 = None ->
  try_patterns text (l :: rest) = try_patterns text rest.
Proof.
  intros H. cbn [try_patterns]. destruct (pattern l) as [re groups].
  cbn [fst snd] in H. unfold FindStringSubmatch. rewrite H. reflexivity.
Qed.

(** What the first pattern answers where it matches. *)
Lemma try_patterns_us_uk_match (text : string) (n : nat) (m : list string)
      (rest : string) (ls : list locale) :
  find_from us_uk 2 text 0 = Some (n, m, rest) ->
  exists pre w value,
    text = pre ++ w ++ rest /\ lang us_uk_number w
    /\ Strconv.ParseFloat (without "," w) = Some value
    /\ exists currency,
        try_patterns text (loc_us_uk :: ls) = Ret (Ok (value, currency)).
Proof.
  intros E. pose proof E as E'.
  apply find_from_suffix in E'. destruct E' as (pre & t & caps & Ht & Hm & Hs).
  destruct (us_uk_capture_within t rest caps Hm) as (pre' & Ht' & L).
  destruct (cleaned_number_parses _ L) as [value Hv].
  exists (pre ++ pre'), (capture caps 2), value.
  split; [rewrite Ht, Ht', append_assoc; reflexivity|].
  split; [exact L|].
  unfold cleanNumberString in Hv. rewrite ReplaceAll_comma in Hv.
  split; [exact Hv|].
  exists (ToUpper (capture caps 1)).
  cbn [try_patterns]. change (pattern loc_us_uk) with (us_uk, 2%nat). cbv iota beta.
  unfold FindStringSubmatch. rewrite E. rewrite Hs.
  unfold submatches. cbn [List.map seq nth_error].
  unfold cleanNumberString. rewrite ReplaceAll_comma, Hv. reflexivity.
Qed.

Lemma digits_only_sound (p : ascii -> bool) (c : ascii) :
  digits_only p = true -> p c = true -> digit c = true.
Proof.
  unfold digits_only. intros H Hp.
  rewrite forallb_forall in H.
  assert (Hin : In c bytes).
  { unfold bytes. rewrite <- (ascii_nat_embedding c). apply List.in_map.
    apply in_seq. pose proof (nat_ascii_bounded c). lia. }
  specialize (H c Hin). rewrite Hp in H. exact H.
Qed.

Lemma demands_digit_sound (r : regex) (w : string) :
  lang r w -> demands_digit r = true ->
  all_bytes (fun c => negb (digit c)) w = false.
Proof.
  intros L. induction L; cbn [demands_digit]; intros Hd; try discriminate Hd.
  - cbn [all_bytes]. rewrite (digits_only_sound p c Hd H). reflexivity.
  - apply negb_true_iff in Hd. exact Hd.
  - rewrite all_bytes_append. apply orb_true_iff in Hd as [Hd|Hd].
    + rewrite (IHL1 Hd). reflexivity.
    + rewrite (IHL2 Hd). apply andb_false_r.
  - apply andb_true_iff in Hd as [Hd _]. exact (IHL Hd).
  - apply andb_true_iff in Hd as [_ Hd]. exact (IHL Hd).
  - exact (IHL Hd).
Qed.

(** A pattern that demands a digit matches nowhere in a text without
    one. *)
Lemma find_from_no_digit (r : regex) (groups : nat) (s : string) (n : nat) :
  demands_digit r = true ->
  all_bytes (fun c => negb (digit c)) s = true ->
  find_from r groups s n = None.
Proof.
  intros Hd Hs.
  destruct (find_from r groups s n) as [[[n' m] rest]|] eqn:E; [exfalso|reflexivity].
  apply find_from_suffix in E. destruct E as (pre & t & caps & -> & Hm & _).
  unfold match_here in Hm. apply run_sound in Hm.
  destruct Hm as (w & s' & caps' & -> & L & _).
  rewrite !all_bytes_append, (demands_digit_sound r w L Hd) in Hs.
  rewrite andb_false_r in Hs. discriminate Hs.
Qed.

Lemma try_patterns_no_digit (text : string) :
  all_bytes (fun c => negb (digit c)) text = true ->
  try_patterns text [loc_us_uk; loc_european; loc_currency_only; loc_simple]
  = Ret (Err "no valid price pattern found").
Proof.
  intros H.
  rewrite !try_patterns_skip; [reflexivity| | | |];
    apply find_from_no_digit; (exact H || (vm_compute; reflexivity)).
Qed.

End LocaleParserAnswers.

Section Formatting.

Import GoStrings Regexp LocaleParser Patterns Fmt.
Local Open Scope string_scope.
Local Arguments Ascii.eqb : simpl never.

Lemma digit_char_digit (n : Z) : 0 <= n < 10 -> digit (digit_char n) = true.
Proof.
  intros H. unfold digit, digit_char.
  rewrite nat_ascii_embedding by lia.
  apply andb_true_iff. split; apply Nat.leb_le; lia.
Qed.

Lemma digits_of_digits (fuel : nat) :
  forall n acc, all_bytes digit acc = true -> all_bytes digit (digits_of fuel n acc) = true.
Proof.
  induction fuel as [|fuel IH]; intros n acc H; cbn [digits_of]; [exact H|].
  assert (Hd : all_bytes digit (String (digit_char (n mod 10)) acc) = true).
  { cbn [all_bytes]. rewrite digit_char_digit by (apply Z.mod_pos_bound; lia). exact H. }
  destruct (Z.ltb n 10); [exact Hd|apply IH; exact Hd].
Qed.

(** The text of [%.2f]: digits, a dot and two digits, after an optional
    sign. *)
Lemma Sprintf_2f_shape (q : Q) :
  exists sign ip d1 d2,
    Sprintf_2f q = sign ++ ip ++ String "." (String d1 (String d2 ""))
    /\ (sign = "" \/ sign = "-") /\ all_bytes digit ip = true
    /\ digit d1 = true /\ digit d2 = true.
Proof.
  unfold Sprintf_2f.
  set (a := Z.abs (round_half_even (q * 100))).
  exists (if Z.ltb (round_half_even (q * 100)) 0 then "-" else ""),
    (itoa (a / 100)), (digit_char ((a / 10) mod 10)), (digit_char (a mod 10)).
  split; [|split; [|split; [|split]]].
  - destruct (Z.ltb _ 0); reflexivity.
  - destruct (Z.ltb _ 0); [right|left]; reflexivity.
  - unfold itoa. apply digits_of_digits. reflexivity.
  - apply digit_char_digit. apply Z.mod_pos_bound. lia.
  - apply digit_char_digit. apply Z.mod_pos_bound. lia.
Qed.

Lemma digit_is_not_comma (c : ascii) : digit c = true -> not_comma c = true.
Proof.
  intros H. unfold not_comma. rewrite (digit_not_comma c H). reflexivity.
Qed.

Lemma Sprintf_2f_bytes (q : Q) :
  all_bytes not_comma (Sprintf_2f q) = true
  /\ all_bytes (fun c => negb (digit c)) (Sprintf_2f q) = false.
Proof.
  destruct (Sprintf_2f_shape q) as (sign & ip & d1 & d2 & -> & Hs & Hip & H1 & H2).
  rewrite !all_bytes_append. cbn [all_bytes]. split.
  - rewrite (all_bytes_weaken digit not_comma ip digit_is_not_comma Hip).
    rewrite (digit_is_not_comma d1 H1), (digit_is_not_comma d2 H2).
    destruct Hs as [->| ->]; reflexivity.
  - rewrite H2. cbn [negb andb]. rewrite !andb_false_r. reflexivity.
Qed.

End Formatting.

Section AnswersOfTheParser.

Import GoStrings Regexp LocaleParser Patterns.
Local Open Scope string_scope.

(** A text with a digit is answered by the first pattern, with a number
    that lies within the text. *)
Lemma ParsePrice_digit (text : string) :
  all_bytes (fun c => negb (digit c)) text = false ->
  exists pre w rest value currency,
    TrimSpace text = pre ++ w ++ rest /\ lang us_uk_number w
    /\ Strconv.ParseFloat (without "," w) = Some value
    /\ ParsePrice text = Ret (Ok (value, currency)).
Proof.
  intros Hd.
  assert (Hd' : all_bytes (fun c => negb (digit c)) (TrimSpace text) = false)
    by (rewrite (all_bytes_TrimSpace _ text space_not_digit); exact Hd).
  rewrite (ParsePrice_first_pattern_answers text Hd').
  pose proof (find_from_us_uk_digit (TrimSpace text) 0 Hd') as Hf.
  destruct (find_from us_uk 2 (TrimSpace text) 0) as [[[n m] rest]|] eqn:E;
    [|congruence].
  destruct (try_patterns_us_uk_match (TrimSpace text) n m rest [] E)
    as (pre & w & value & Ht & L & Hv & currency & Hp).
  exists pre, w, rest, value, currency. repeat split; assumption.
Qed.

Lemma ParsePrice_no_digit (text : string) :
  all_bytes (fun c => negb (digit c)) text = true ->
  ParsePrice text = Ret (Err "no valid price pattern found").
Proof.
  intros Hd. unfold ParsePrice. apply try_patterns_no_digit.
  rewrite (all_bytes_TrimSpace _ text space_not_digit). exact Hd.
Qed.

(** Without a comma in the text the answer is below 1000. *)
Lemma ParsePrice_no_comma (text : string) (value : Q) (currency : string) :
  all_bytes not_comma text = true ->
  ParsePrice text = Ret (Ok (value, currency)) ->
  (0 <= value)%Q /\ (value < 1000)%Q.
Proof.
  intros Hn Hp.
  destruct (all_bytes (fun c => negb (digit c)) text) eqn:Hd.
  - rewrite (ParsePrice_no_digit text Hd) in Hp. discriminate Hp.
  - destruct (ParsePrice_digit text Hd)
      as (pre & w & rest & value' & currency' & Ht & L & Hv & Hp').
    rewrite Hp' in Hp. injection Hp as <- _.
    assert (Hw : all_bytes not_comma w = true).
    { rewrite <- (all_bytes_TrimSpace _ text space_not_comma), Ht in Hn.
      rewrite !all_bytes_append in Hn.
      apply andb_true_iff in Hn as [_ Hn]. apply andb_true_iff in Hn as [Hn _].
      exact Hn. }
    rewrite (without_no_comma w Hw) in Hv.
    destruct (lang_us_uk_number_no_comma w L Hw) as (ds & f & -> & Hds & Hl & Hf).
    destruct (short_number_parses ds f Hds Hl Hf) as (v & Hv' & H0 & H1).
    rewrite Hv' in Hv. injection Hv as <-. split; assumption.
Qed.

End AnswersOfTheParser.

(** X14. The locale parser answers a price exactly for the texts that hold
    a digit, and an error exactly for the others; it never panics. *)
Theorem ParsePrice_succeeds_iff_text_has_digit (text : string) :
  ((exists value currency, LocaleParser.ParsePrice text = Ret (Ok (value, currency)))
   <-> GoStrings.all_bytes (fun c => negb (Regexp.digit c)) text = false)
  /\ ((exists e, LocaleParser.ParsePrice text = Ret (Err e))
      <-> GoStrings.all_bytes (fun c => negb (Regexp.digit c)) text = true).
Proof.
  destruct (GoStrings.all_bytes (fun c => negb (Regexp.digit c)) text) eqn:Hd.
  - rewrite (ParsePrice_no_digit text Hd). split; split.
    + intros (v & c & H). discriminate H.
    + discriminate.
    + reflexivity.
    + intros _. eexists. reflexivity.
  - destruct (ParsePrice_digit text Hd) as (pre & w & rest & v & c & _ & _ & _ & Hp).
    rewrite Hp. split; split.
    + reflexivity.
    + intros _. exists v, c. reflexivity.
    + intros [e H]. discriminate H.
    + discriminate.
Qed.

(** X15. For a text without a comma the locale parser never answers 1000
    or more: the first pattern takes at most three leading digits of the
    first number of the text, so [1234.56] is read as 123. *)
Theorem ParsePrice_without_comma_is_below_1000 (text : string) :
  GoStrings.all_bytes Patterns.not_comma text = true ->
  forall value currency,
    LocaleParser.ParsePrice text = Ret (Ok (value, currency)) ->
    (0 <= value)%Q /\ (value < 1000)%Q.
Proof.
  intros Hn value currency Hp. exact (ParsePrice_no_comma text value currency Hn Hp).
Qed.

Lemma ParsePrice_without_comma_is_below_1000_witness :
  LocaleParser.ParsePrice "1234.56" = Ret (Ok (123%Q, ""%string))
  /\ (0 <= 123)%Q /\ (123 < 1000)%Q.
Proof.
  split; [vm_compute; reflexivity|].
  apply (ParsePrice_without_comma_is_below_1000 "1234.56" eq_refl 123%Q ""%string).
  vm_compute. reflexivity.
Defined.

Section RecordedVisionPrice.

Import Float64 Models OCR Hybrid Extraction.

Lemma reparse_below_1000 (ocrPrice : Q) :
  exists parsed, reparse ocrPrice = Ret parsed /\ (0 <= parsed)%Q /\ (parsed < 1000)%Q.
Proof.
  unfold reparse.
  destruct (Sprintf_2f_bytes ocrPrice) as [Hn Hd].
  destruct (ParsePrice_digit _ Hd) as (pre & w & rest & v & c & _ & _ & _ & Hp).
  rewrite Hp. exists v. split; [reflexivity|].
  exact (ParsePrice_no_comma _ v c Hn Hp).
Qed.

Lemma recordOCR_below_1000 (result : PriceMatchResult) (ocrDone : option OCRRun) :
  OCRSuccess result = false ->
  exists r,
    recordOCR result ocrDone = Ret r
    /\ (OCRSuccess r = true -> (0 <= OCRPrice r)%Q /\ (OCRPrice r < 1000)%Q).
Proof.
  intros Hs. unfold recordOCR.
  destruct (match ocrDone with
            | Some run => ocr_vars run
            | None => (0%Q, Some "YOLO+OCR extraction timed out"%string, 0%Q)
            end) as [[ocrPrice ocrErr] ocrConfidence].
  destruct ocrErr as [e|].
  - exists result. split; [reflexivity|]. congruence.
  - destruct (gt ocrPrice 0).
    + destruct (reparse_below_1000 ocrPrice) as (v & Hv & Hb).
      rewrite Hv. eexists. split; [reflexivity|]. intros _. exact Hb.
    + exists result. split; [reflexivity|]. congruence.
Qed.

Lemma recordNetwork_vision (result : PriceMatchResult)
      (networkDone : option result_of_network) :
  OCRSuccess (recordNetwork result networkDone) = OCRSuccess result
  /\ OCRPrice (recordNetwork result networkDone) = OCRPrice result.
Proof.
  unfold recordNetwork.
  destruct networkDone as [[[pd|]|e]|]; try (split; reflexivity).
  destruct (gt (pd_CurrentPrice pd) 0); split; reflexivity.
Qed.

Lemma recordMatch_vision (result : PriceMatchResult) :
  OCRSuccess (recordMatch result) = OCRSuccess result
  /\ OCRPrice (recordMatch result) = OCRPrice result.
Proof.
  unfold recordMatch.
  destruct (NetworkSuccess result && OCRSuccess result)%bool; split; reflexivity.
Qed.

End RecordedVisionPrice.

(** X16. Whatever the vision branch reports, the vision price recorded for
    the arbitration is below 1000: the reported price is formatted with
    [%.2f] and read back by the locale parser, which keeps at most three
    leading digits of a text without a comma. *)
Theorem recorded_vision_price_is_below_1000
        (t0 : Z) (ocr : Extraction.Branch Extraction.OCRRun)
        (network : Extraction.Branch Extraction.result_of_network) :
  exists r tl,
    Extraction.extractAndMatchPrices t0 ocr network = Ret (r, tl)
    /\ (Hybrid.OCRSuccess r = true ->
        (0 <= Hybrid.OCRPrice r)%Q /\ (Hybrid.OCRPrice r < 1000)%Q).
Proof.
  unfold Extraction.extractAndMatchPrices.
  destruct (Extraction.await t0 ocr (30 * GoTime.Second)) as [ocrDone t1].
  destruct (recordOCR_below_1000 Hybrid.emptyResult ocrDone eq_refl) as (r1 & Hr1 & Hb).
  rewrite Hr1.
  destruct (Extraction.await t1 network (20 * GoTime.Second)) as [networkDone t2].
  eexists. eexists. split; [reflexivity|].
  destruct (recordMatch_vision (Extraction.recordNetwork r1 networkDone)) as [E1 E2].
  destruct (recordNetwork_vision r1 networkDone) as [E3 E4].
  rewrite E1, E2, E3, E4. exact Hb.
Qed.

(** ** handlers: the asynchronous check *)

Section AsynchronousCheck.

Import Float64 Models Repository Handlers AsyncCheck.

Variable failing : DbOp -> bool.

Lemma alert_evaluations_TriggerAlert now db alertID :
  alert_evaluations (fst (TriggerAlert failing now db alertID)) = alert_evaluations db.
Proof. unfold TriggerAlert. destruct (failing _); reflexivity. Qed.

Lemma check_alerts_loop_evaluations now urlID price alerts :
  forall db triggered,
    alert_evaluations (fst (check_alerts_loop failing now db urlID price alerts triggered))
    = alert_evaluations db.
Proof.
  induction alerts as [|a rest IH]; intros db triggered; [reflexivity|].
  cbn [check_alerts_loop].
  destruct (shouldTrigger failing db urlID price a); [|apply IH].
  pose proof (alert_evaluations_TriggerAlert now db (pa_ID a)) as He.
  destruct (TriggerAlert failing now db (pa_ID a)) as [db' [[]|e]]; cbn [fst] in He;
    rewrite <- He; apply IH.
Qed.

(** Every call of [CheckAlerts] is one more evaluation. *)
Lemma alert_evaluations_CheckAlerts now db urlID price :
  alert_evaluations (fst (CheckAlerts failing now db urlID price))
  = alert_evaluations db ++ [(urlID, price)].
Proof.
  unfold CheckAlerts.
  destruct (GetActiveAlertsForURL failing _ urlID) as [alerts|e]; [|reflexivity].
  pose proof (check_alerts_loop_evaluations now urlID price alerts
                (log_alert_evaluation db urlID price) []) as H.
  destruct (check_alerts_loop failing now _ urlID price alerts []) as [db' triggered].
  exact H.
Qed.

End AsynchronousCheck.

(** X17. The asynchronous check has no plausibility check: whenever the
    extraction and the price update succeed it evaluates the target's alerts
    at the extracted price, plausible or not. It leaves the targets and the
    price history exactly as the on-demand check does, and the whole
    database when the extracted price is plausible. *)
Theorem asynchronous_check_skips_the_plausibility_check
        (failing : Repository.DbOp -> bool) (now : Z)
        (scrape : string -> Z -> result Models.PriceData)
        (db : Repository.DB) (id : Z) (url : Models.TrackedURL) (pd : Models.PriceData) :
  failing Repository.OpUpdateURLPrice = false ->
  Repository.GetURLByID failing db id = Ok url ->
  Models.CanRetry now url = true ->
  scrape (Models.URL url) id = Ok pd ->
  let async := AsyncCheck.performPriceCheck failing now scrape db id in
  let direct := Handlers.CheckPriceNow failing now (Some scrape) db (Some id) in
  snd async = Ok pd
  /\ Repository.alert_evaluations (fst async)
     = Repository.alert_evaluations db ++ [(id, Models.pd_CurrentPrice pd)]
  /\ Repository.tracked_urls (fst async) = Repository.tracked_urls (fst direct)
  /\ Repository.price_history (fst async) = Repository.price_history (fst direct)
  /\ (Models.IsPriceChangeRealistic url (Models.pd_CurrentPrice pd) = true ->
      fst async = fst direct)
  /\ (Models.IsPriceChangeRealistic url (Models.pd_CurrentPrice pd) = false ->
      Repository.alert_evaluations (fst direct) = Repository.alert_evaluations db).
Proof.
  intros Hf Hu Hc Hs async direct. subst async direct.
  unfold AsyncCheck.performPriceCheck, Handlers.CheckPriceNow.
  rewrite Hu, Hc, Hs. cbn [negb].
  pose proof (alert_evaluations_MarkPriceCheckSuccess failing now db id) as H1.
  destruct (Repository.MarkPriceCheckSuccess failing now db id) as [d1 r1].
  cbn [fst] in H1.
  pose proof (alert_evaluations_UpdateURLPrice failing now d1 id pd) as H2.
  unfold Repository.UpdateURLPrice in *. rewrite Hf in *. cbn [fst] in H2.
  match goal with
  | |- context [Repository.AddPriceHistory failing now ?d id pd] =>
      pose proof (alert_evaluations_AddPriceHistory failing now d id pd) as H3;
      destruct (Repository.AddPriceHistory failing now d id pd) as [d3 r3]
  end.
  cbn [fst] in H3.
  pose proof (alert_evaluations_CheckAlerts failing now d3 id (Models.pd_CurrentPrice pd))
    as H4.
  pose proof (CheckAlerts_frame failing now d3 id (Models.pd_CurrentPrice pd)) as [H5 H6].
  destruct (Repository.CheckAlerts failing now d3 id (Models.pd_CurrentPrice pd))
    as [d4 r4].
  cbn [fst snd] in *.
  destruct (Models.IsPriceChangeRealistic url (Models.pd_CurrentPrice pd)).
  - repeat split; try assumption; congruence.
  - repeat split; try assumption; congruence.
Qed.

Lemma asynchronous_check_skips_the_plausibility_check_witness :
  let async := AsyncCheck.performPriceCheck Samples.healthy 5 Samples.scrapesOneDollar
                 (Samples.dbWith Samples.widget) 1 in
  let direct := Handlers.CheckPriceNow Samples.healthy 5 (Some Samples.scrapesOneDollar)
                  (Samples.dbWith Samples.widget) (Some 1) in
  snd async = Ok Samples.oneDollar
  /\ Repository.alert_evaluations (fst async)
     = Repository.alert_evaluations (Samples.dbWith Samples.widget)
       ++ [(1, Models.pd_CurrentPrice Samples.oneDollar)]
  /\ Repository.tracked_urls (fst async) = Repository.tracked_urls (fst direct)
  /\ Repository.price_history (fst async) = Repository.price_history (fst direct)
  /\ (Models.IsPriceChangeRealistic Samples.widget
        (Models.pd_CurrentPrice Samples.oneDollar) = true ->
      fst async = fst direct)
  /\ (Models.IsPriceChangeRealistic Samples.widget
        (Models.pd_CurrentPrice Samples.oneDollar) = false ->
      Repository.alert_evaluations (fst direct)
      = Repository.alert_evaluations (Samples.dbWith Samples.widget)).
Proof.
  apply (asynchronous_check_skips_the_plausibility_check Samples.healthy 5
           Samples.scrapesOneDollar (Samples.dbWith Samples.widget) 1 Samples.widget
           Samples.oneDollar).
  - reflexivity.
  - vm_compute. reflexivity.
  - reflexivity.
  - reflexivity.
Defined.

(** ** handlers: the feedback id *)

Section FeedbackIdentifiers.

Import GoStrings Regexp PriceScraper Fmt FeedbackID.
Local Open Scope string_scope.
Local Arguments Ascii.eqb : simpl never.

Lemma digit_value_digit_char (n : Z) :
  0 <= n < 10 -> Strconv.digit_value (digit_char n) = Some n.
Proof.
  intros H. unfold Strconv.digit_value. rewrite (digit_char_digit n H).
  unfold digit_char. rewrite nat_ascii_embedding by lia. f_equal. lia.
Qed.

(** Reading back the digits written by [digits_of]. *)
Lemma digits_of_read (fuel : nat) :
  forall n acc,
    0 <= n < 2 ^ Z.of_nat (S fuel) ->
    exists m,
      (0 < m)%nat
      /\ forall a k,
          Strconv.digits (digits_of (S fuel) n acc) a k
          = Strconv.digits acc (a * 10 ^ Z.of_nat m + n) (k + m)%nat.
Proof.
  induction fuel as [|fuel IH]; intros n acc Hn.
  - exists 1%nat. split; [lia|]. intros a k.
    assert (Hlt : n < 10) by (change (2 ^ Z.of_nat 1) with 2 in Hn; lia).
    cbn [digits_of]. rewrite Z.mod_small by lia.
    assert (E : (if Z.ltb n 10 then String (digit_char n) acc
                 else String (digit_char n) acc) = String (digit_char n) acc)
      by (destruct (Z.ltb n 10); reflexivity).
    rewrite E. cbn [Strconv.digits]. rewrite (digit_value_digit_char n) by lia.
    f_equal; [change (10 ^ Z.of_nat 1) with 10; lia|lia].
  - cbn [digits_of]. destruct (Z.ltb_spec n 10) as [Hlt|Hge].
    + exists 1%nat. split; [lia|]. intros a k.
      rewrite Z.mod_small by lia.
      cbn [Strconv.digits]. rewrite (digit_value_digit_char n) by lia.
      f_equal; [change (10 ^ Z.of_nat 1) with 10; lia|lia].
    + assert (Hq : 0 <= n / 10 < 2 ^ Z.of_nat (S fuel)).
      { split; [apply Z.div_pos; lia|].
        apply Z.div_lt_upper_bound; [lia|].
        rewrite (Nat2Z.inj_succ (S fuel)), Z.pow_succ_r in Hn by lia.
        assert (0 < 2 ^ Z.of_nat (S fuel)) by (apply Z.pow_pos_nonneg; lia). lia. }
      destruct (IH (n / 10) (String (digit_char (n mod 10)) acc) Hq) as (m & Hm & Hr).
      exists (S m). split; [lia|]. intros a k.
      rewrite Hr. cbn [Strconv.digits].
      rewrite (digit_value_digit_char (n mod 10)) by (apply Z.mod_pos_bound; lia).
      f_equal; [|lia].
      rewrite Nat2Z.inj_succ, Z.pow_succ_r by lia.
      pose proof (Z.div_mod n 10 ltac:(lia)) as Hdm. lia.
Qed.

Lemma itoa_read (n : Z) :
  0 <= n -> exists m, (0 < m)%nat /\ Strconv.digits (itoa n) 0 0 = (n, m, "").
Proof.
  intros Hn. unfold itoa.
  assert (Hb : 0 <= n < 2 ^ Z.of_nat (S (Z.to_nat (Z.log2 n)))).
  { split; [exact Hn|].
    rewrite Nat2Z.inj_succ, Z2Nat.id by apply Z.log2_nonneg.
    destruct (Z.eq_dec n 0) as [->|Hne]; [reflexivity|].
    apply Z.log2_spec. lia. }
  destruct (digits_of_read _ n "" Hb) as (m & Hm & Hr).
  exists m. split; [exact Hm|]. rewrite Hr. cbn [Strconv.digits].
  rewrite Z.mul_0_l, Z.add_0_l. reflexivity.
Qed.

Lemma itoa_head (n : Z) :
  0 <= n -> exists c rest, itoa n = String c rest /\ digit c = true.
Proof.
  intros Hn. destruct (itoa_read n Hn) as (m & Hm & Hr).
  assert (Hd : all_bytes digit (itoa n) = true)
    by (unfold itoa; apply digits_of_digits; reflexivity).
  destruct (itoa n) as [|c rest].
  - cbn in Hr. injection Hr as _ Hm0. lia.
  - cbn [all_bytes] in Hd. apply andb_true_iff in Hd as [Hc _].
    exists c, rest. split; [reflexivity|exact Hc].
Qed.

Lemma digit_is_no_sign (c : ascii) :
  digit c = true ->
  Ascii.eqb c "-" = false /\ Ascii.eqb c "+" = false /\ Ascii.eqb c "_" = false.
Proof.
  intros H. repeat split;
    match goal with
    | |- Ascii.eqb c ?x = false =>
        destruct (Ascii.eqb_spec c x) as [->|]; [discriminate H|reflexivity]
    end.
Qed.

Lemma Atoi_Sprintf_d (n : Z) : Atoi (Sprintf_d n) = Some n.
Proof.
  unfold Sprintf_d. destruct (Z.ltb_spec n 0) as [Hneg|Hpos].
  - rewrite append_one. unfold Atoi. rewrite Ascii.eqb_refl.
    destruct (itoa_read (- n) ltac:(lia)) as (m & Hm & Hr). rewrite Hr.
    destruct m; [lia|]. cbn [Nat.eqb]. f_equal. lia.
  - destruct (itoa_head n Hpos) as (c & rest & E & Hc).
    destruct (itoa_read n Hpos) as (m & Hm & Hr). rewrite E in *.
    unfold Atoi. destruct (digit_is_no_sign c Hc) as (-> & -> & _).
    rewrite Hr. destruct m; [lia|]. reflexivity.
Qed.

Lemma Sprintf_d_bytes (n : Z) :
  all_bytes (fun c => negb (Ascii.eqb c "_")) (Sprintf_d n) = true.
Proof.
  assert (Hd : forall k, all_bytes (fun c => negb (Ascii.eqb c "_")) (itoa k) = true).
  { intros k. apply (all_bytes_weaken digit).
    - intros c Hc. destruct (digit_is_no_sign c Hc) as (_ & _ & ->). reflexivity.
    - unfold itoa. apply digits_of_digits. reflexivity. }
  unfold Sprintf_d. destruct (Z.ltb n 0); [|apply Hd].
  rewrite append_one. cbn [all_bytes]. rewrite Hd. reflexivity.
Qed.

(** [strings.Split] on a text whose first separator comes after [x]. *)
Lemma split_acc_sep (sep : ascii) (x y : string) :
  all_bytes (fun c => negb (Ascii.eqb c sep)) x = true ->
  forall cur,
    split_acc sep (x ++ String sep y) cur = rev (rev_acc x cur) :: split_acc sep y "".
Proof.
  induction x as [|c x IH]; intros Hx cur.
  - cbn [rev_acc]. change ("" ++ String sep y) with (String sep y).
    cbn [split_acc]. rewrite Ascii.eqb_refl. reflexivity.
  - cbn [all_bytes] in Hx. apply andb_true_iff in Hx as [Hc Hx].
    apply negb_true_iff in Hc.
    rewrite append_cons. cbn [split_acc rev_acc]. rewrite Hc. apply IH. exact Hx.
Qed.

Lemma split_acc_last (sep : ascii) (x : string) :
  all_bytes (fun c => negb (Ascii.eqb c sep)) x = true ->
  forall cur, split_acc sep x cur = [rev (rev_acc x cur)].
Proof.
  induction x as [|c x IH]; intros Hx cur; [reflexivity|].
  cbn [all_bytes] in Hx. apply andb_true_iff in Hx as [Hc Hx].
  apply negb_true_iff in Hc.
  cbn [split_acc rev_acc]. rewrite Hc. apply IH. exact Hx.
Qed.

Lemma Split_feedbackID (id unix : Z) :
  Split (feedbackID id unix) "_" = ["feedback"; Sprintf_d id; Sprintf_d unix].
Proof.
  unfold feedbackID, Split.
  change ("feedback_" ++ ?t) with ("feedback" ++ String "_" t).
  rewrite append_one.
  rewrite (split_acc_sep "_" "feedback" _ eq_refl).
  rewrite (split_acc_sep "_" (Sprintf_d id) _ (Sprintf_d_bytes id)).
  rewrite (split_acc_last "_" (Sprintf_d unix) (Sprintf_d_bytes unix)).
  fold (rev (Sprintf_d id)). fold (rev (Sprintf_d unix)).
  rewrite !rev_rev. reflexivity.
Qed.

End FeedbackIdentifiers.

(** X18. The feedback id the on-demand check hands out leads back to its
    target: for every target id and every reading of the clock, negative
    ones included, the id is not empty, splits into three parts and the
    alternative-price endpoint reads the target id it was made from. *)
Theorem feedback_id_leads_back_to_its_target (id unix : Z) :
  FeedbackID.urlIDOf (FeedbackID.feedbackID id unix) = Ok id
  /\ PriceScraper.Split (FeedbackID.feedbackID id unix) "_"
     = [ "feedback"%string; FeedbackID.Sprintf_d id; FeedbackID.Sprintf_d unix ].
Proof.
  split; [|apply Split_feedbackID].
  unfold FeedbackID.urlIDOf. rewrite Split_feedbackID.
  cbn [List.length Nat.ltb Nat.leb nth]. rewrite Atoi_Sprintf_d.
  unfold FeedbackID.feedbackID.
  change ("feedback_" ++ ?t)%string with (String "f" ("eedback_" ++ t))%string.
  reflexivity.
Qed.

(** ** scraper: the vision extractor *)

Section VisionExtractor.

Import Float64 GoStrings Regexp OCR EnhancedOCR Fmt.
Local Open Scope string_scope.
Local Arguments Ascii.eqb : simpl never.

Variable expansionReply : nat -> Q -> OCRReply.
Variable preprocessingReply : nat -> string -> OCRReply.
Variable fullImageReply : nat -> OCRReply.

(** A text without the byte [f] does not mention [full_image]. *)
Lemma no_f_no_full_image (s : string) :
  all_bytes (fun c => negb (Ascii.eqb "f" c)) s = true ->
  Contains s "full_image" = false.
Proof.
  induction s as [|c s IH]; intros H; [reflexivity|].
  cbn [all_bytes] in H. apply andb_true_iff in H as [Hc Hs].
  apply negb_true_iff in Hc.
  cbn [Contains HasPrefix]. rewrite Hc. cbn [andb]. exact (IH Hs).
Qed.

Lemma digit_is_not_f (c : ascii) : digit c = true -> negb (Ascii.eqb "f" c) = true.
Proof.
  intros H. destruct (Ascii.eqb_spec "f" c) as [<-|]; [discriminate H|reflexivity].
Qed.

Lemma Sprintf_1f_bytes (q : Q) :
  all_bytes (fun c => negb (Ascii.eqb "f" c)) (Sprintf_1f q) = true.
Proof.
  unfold Sprintf_1f.
  set (a := Z.abs (round_half_even (q * 10))).
  assert (Hb : all_bytes (fun c => negb (Ascii.eqb "f" c))
                 (itoa (a / 10) ++ "." ++ String (digit_char (a mod 10)) "") = true).
  { rewrite !all_bytes_append. cbn [all_bytes].
    rewrite (all_bytes_weaken digit _ (itoa (a / 10)) digit_is_not_f)
      by (unfold itoa; apply digits_of_digits; reflexivity).
    rewrite (digit_is_not_f (digit_char (a mod 10)))
      by (apply digit_char_digit; apply Z.mod_pos_bound; lia).
    reflexivity. }
  destruct (Z.ltb _ 0); [|exact Hb].
  rewrite all_bytes_append, Hb. reflexivity.
Qed.

Lemma Strategy_attempt (strategy : string) (f : Q) (reply : OCRReply) :
  Strategy (attempt strategy f reply) = strategy.
Proof. destruct reply; reflexivity. Qed.

Lemma region_extractWithExpansion (i : nat) (f : Q) :
  region_scoped (extractWithExpansion expansionReply i f) = true.
Proof.
  unfold region_scoped, extractWithExpansion. rewrite Strategy_attempt.
  rewrite no_f_no_full_image; [reflexivity|].
  rewrite !all_bytes_append, Sprintf_1f_bytes. reflexivity.
Qed.

Lemma region_extractWithPreprocessing (i : nat) :
  Forall (fun a => region_scoped a = true)
         (List.map (extractWithPreprocessing preprocessingReply i) preprocessingStrategies).
Proof.
  unfold preprocessingStrategies. cbn [List.map].
  repeat constructor; unfold region_scoped, extractWithPreprocessing;
    rewrite Strategy_attempt; reflexivity.
Qed.

Lemma full_image_is_not_region_scoped (i : nat) :
  region_scoped (extractFromFullImage fullImageReply i) = false.
Proof.
  unfold region_scoped, extractFromFullImage. rewrite Strategy_attempt. reflexivity.
Qed.

(** The attempts the first strategy adds: at least one, at most one per
    factor, all of them on the region. *)
Lemma expansion_loop_spec (i : nat) (factors : list Q) :
  forall acc,
    exists new,
      expansion_loop expansionReply i factors acc = (acc ++ new)%list
      /\ (List.length new <= List.length factors)%nat
      /\ (factors <> [] -> (1 <= List.length new)%nat)
      /\ Forall (fun a => region_scoped a = true) new.
Proof.
  induction factors as [|f rest IH]; intros acc.
  - exists []. cbn [expansion_loop]. rewrite app_nil_r.
    repeat split; [cbn; lia|congruence|constructor].
  - cbn [expansion_loop].
    destruct (Success _ && gt (Confidence _) 0.8 && gt (Price _) 0)%bool.
    + exists [extractWithExpansion expansionReply i f].
      repeat split; [cbn; lia|cbn; lia|].
      constructor; [apply region_extractWithExpansion|constructor].
    + destruct (IH (acc ++ [extractWithExpansion expansionReply i f])%list)
        as (new & E & Hl & _ & Hr).
      exists (extractWithExpansion expansionReply i f :: new).
      rewrite E, <- app_assoc. repeat split; [cbn; lia|cbn; lia|].
      constructor; [apply region_extractWithExpansion|exact Hr].
Qed.

Lemma getExpansionFactors_length (yoloConfidence : Q) :
  (3 <= List.length (getExpansionFactors yoloConfidence) <= 4)%nat.
Proof.
  unfold getExpansionFactors.
  destruct (gt yoloConfidence 0.8); [cbn; lia|].
  destruct (gt yoloConfidence 0.6); cbn; lia.
Qed.

Lemma hasSuccessfulBboxResults_false (attempts : list OCRAttempt) :
  hasSuccessfulBboxResults attempts = false <->
  forall a, In a attempts -> region_scoped a = true -> eligible a = false.
Proof.
  assert (Hc : forall a,
             (Success a && gt (Price a) 0
              && negb (Contains (Strategy a) "full_image"))%bool
             = (eligible a && region_scoped a)%bool).
  { intros a. unfold eligible, region_scoped, gt, le.
    destruct (Success a), (Qle_bool (Price a) 0); reflexivity. }
  unfold hasSuccessfulBboxResults. split.
  - intros H a Ha Hr.
    destruct (eligible a) eqn:E; [exfalso|reflexivity].
    assert (Hex : existsb
                    (fun attempt =>
                       (Success attempt && gt (Price attempt) 0
                        && negb (Contains (Strategy attempt) "full_image"))%bool)
                    attempts = true).
    { apply existsb_exists. exists a. split; [exact Ha|]. rewrite Hc, E, Hr. reflexivity. }
    rewrite Hex in H. discriminate H.
  - intros H. apply not_true_is_false. intros Hex.
    apply existsb_exists in Hex as (a & Ha & Hx).
    rewrite Hc in Hx. apply andb_true_iff in Hx as [He Hr].
    rewrite (H a Ha Hr) in He. discriminate He.
Qed.

(** The attempts made for a region: five to eight on the region, and the
    full image after them when none of those succeeded with a positive
    price. *)
Lemma allAttempts_spec (i : nat) (yoloConfidence : Q) :
  exists onRegion,
    (5 <= List.length onRegion <= 8)%nat
    /\ Forall (fun a => region_scoped a = true) onRegion
    /\ allAttempts expansionReply preprocessingReply fullImageReply i yoloConfidence
       = if hasSuccessfulBboxResults onRegion then onRegion
         else (onRegion ++ [extractFromFullImage fullImageReply i])%list.
Proof.
  unfold allAttempts.
  destruct (expansion_loop_spec i (getExpansionFactors yoloConfidence) [])
    as (new & E & Hl & Hn & Hr).
  pose proof (getExpansionFactors_length yoloConfidence) as Hg.
  rewrite E. cbn [app].
  exists (new ++ List.map (extractWithPreprocessing preprocessingReply i)
                          preprocessingStrategies)%list.
  split; [|split].
  - rewrite length_app, length_map. cbn [preprocessingStrategies List.length].
    assert (getExpansionFactors yoloConfidence <> [])
      by (intros E0; rewrite E0 in Hg; cbn in Hg; lia).
    specialize (Hn H). lia.
  - apply Forall_app. split; [exact Hr|apply region_extractWithPreprocessing].
  - destruct (hasSuccessfulBboxResults _); reflexivity.
Qed.

(** What [selectBestOCRResult] returns: the empty result, or an attempt of
    the list that succeeded with a positive price. *)
Lemma selectBestOCRResult_cases (attempts : list OCRAttempt) :
  selectBestOCRResult attempts = noSuccessfulAttempts attempts
  \/ exists best,
       In best attempts /\ eligible best = true
       /\ selectBestOCRResult attempts = resultOf best attempts.
Proof.
  unfold selectBestOCRResult.
  destruct (select_loop_spec attempts zeroAttempt 0)
    as [[Hsame _]|(l1 & best & l2 & Hl & Hr & He & Hlt & _)].
  - left. rewrite Hsame. reflexivity.
  - right. exists best. rewrite Hr.
    assert (eqb (score best) 0 = false) as ->.
    { destruct (eqb (score best) 0) eqn:E; [|reflexivity].
      apply eqb_true in E. rewrite E in Hlt. exfalso. exact (Qlt_irrefl _ Hlt). }
    repeat split; [rewrite Hl; apply in_elt|exact He].
Qed.

Lemma eligible_positive (a : OCRAttempt) : eligible a = true -> (0 < Price a)%Q.
Proof.
  unfold eligible. intros H. apply negb_true_iff in H.
  apply orb_false_iff in H as [_ H]. apply le_false. exact H.
Qed.

End VisionExtractor.

(** X19. For every detected region the extractor makes between five and
    nine text-recognition attempts. The full image is read exactly when no
    attempt on the region succeeded with a positive price, so a result whose
    strategy is [full_image] means that every attempt on the region failed;
    the result carries a positive price or is the empty result. *)
Theorem full_image_is_read_only_as_a_fallback
        (expansionReply : nat -> Q -> EnhancedOCR.OCRReply)
        (preprocessingReply : nat -> string -> EnhancedOCR.OCRReply)
        (fullImageReply : nat -> EnhancedOCR.OCRReply)
        (i : nat) (yoloConfidence : Q) :
  let attempts :=
    EnhancedOCR.allAttempts expansionReply preprocessingReply fullImageReply i
      yoloConfidence in
  let r :=
    EnhancedOCR.extractPriceWithComprehensiveOCR expansionReply preprocessingReply
      fullImageReply i yoloConfidence in
  (5 <= List.length attempts <= 9)%nat
  /\ OCR.r_AllAttempts r = attempts
  /\ (In (EnhancedOCR.extractFromFullImage fullImageReply i) attempts
      <-> forall a, In a attempts -> OCR.region_scoped a = true -> OCR.eligible a = false)
  /\ (OCR.r_Strategy r = "full_image"%string ->
      forall a, In a attempts -> OCR.region_scoped a = true -> OCR.eligible a = false)
  /\ ((0 < OCR.r_Price r)%Q \/ r = OCR.noSuccessfulAttempts attempts).
Proof.
  intros attempts r. subst attempts r. unfold EnhancedOCR.extractPriceWithComprehensiveOCR.
  destruct (allAttempts_spec expansionReply preprocessingReply fullImageReply i
              yoloConfidence) as (onRegion & Hl & Hreg & E).
  rewrite E. clear E.
  pose proof (full_image_is_not_region_scoped fullImageReply i) as Hfull.
  set (full := EnhancedOCR.extractFromFullImage fullImageReply i) in *.
  rewrite List.Forall_forall in Hreg.
  assert (Hnot : ~ In full onRegion)
    by (intros Hin; rewrite (Hreg full Hin) in Hfull; discriminate Hfull).
  assert (Hfallback :
            In full (if EnhancedOCR.hasSuccessfulBboxResults onRegion then onRegion
                     else (onRegion ++ [full])%list)
            <-> forall a,
                In a (if EnhancedOCR.hasSuccessfulBboxResults onRegion then onRegion
                      else (onRegion ++ [full])%list) ->
                OCR.region_scoped a = true -> OCR.eligible a = false).
  { destruct (EnhancedOCR.hasSuccessfulBboxResults onRegion) eqn:Eh.
    - split; [intros Hin; contradiction|].
      intros H. apply hasSuccessfulBboxResults_false in H. congruence.
    - split; [|intros _; apply in_or_app; right; left; reflexivity].
      intros _ a Ha Hr. apply in_app_or in Ha as [Ha|[<-|[]]].
      + exact (proj1 (hasSuccessfulBboxResults_false onRegion) Eh a Ha Hr).
      + congruence. }
  set (attempts := if EnhancedOCR.hasSuccessfulBboxResults onRegion then onRegion
                   else (onRegion ++ [full])%list) in *.
  split; [|split; [|split; [|split]]].
  - subst attempts. destruct (EnhancedOCR.hasSuccessfulBboxResults onRegion);
      [lia|rewrite length_app; cbn [List.length]; lia].
  - destruct (selectBestOCRResult_cases attempts) as [->|(best & _ & _ & ->)]; reflexivity.
  - exact Hfallback.
  - intros Hs. apply Hfallback.
    destruct (selectBestOCRResult_cases attempts) as [E|(best & Hin & He & E)];
      rewrite E in Hs; cbn [OCR.r_Strategy OCR.noSuccessfulAttempts OCR.resultOf] in Hs;
      [discriminate Hs|].
    assert (Hb : OCR.region_scoped best = false)
      by (unfold OCR.region_scoped; rewrite Hs; reflexivity).
    subst attempts. destruct (EnhancedOCR.hasSuccessfulBboxResults onRegion).
    + rewrite (Hreg best Hin) in Hb. discriminate Hb.
    + apply in_or_app. right. left. reflexivity.
  - destruct (selectBestOCRResult_cases attempts) as [E|(best & Hin & He & E)];
      rewrite E; [right; reflexivity|left].
    cbn [OCR.r_Price OCR.resultOf]. apply eligible_positive. exact He.
Qed.

Section Detections.

Import Float64 OCR EnhancedOCR.

Variable expansionReply : nat -> Q -> OCRReply.
Variable preprocessingReply : nat -> string -> OCRReply.
Variable fullImageReply : nat -> OCRReply.

Local Abbreviation comprehensive :=
  (extractPriceWithComprehensiveOCR expansionReply preprocessingReply fullImageReply).

(** The state of the loop over the detections is the one it started from,
    or it comes from one of the detections: the price read for it, which is
    positive, and the mean of the two confidences, which is above the
    confidence the loop started from. *)
Lemma detection_loop_spec (detections : list Detection) :
  forall i bestPrice bestConfidence,
    detection_loop expansionReply preprocessingReply fullImageReply i detections
      bestPrice bestConfidence = (bestPrice, bestConfidence)
    \/ exists j detection,
        nth_error detections j = Some detection
        /\ detection_loop expansionReply preprocessingReply fullImageReply i detections
             bestPrice bestConfidence
           = (r_Price (comprehensive (i + j)%nat (d_Confidence detection)),
              ((d_Confidence detection
                + r_Confidence (comprehensive (i + j)%nat (d_Confidence detection))) / 2)%Q)
        /\ (0 < r_Price (comprehensive (i + j)%nat (d_Confidence detection)))%Q
        /\ (bestConfidence
            < (d_Confidence detection
               + r_Confidence (comprehensive (i + j)%nat (d_Confidence detection))) / 2)%Q.
Proof.
  induction detections as [|d rest IH]; intros i bestPrice bestConfidence;
    [left; reflexivity|].
  cbn [detection_loop].
  set (p := r_Price (comprehensive i (d_Confidence d))).
  set (c := ((d_Confidence d + r_Confidence (comprehensive i (d_Confidence d))) / 2)%Q).
  destruct (gt c bestConfidence && gt p 0)%bool eqn:E.
  - apply andb_true_iff in E as [Ec Ep]. apply gt_true in Ec, Ep.
    destruct (IH (S i) p c) as [Hsame|(j & d' & Hn & Hr & Hp & Hc)].
    + right. exists 0%nat, d. rewrite Nat.add_0_r. fold p c.
      repeat split; assumption.
    + right. exists (S j), d'. rewrite Nat.add_succ_r.
      repeat split; try assumption. eapply Qlt_trans; eassumption.
  - destruct (IH (S i) bestPrice bestConfidence) as [Hsame|(j & d' & Hn & Hr & Hp & Hc)].
    + left. exact Hsame.
    + right. exists (S j), d'. rewrite Nat.add_succ_r. repeat split; assumption.
Qed.

End Detections.

(** X20. The vision extractor never indexes an empty list of detections,
    whatever the detection service reports as its number of detections. When
    it answers with success, the price is positive and is the one read for
    one of the detected regions, the reported text-recognition confidence is
    the mean of that region's detection confidence and of the confidence of
    the text recognition, and it is positive; the reported detection
    confidence is that of the first region. *)
Theorem ExtractPriceWithYOLO_success_has_a_positive_price
        (expansionReply : nat -> Q -> EnhancedOCR.OCRReply)
        (preprocessingReply : nat -> string -> EnhancedOCR.OCRReply)
        (fullImageReply : nat -> EnhancedOCR.OCRReply)
        (yolo : result EnhancedOCR.YOLOResponse) :
  exists answer,
    EnhancedOCR.ExtractPriceWithYOLO expansionReply preprocessingReply fullImageReply yolo
    = Ret answer
    /\ forall res,
        answer = Ok res -> OCR.e_Success res = true ->
        (0 < OCR.e_Price res)%Q /\ (0 < OCR.e_OCRConfidence res)%Q
        /\ exists yoloResult j detection first,
            yolo = Ok yoloResult
            /\ nth_error (EnhancedOCR.Detections yoloResult) j = Some detection
            /\ nth_error (EnhancedOCR.Detections yoloResult) 0 = Some first
            /\ OCR.e_YOLOConfidence res = EnhancedOCR.d_Confidence first
            /\ OCR.e_Price res
               = OCR.r_Price
                   (EnhancedOCR.extractPriceWithComprehensiveOCR expansionReply
                      preprocessingReply fullImageReply j
                      (EnhancedOCR.d_Confidence detection))
            /\ OCR.e_OCRConfidence res
               = ((EnhancedOCR.d_Confidence detection
                   + OCR.r_Confidence
                       (EnhancedOCR.extractPriceWithComprehensiveOCR expansionReply
                          preprocessingReply fullImageReply j
                          (EnhancedOCR.d_Confidence detection))) / 2)%Q.
Proof.
  unfold EnhancedOCR.ExtractPriceWithYOLO.
  destruct yolo as [yoloResult|e].
  2:{ eexists. split; [reflexivity|]. intros res H. discriminate H. }
  destruct (Z.eqb (EnhancedOCR.TotalDetections yoloResult) 0).
  { eexists. split; [reflexivity|]. intros res H Hs. injection H as <-. discriminate Hs. }
  destruct (detection_loop_spec expansionReply preprocessingReply fullImageReply
              (EnhancedOCR.Detections yoloResult) 0 0 0)
    as [Hsame|(j & d & Hn & Hr & Hp & Hc)].
  - rewrite Hsame. assert (Float64.le 0 0 = true) as -> by reflexivity.
    eexists. split; [reflexivity|]. intros res H Hs. injection H as <-. discriminate Hs.
  - rewrite Hr. cbn [Nat.add] in *.
    assert (Float64.le (OCR.r_Price
                          (EnhancedOCR.extractPriceWithComprehensiveOCR expansionReply
                             preprocessingReply fullImageReply j
                             (EnhancedOCR.d_Confidence d))) 0 = false) as ->
      by (apply le_false; exact Hp).
    destruct (EnhancedOCR.Detections yoloResult) as [|first rest] eqn:Ed.
    + destruct j; discriminate Hn.
    + eexists. split; [reflexivity|]. intros res H _. injection H as <-.
      cbn [OCR.e_Price OCR.e_OCRConfidence OCR.e_YOLOConfidence].
      split; [exact Hp|]. split; [exact Hc|].
      exists yoloResult, j, d, first. rewrite Ed. repeat split. exact Hn.
Qed.


(** ** scraper/price_scraper.go: the choice among several prices *)

Section ChoiceOfPrice.

Import Float64 GoStrings PriceSelection.

Lemma first_within_Some (lo hi : Q) (prices : list Q) (p : Q) :
  first_within lo hi prices = Some p -> In p prices /\ (lo < p)%Q /\ (p < hi)%Q.
Proof.
  unfold first_within. intros H. apply List.find_some in H as [Hin Hc].
  apply andb_true_iff in Hc as [H1 H2]. apply gt_true in H1. apply lt_true in H2.
  repeat split; assumption.
Qed.

Lemma first_within_None (lo hi : Q) (prices : list Q) :
  first_within lo hi prices = None ->
  forall p, In p prices -> ~ ((lo < p)%Q /\ (p < hi)%Q).
Proof.
  unfold first_within. intros H p Hin [H1 H2].
  pose proof (List.find_none _ _ H p Hin) as Hc. cbv beta in Hc.
  apply gt_true in H1. apply lt_true in H2. rewrite H1, H2 in Hc. discriminate Hc.
Qed.

Lemma In_insert (x y : Q) (sorted : list Q) :
  In y (insert x sorted) <-> y = x \/ In y sorted.
Proof.
  induction sorted as [|z rest IH]; cbn [insert].
  - cbn. intuition.
  - destruct (le x z); cbn [In]; [intuition|]. rewrite IH. intuition.
Qed.

Lemma In_sortFloat64s (y : Q) (prices : list Q) :
  In y (sortFloat64s prices) <-> In y prices.
Proof.
  induction prices as [|x rest IH]; [reflexivity|].
  cbn [sortFloat64s fold_right]. fold (sortFloat64s rest).
  rewrite In_insert, IH. cbn [In]. intuition.
Qed.

Lemma length_insert (x : Q) (sorted : list Q) :
  List.length (insert x sorted) = S (List.length sorted).
Proof.
  induction sorted as [|z rest IH]; [reflexivity|].
  cbn [insert]. destruct (le x z); cbn [List.length]; [reflexivity|].
  rewrite IH. reflexivity.
Qed.

Lemma length_sortFloat64s (prices : list Q) :
  List.length (sortFloat64s prices) = List.length prices.
Proof.
  induction prices as [|x rest IH]; [reflexivity|].
  cbn [sortFloat64s fold_right]. fold (sortFloat64s rest).
  rewrite length_insert, IH. reflexivity.
Qed.

(** The median is the price of one of the candidates. *)
Lemma medianPrice_In (candidates : list PriceCandidate) :
  candidates <> [] ->
  exists c, In c candidates /\ c_Price c = medianPrice candidates.
Proof.
  intros Hne. unfold medianPrice.
  set (prices := sortFloat64s (List.map c_Price candidates)).
  assert (Hl : List.length prices = List.length candidates)
    by (subst prices; rewrite length_sortFloat64s, length_map; reflexivity).
  assert (Hpos : (0 < List.length candidates)%nat)
    by (destruct candidates; [congruence|cbn; lia]).
  assert (Hin : In (nth (List.length prices / 2) prices 0%Q) prices).
  { apply nth_In. rewrite Hl. apply Nat.div_lt; lia. }
  subst prices. apply (proj1 (In_sortFloat64s _ _)) in Hin.
  apply List.in_map_iff in Hin as (c & Hc & Hin). exists c. split; assumption.
Qed.

(** A candidate at the median price passes the two comparisons with the
    median. *)
Lemma kept_at_median (productName : string) (candidate : PriceCandidate) :
  isLuxuryProduct productName = false ->
  kept (c_Price candidate) productName candidate = true.
Proof.
  intros Hl. unfold kept. rewrite Hl. cbn [andb].
  set (m := c_Price candidate).
  destruct (gt m 100) eqn:E1; cbn [andb].
  - apply gt_true in E1.
    assert (lt m (m * 0.1) = false) as -> by (apply lt_false; lra).
    destruct (gt m 0) eqn:E2; cbn [andb]; [|reflexivity].
    assert (gt m (m * 10) = false) as -> by (apply gt_false; lra). reflexivity.
  - destruct (gt m 0) eqn:E2; cbn [andb]; [|reflexivity].
    apply gt_true in E2.
    assert (gt m (m * 10) = false) as -> by (apply gt_false; lra). reflexivity.
Qed.

Lemma kept_luxury (median : Q) (productName : string) (candidate : PriceCandidate) :
  isLuxuryProduct productName = true ->
  kept median productName candidate = true -> (50 <= c_Price candidate)%Q.
Proof.
  intros Hl. unfold kept. rewrite Hl. cbn [andb].
  destruct (gt median 100 && lt (c_Price candidate) (median * 0.1))%bool; [discriminate|].
  destruct (gt median 0 && gt (c_Price candidate) (median * 10))%bool; [discriminate|].
  destruct (lt (c_Price candidate) 50) eqn:E; [discriminate|].
  intros _. apply lt_false. exact E.
Qed.

Lemma filterValidPrices_In (candidates : list PriceCandidate) (productName : string) :
  forall c, In c (filterValidPrices candidates productName) -> In c candidates.
Proof.
  intros c. unfold filterValidPrices. destruct candidates as [|a rest]; [tauto|].
  intros Hc. apply List.filter_In in Hc. exact (proj1 Hc).
Qed.

Section Scored.

Variable calculateMatchScore : PriceCandidate -> string -> Q.


End Scored.

End ChoiceOfPrice.

(** X22. Of several prices, [selectMainPrice] returns one of the list (0
    for the empty list). With two or more prices, as soon as one of them
    lies strictly between 5 and 2000 the result does too, whatever the text
    says. *)
Theorem selectMainPrice_returns_a_listed_price (prices : list Q) (text : string) :
  (PriceSelection.selectMainPrice [] text == 0)%Q
  /\ (prices <> [] -> In (PriceSelection.selectMainPrice prices text) prices)
  /\ ((2 <= List.length prices)%nat ->
      (exists p, In p prices /\ (5 < p)%Q /\ (p < 2000)%Q) ->
      (5 < PriceSelection.selectMainPrice prices text)%Q
      /\ (PriceSelection.selectMainPrice prices text < 2000)%Q).
Proof.
  split; [reflexivity|].
  destruct prices as [|a [|b rest]].
  - split; [congruence|]. cbn. lia.
  - split; [intros _; left; reflexivity|]. cbn. lia.
  - unfold PriceSelection.selectMainPrice.
    set (l := a :: b :: rest).
    assert (Hk : forall k : string,
               (if GoStrings.Contains (GoStrings.ToLower text) k
                then PriceSelection.first_within 10 1000 l else None) = None
               \/ exists p,
                   (if GoStrings.Contains (GoStrings.ToLower text) k
                    then PriceSelection.first_within 10 1000 l else None) = Some p
                   /\ In p l /\ (5 < p)%Q /\ (p < 2000)%Q).
    { intros k. destruct (GoStrings.Contains _ k); [|left; reflexivity].
      destruct (PriceSelection.first_within 10 1000 l) as [p|] eqn:E; [|left; reflexivity].
      right. exists p. apply first_within_Some in E as (Hin & H1 & H2).
      repeat split; [assumption|lra|lra]. }
    assert (Hw : (PriceSelection.first_within 5 2000 l = None
                  /\ forall p, In p l -> ~ ((5 < p)%Q /\ (p < 2000)%Q))
                 \/ exists p,
                     PriceSelection.first_within 5 2000 l = Some p
                     /\ In p l /\ (5 < p)%Q /\ (p < 2000)%Q).
    { destruct (PriceSelection.first_within 5 2000 l) as [p|] eqn:E.
      - right. exists p. apply first_within_Some in E. tauto.
      - left. split; [reflexivity|]. apply first_within_None. exact E. }
    destruct (Hk "sale"%string) as [->|(p & -> & Hin & Hb)];
      [|split; [intros _; exact Hin|intros _ _; exact Hb]].
    destruct (Hk "regular"%string) as [->|(p & -> & Hin & Hb)];
      [|split; [intros _; exact Hin|intros _ _; exact Hb]].
    destruct (Hk "current"%string) as [->|(p & -> & Hin & Hb)];
      [|split; [intros _; exact Hin|intros _ _; exact Hb]].
    destruct Hw as [[-> Hnone]|(p & -> & Hin & Hb)];
      [|split; [intros _; exact Hin|intros _ _; exact Hb]].
    split; [intros _; left; reflexivity|].
    intros _ (p & Hin & Hb). exfalso. exact (Hnone p Hin Hb).
Qed.

(** X23. [filterValidPrices] returns candidates of the list it is given.
    For a product name without a luxury keyword it never returns an empty
    list for a non-empty one: a candidate at the median price is kept. For a
    name with a luxury keyword every candidate it returns costs at least
    50. *)
Theorem filterValidPrices_keeps_a_median_priced_candidate
        (candidates : list PriceSelection.PriceCandidate) (productName : string) :
  (forall c, In c (PriceSelection.filterValidPrices candidates productName) ->
             In c candidates)
  /\ (PriceSelection.isLuxuryProduct productName = false ->
      candidates <> [] ->
      exists c,
        In c (PriceSelection.filterValidPrices candidates productName)
        /\ PriceSelection.c_Price c = PriceSelection.medianPrice candidates)
  /\ (PriceSelection.isLuxuryProduct productName = true ->
      forall c, In c (PriceSelection.filterValidPrices candidates productName) ->
                (50 <= PriceSelection.c_Price c)%Q).
Proof.
  split; [apply filterValidPrices_In|].
  unfold PriceSelection.filterValidPrices.
  destruct candidates as [|a rest] eqn:Ec; [split; [congruence|intros _ c []]|].
  rewrite <- Ec. split.
  - intros Hl Hne. destruct (medianPrice_In candidates Hne) as (c & Hin & Hp).
    exists c. split; [|exact Hp]. apply List.filter_In. split; [exact Hin|].
    rewrite <- Hp. apply kept_at_median. exact Hl.
  - intros Hl c Hc. apply List.filter_In in Hc as [_ Hk].
    exact (kept_luxury _ productName c Hl Hk).
Qed.


(** ** scraper/price_scraper.go: the price in a JSON response *)

Section PriceInJSON.

Import Float64 Models PriceJSON.




End PriceInJSON.



(** ** scraper: the detection of bot walls *)

Section BotWalls.

Import Float64 GoStrings BotDetector.
Local Open Scope string_scope.

Variable MatchString : string -> string -> bool.

(** The number of the patterns of a list that match. *)
Lemma scan_score (content : string) (weight : Q) (label : string)
      (patterns : list string) :
  forall botScore botReasons,
    (fst (scan MatchString patterns content weight label botScore botReasons)
     == botScore
        + weight
          * inject_Z
              (Z.of_nat
                 (List.length
                    (List.filter (fun p => MatchString p content) patterns))))%Q.
Proof.
  induction patterns as [|p rest IH]; intros botScore botReasons.
  - cbn. ring.
  - cbn [scan List.filter]. destruct (MatchString p content).
    + rewrite IH. cbn [List.length]. rewrite Nat2Z.inj_succ. unfold Z.succ.
      rewrite inject_Z_plus. ring.
    + apply IH.
Qed.

Lemma scan_reasons (content : string) (weight : Q) (label : string)
      (patterns : list string) :
  forall botScore botReasons,
    List.filter (fun p => MatchString p content) patterns = [] ->
    snd (scan MatchString patterns content weight label botScore botReasons)
    = botReasons.
Proof.
  induction patterns as [|p rest IH]; intros botScore botReasons H; [reflexivity|].
  cbn [scan List.filter] in *. destruct (MatchString p content); [discriminate H|].
  apply IH. exact H.
Qed.

Lemma count_nonneg (content : string) (patterns : list string) :
  (0 <= inject_Z
          (Z.of_nat
             (List.length (List.filter (fun p => MatchString p content) patterns))))%Q.
Proof. change 0%Q with (inject_Z 0). rewrite <- Zle_Qle. lia. Qed.

(** The score before the bonus of a short page, the score before the cap
    and the answer of [DetectBotWall]. *)
Lemma DetectBotWall_score (pageContent pageTitle : string) :
  let content := ToLower (pageContent ++ " " ++ pageTitle) in
  let count (patterns : list string) :=
    inject_Z
      (Z.of_nat (List.length (List.filter (fun p => MatchString p content) patterns))) in
  exists indicators raw : Q,
    (indicators
     == 0.3 * count botPatterns + 0.5 * count captchaPatterns + 0.4 * count blockPatterns
        + (if (Contains content "javascript" && Contains content "disabled")%bool
           then 0.2 else 0))%Q
    /\ raw = (if (Nat.ltb (String.length content) 1000 && gt indicators 0)%bool
              then (indicators + 0.2)%Q else indicators)
    /\ snd (DetectBotWall MatchString pageContent pageTitle)
       = (if gt raw 1.0 then 1.0%Q else raw)
    /\ fst (fst (DetectBotWall MatchString pageContent pageTitle))
       = gt (if gt raw 1.0 then 1.0%Q else raw) 0.3.
Proof.
  intros content count. unfold DetectBotWall. fold content.
  pose proof (scan_score content 0.3 "" botPatterns 0.0 []) as H1.
  destruct (scan MatchString botPatterns content 0.3 "" 0.0 []) as [s1 r1].
  pose proof (scan_score content 0.5 "CAPTCHA detected: " captchaPatterns s1 r1) as H2.
  destruct (scan MatchString captchaPatterns content 0.5 "CAPTCHA detected: " s1 r1)
    as [s2 r2].
  pose proof (scan_score content 0.4 "HTTP error: " blockPatterns s2 r2) as H3.
  destruct (scan MatchString blockPatterns content 0.4 "HTTP error: " s2 r2) as [s3 r3].
  cbn [fst] in H1, H2, H3. fold (count botPatterns) in H1.
  fold (count captchaPatterns) in H2. fold (count blockPatterns) in H3.
  destruct (Contains content "javascript" && Contains content "disabled")%bool.
  - exists (s3 + 0.2)%Q. eexists. split; [rewrite H3, H2, H1; ring|].
    split; [reflexivity|].
    destruct (Nat.ltb (String.length content) 1000 && gt (s3 + 0.2) 0)%bool;
      split; reflexivity.
  - exists s3. eexists. split; [rewrite H3, H2, H1; ring|].
    split; [reflexivity|].
    destruct (Nat.ltb (String.length content) 1000 && gt s3 0)%bool; split; reflexivity.
Qed.

Lemma DetectCaptcha_true (pageContent pageTitle : string) :
  fst (DetectCaptcha MatchString pageContent pageTitle) = true ->
  (1 <= inject_Z
          (Z.of_nat
             (List.length
                (List.filter
                   (fun p => MatchString p (ToLower (pageContent ++ " " ++ pageTitle)))
                   captchaPatterns))))%Q.
Proof.
  unfold DetectCaptcha.
  destruct (List.find _ captchaPatterns) as [p|] eqn:E; [|discriminate].
  intros _. apply List.find_some in E as [Hin Hm].
  assert (Hf : In p (List.filter
                       (fun p => MatchString p (ToLower (pageContent ++ " " ++ pageTitle)))
                       captchaPatterns))
    by (apply List.filter_In; split; assumption).
  destruct (List.filter _ captchaPatterns) as [|x l]; [destruct Hf|].
  change 1%Q with (inject_Z 1). rewrite <- Zle_Qle. cbn [List.length]. lia.
Qed.

Lemma scan_none (content : string) (weight : Q) (label : string)
      (patterns : list string) :
  (forall p, In p patterns -> MatchString p content = false) ->
  forall botScore botReasons,
    scan MatchString patterns content weight label botScore botReasons
    = (botScore, botReasons).
Proof.
  induction patterns as [|p rest IH]; intros H botScore botReasons; [reflexivity|].
  cbn [scan]. rewrite (H p (or_introl eq_refl)).
  apply IH. intros q Hq. apply H. right. exact Hq.
Qed.

End BotWalls.

(** X26. A page on which the CAPTCHA check answers yes is always taken for
    a bot wall, with a score between 0.5 and 1, and its block type is
    [captcha], whatever else the page holds and whatever the matcher
    answers for the other patterns. *)
Theorem DetectCaptcha_implies_bot_wall
        (MatchString : string -> string -> bool) (pageContent pageTitle : string) :
  fst (BotDetector.DetectCaptcha MatchString pageContent pageTitle) = true ->
  fst (fst (BotDetector.DetectBotWall MatchString pageContent pageTitle)) = true
  /\ (1 # 2 <= snd (BotDetector.DetectBotWall MatchString pageContent pageTitle))%Q
  /\ (snd (BotDetector.DetectBotWall MatchString pageContent pageTitle) <= 1)%Q
  /\ BotDetector.GetBlockType MatchString pageContent pageTitle = "captcha"%string.
Proof.
  intros Hc.
  pose proof (DetectCaptcha_true MatchString pageContent pageTitle Hc) as H1.
  pose proof (DetectBotWall_score MatchString pageContent pageTitle) as H.
  cbv zeta in H. destruct H as (ind & raw & Hi & Hr & Hs & Hw).
  pose proof (count_nonneg MatchString
                (GoStrings.ToLower (pageContent ++ " " ++ pageTitle))
                BotDetector.botPatterns) as Hb.
  pose proof (count_nonneg MatchString
                (GoStrings.ToLower (pageContent ++ " " ++ pageTitle))
                BotDetector.blockPatterns) as Hh.
  assert (Hind : (1 # 2 <= ind)%Q).
  { rewrite Hi.
    destruct (GoStrings.Contains _ "javascript" && GoStrings.Contains _ "disabled")%bool;
      lra. }
  assert (Hraw : (1 # 2 <= raw)%Q).
  { rewrite Hr. destruct (Nat.ltb _ 1000 && Float64.gt ind 0)%bool; lra. }
  rewrite Hw, Hs.
  assert (Hblock : BotDetector.GetBlockType MatchString pageContent pageTitle
                   = "captcha"%string)
    by (unfold BotDetector.GetBlockType; rewrite Hc; reflexivity).
  destruct (Float64.gt raw 1.0) eqn:Eg.
  - split; [reflexivity|]. split; [lra|]. split; [lra|exact Hblock].
  - apply gt_false in Eg.
    split; [apply gt_true; lra|]. split; [exact Hraw|]. split; [lra|exact Hblock].
Qed.

Lemma DetectCaptcha_implies_bot_wall_witness :
  fst (fst (BotDetector.DetectBotWall BotDetector.matchLiteral Cases.captchaPage "Shop"))
  = true
  /\ (1 # 2
      <= snd (BotDetector.DetectBotWall BotDetector.matchLiteral Cases.captchaPage "Shop"))%Q
  /\ (snd (BotDetector.DetectBotWall BotDetector.matchLiteral Cases.captchaPage "Shop")
      <= 1)%Q
  /\ BotDetector.GetBlockType BotDetector.matchLiteral Cases.captchaPage "Shop"
     = "captcha"%string.
Proof.
  apply (DetectCaptcha_implies_bot_wall BotDetector.matchLiteral Cases.captchaPage "Shop").
  vm_compute. reflexivity.
Defined.

(** X27. The score of [DetectBotWall] lies between 0 and 1 and the page is
    taken for a bot wall exactly when the score is above 0.3. A page on
    which no pattern matches and which does not mention both [javascript]
    and [disabled] scores 0, with no reason, and is not a bot wall. *)
Theorem DetectBotWall_score_is_capped
        (MatchString : string -> string -> bool) (pageContent pageTitle : string) :
  let content := GoStrings.ToLower (pageContent ++ " " ++ pageTitle) in
  let answer := BotDetector.DetectBotWall MatchString pageContent pageTitle in
  (0 <= snd answer)%Q /\ (snd answer <= 1)%Q
  /\ (fst (fst answer) = true <-> (3 # 10 < snd answer)%Q)
  /\ ((forall p, MatchString p content = false) ->
      (GoStrings.Contains content "javascript"
       && GoStrings.Contains content "disabled")%bool = false ->
      answer = (false, ""%string, 0.0%Q)).
Proof.
  intros content answer. subst answer.
  pose proof (DetectBotWall_score MatchString pageContent pageTitle) as H.
  cbv zeta in H. fold content in H. destruct H as (ind & raw & Hi & Hr & Hs & Hw).
  pose proof (count_nonneg MatchString content BotDetector.botPatterns) as Hb.
  pose proof (count_nonneg MatchString content BotDetector.captchaPatterns) as Hc.
  pose proof (count_nonneg MatchString content BotDetector.blockPatterns) as Hh.
  assert (Hind : (0 <= ind)%Q).
  { rewrite Hi.
    destruct (GoStrings.Contains content "javascript"
              && GoStrings.Contains content "disabled")%bool; lra. }
  assert (Hraw : (0 <= raw)%Q).
  { rewrite Hr. destruct (Nat.ltb _ 1000 && Float64.gt ind 0)%bool; lra. }
  split; [|split; [|split]].
  - rewrite Hs. destruct (Float64.gt raw 1.0); [lra|exact Hraw].
  - rewrite Hs. destruct (Float64.gt raw 1.0) eqn:Eg; [lra|].
    apply gt_false in Eg. lra.
  - rewrite Hw, Hs. rewrite gt_true. split; intros H; lra.
  - intros Hnone Hjs. unfold BotDetector.DetectBotWall. fold content.
    rewrite !(scan_none MatchString content) by (intros p _; apply Hnone).
    rewrite Hjs.
    assert (Float64.gt 0.0 0 = false) as -> by reflexivity.
    rewrite andb_false_r. reflexivity.
Qed.

(** X28. A page on which exactly one of the bot patterns matches, and
    nothing else counts, scores 0.3 when it is at least 1000 bytes long and
    0.5 when it is shorter: it is taken for a bot wall exactly when it is
    shorter than 1000 bytes. *)
Theorem lone_bot_pattern_is_a_wall_only_on_a_short_page
        (MatchString : string -> string -> bool) (pageContent pageTitle : string) :
  let content := GoStrings.ToLower (pageContent ++ " " ++ pageTitle) in
  List.length (List.filter (fun p => MatchString p content) BotDetector.botPatterns)
  = 1%nat ->
  List.filter (fun p => MatchString p content) BotDetector.captchaPatterns = [] ->
  List.filter (fun p => MatchString p content) BotDetector.blockPatterns = [] ->
  (GoStrings.Contains content "javascript"
   && GoStrings.Contains content "disabled")%bool = false ->
  fst (fst (BotDetector.DetectBotWall MatchString pageContent pageTitle))
  = Nat.ltb (String.length content) 1000
  /\ (snd (BotDetector.DetectBotWall MatchString pageContent pageTitle)
      == if Nat.ltb (String.length content) 1000 then 1 # 2 else 3 # 10)%Q.
Proof.
  intros content Hb Hc Hh Hjs.
  pose proof (DetectBotWall_score MatchString pageContent pageTitle) as H.
  cbv zeta in H. fold content in H. destruct H as (ind & raw & Hi & Hr & Hs & Hw).
  rewrite Hb, Hc, Hh, Hjs in Hi. cbn [List.length] in Hi.
  change (inject_Z (Z.of_nat 1)) with 1%Q in Hi.
  change (inject_Z (Z.of_nat 0)) with 0%Q in Hi.
  assert (Hind : (ind == 3 # 10)%Q) by (rewrite Hi; reflexivity).
  assert (Float64.gt ind 0 = true) as Hg by (apply gt_true; lra).
  rewrite Hg, andb_true_r in Hr.
  rewrite Hw, Hs, Hr.
  destruct (Nat.ltb (String.length content) 1000).
  - assert (Float64.gt (ind + 0.2) 1.0 = false) as -> by (apply gt_false; lra).
    split; [apply gt_true; lra|lra].
  - assert (Float64.gt ind 1.0 = false) as -> by (apply gt_false; lra).
    split; [apply gt_false; lra|exact Hind].
Qed.

Lemma lone_bot_pattern_is_a_wall_only_on_a_short_page_witness :
  fst (fst (BotDetector.DetectBotWall BotDetector.matchLiteral Cases.longPage "Shop"))
  = Nat.ltb (String.length (GoStrings.ToLower (Cases.longPage ++ " " ++ "Shop"))) 1000
  /\ (snd (BotDetector.DetectBotWall BotDetector.matchLiteral Cases.longPage "Shop")
      == if Nat.ltb (String.length (GoStrings.ToLower (Cases.longPage ++ " " ++ "Shop")))
                    1000
         then 1 # 2 else 3 # 10)%Q.
Proof.
  apply (lone_bot_pattern_is_a_wall_only_on_a_short_page BotDetector.matchLiteral
           Cases.longPage "Shop").
  - vm_compute. reflexivity.
  - vm_compute. reflexivity.
  - vm_compute. reflexivity.
  - vm_compute. reflexivity.
Defined.

(** ** scraper: a vision branch that does not answer *)

Section UnansweredVision.

Import Float64 Models OCR Hybrid Extraction.

Lemma determineFinalResult_without_vision (m : PriceMatchResult) (url : string) :
  OCRSuccess m = false ->
  (NetworkSuccess m = false -> exists e, snd (determineFinalResult m url) = Err e)
  /\ (NetworkSuccess m = true ->
      exists out,
        snd (determineFinalResult m url) = Ok out
        /\ pd_CurrentPrice out = NetworkPrice m
        /\ pd_Confidence out = NetworkConfidence m).
Proof.
  intros Ho. unfold determineFinalResult. rewrite Ho.
  destruct (isAmazonDomain url), (NetworkSuccess m); cbn [andb negb];
    try (destruct (gt (NetworkConfidence m) 0.5)); cbn [snd];
    (split; intros H; try discriminate H; eexists; try reflexivity;
     repeat split; reflexivity).
Qed.

Lemma await_unanswered {A : Type} (start : Z) (t : Branch A) (timeout : Z) :
  (forall d, latency t = Some d -> timeout < d) ->
  await start t timeout = (None, start + timeout).
Proof.
  intros H. unfold await. destruct (latency t) as [d|]; [|reflexivity].
  specialize (H d eq_refl).
  destruct (Z.leb_spec d timeout); [lia|reflexivity].
Qed.

End UnansweredVision.

(** X29. A vision branch that does not answer within its 30 seconds costs
    the check exactly those 30 seconds and leaves the decision to the
    network branch alone: the network branch starts at 30 seconds, and the
    arbitration returns the network's value with the network's confidence
    when the network branch recorded one, on a marketplace page or not, and
    fails otherwise. *)
Theorem unanswered_vision_leaves_the_decision_to_the_network
        (t0 : Z) (ocr : Extraction.Branch Extraction.OCRRun)
        (network : Extraction.Branch Extraction.result_of_network) (url : string) :
  (forall d, Extraction.latency ocr = Some d -> 30 * GoTime.Second < d) ->
  exists r tl,
    Extraction.extractAndMatchPrices t0 ocr network = Ret (r, tl)
    /\ Extraction.networkStart tl = t0 + 30 * GoTime.Second
    /\ Extraction.networkResolved tl
       = t0 + 30 * GoTime.Second
         + Extraction.waited (Extraction.latency network) (20 * GoTime.Second)
    /\ Hybrid.OCRSuccess r = false
    /\ (Hybrid.NetworkSuccess r = false ->
        exists e, snd (Hybrid.determineFinalResult r url) = Err e)
    /\ (Hybrid.NetworkSuccess r = true ->
        exists out,
          snd (Hybrid.determineFinalResult r url) = Ok out
          /\ Models.pd_CurrentPrice out = Hybrid.NetworkPrice r
          /\ Models.pd_Confidence out = Hybrid.NetworkConfidence r).
Proof.
  intros Hocr. unfold Extraction.extractAndMatchPrices.
  rewrite (await_unanswered t0 ocr (30 * GoTime.Second) Hocr).
  change (Extraction.recordOCR Hybrid.emptyResult None) with (Ret Hybrid.emptyResult).
  pose proof (await_time (t0 + 30 * GoTime.Second) network (20 * GoTime.Second)) as Ht.
  destruct (Extraction.await (t0 + 30 * GoTime.Second) network (20 * GoTime.Second))
    as [networkDone t2].
  cbn [snd] in Ht.
  eexists. eexists. split; [reflexivity|].
  cbn [Extraction.networkStart Extraction.networkResolved].
  split; [reflexivity|]. split; [exact Ht|].
  assert (Ho : Hybrid.OCRSuccess
                 (Extraction.recordMatch
                    (Extraction.recordNetwork Hybrid.emptyResult networkDone)) = false).
  { rewrite (proj1 (recordMatch_vision _)), (proj1 (recordNetwork_vision _ _)).
    reflexivity. }
  split; [exact Ho|].
  exact (determineFinalResult_without_vision _ url Ho).
Qed.

Lemma unanswered_vision_leaves_the_decision_to_the_network_witness :
  exists r tl,
    Extraction.extractAndMatchPrices 0 Cases.lateVision Samples.quickNetwork
    = Ret (r, tl)
    /\ Extraction.networkStart tl = 0 + 30 * GoTime.Second
    /\ Extraction.networkResolved tl
       = 0 + 30 * GoTime.Second
         + Extraction.waited (Extraction.latency Samples.quickNetwork)
             (20 * GoTime.Second)
    /\ Hybrid.OCRSuccess r = false
    /\ (Hybrid.NetworkSuccess r = false ->
        exists e, snd (Hybrid.determineFinalResult r Samples.shopURL) = Err e)
    /\ (Hybrid.NetworkSuccess r = true ->
        exists out,
          snd (Hybrid.determineFinalResult r Samples.shopURL) = Ok out
          /\ Models.pd_CurrentPrice out = Hybrid.NetworkPrice r
          /\ Models.pd_Confidence out = Hybrid.NetworkConfidence r).
Proof.
  apply (unanswered_vision_leaves_the_decision_to_the_network 0 Cases.lateVision
           Samples.quickNetwork Samples.shopURL).
  intros d H. injection H as <-. reflexivity.
Defined.

(** ** scraper/price_scraper.go: prices next to fee words *)

Section FeeWords.

Import Float64 GoStrings PriceScraper.

Lemma accepted_fee (text : string) (price : Q) :
  contains_any (ToLower text) feeWords = true ->
  accepted text price = true -> (10 <= price)%Q.
Proof.
  intros Hf. unfold accepted. rewrite Hf, andb_true_r.
  destruct (ge price 2020 && le price 2030)%bool; [discriminate|].
  destruct (lt price 1.0); [discriminate|].
  destruct (gt price 1000000); [discriminate|].
  destruct (lt price 10.0) eqn:E; [discriminate|].
  intros _. apply lt_false in E. lra.
Qed.

Lemma acceptedLenient_twenty (price : Q) :
  acceptedLenient price = true -> (20 <= price)%Q.
Proof.
  unfold acceptedLenient.
  destruct (ge price 2020 && le price 2030)%bool; [discriminate|].
  destruct (gt price 2000); [discriminate|].
  destruct (lt price 20) eqn:E; [discriminate|].
  intros _. apply lt_false. exact E.
Qed.

Lemma strict_loop_fee (text : string) (matches : list (list string)) :
  contains_any (ToLower text) feeWords = true ->
  forall prices,
    Forall (fun p => (10 <= p)%Q) prices ->
    Forall (fun p => (10 <= p)%Q) (strict_loop text matches prices).
Proof.
  intros Hf. induction matches as [|m rest IH]; intros prices Hp; [exact Hp|].
  cbn [strict_loop].
  destruct (nonempty (priceStrOf m)); [|apply IH; exact Hp].
  destruct (Strconv.ParseFloat _) as [price|]; [|apply IH; exact Hp].
  destruct (gt price 0 && accepted text price)%bool eqn:E; [|apply IH; exact Hp].
  apply andb_true_iff in E as [_ E].
  apply IH. apply Forall_app. split; [exact Hp|].
  constructor; [|constructor]. exact (accepted_fee text price Hf E).
Qed.

Lemma lenient_loop_twenty (matches : list (list string)) :
  forall prices,
    Forall (fun p => (20 <= p)%Q) prices ->
    Forall (fun p => (20 <= p)%Q) (lenient_loop matches prices).
Proof.
  induction matches as [|m rest IH]; intros prices Hp; [exact Hp|].
  cbn [lenient_loop].
  destruct (Nat.ltb 1 (List.length m)); [|apply IH; exact Hp].
  destruct (Strconv.ParseFloat _) as [price|]; [|apply IH; exact Hp].
  destruct (gt price 0 && lt price 10000 && acceptedLenient price)%bool eqn:E;
    [|apply IH; exact Hp].
  apply andb_true_iff in E as [_ E].
  apply IH. apply Forall_app. split; [exact Hp|].
  constructor; [|constructor]. exact (acceptedLenient_twenty price E).
Qed.

End FeeWords.

(** X30. From a text that mentions a fee word (shipping, tax, cable,
    manual, minimum and the like) no price below 10 is extracted: such a
    text never yields a product that costs less than 10, whatever currency
    symbols it holds. *)
Theorem no_price_below_ten_next_to_a_fee_word (text : string) :
  GoStrings.contains_any (GoStrings.ToLower text) PriceScraper.feeWords = true ->
  Forall (fun price => (10 <= price)%Q) (PriceScraper.extractAllPrices text).
Proof.
  intros Hf. unfold PriceScraper.extractAllPrices.
  pose proof (strict_loop_fee text
                (Regexp.FindAllStringSubmatch PriceScraper.pricePattern 5 text) Hf []
                (List.Forall_nil _)) as H.
  destruct (PriceScraper.strict_loop text _ []) as [|p ps]; [|exact H].
  destruct (GoStrings.contains_any _ PriceScraper.lenientWords); [|constructor].
  eapply List.Forall_impl; [|apply lenient_loop_twenty; constructor].
  intros a Ha. cbv beta in *. lra.
Qed.

Lemma no_price_below_ten_next_to_a_fee_word_witness :
  Forall (fun price => (10 <= price)%Q)
         (PriceScraper.extractAllPrices "Pen $4.99, lamp $49.99, free shipping").
Proof.
  apply (no_price_below_ten_next_to_a_fee_word "Pen $4.99, lamp $49.99, free shipping").
  vm_compute. reflexivity.
Defined.
